(** * LiftFlow: program synchronisation and feedback engine

    A shallow embedding of the parts of the LiftFlow code base that run when a
    training program is saved (notification generation and automatic PR
    promotion, [save] in the program detail screen), when a client joins a
    coach ([POST /api/join-coach]) and when the hourly video sweep runs
    ([cleanupExpiredVideos]).

    Modelling conventions.
    - A JavaScript string is a [string]: the bytes of its UTF-8 encoding.
      The length of a string and [slice] count UTF-16 code units, as
      JavaScript does.  Case mapping and white space are modelled for the
      ASCII characters; other characters are left as they are.
    - JavaScript numbers are the type [number]: NaN, the two infinities and
      the finite doubles, each as the rational it is.  [parseFloat] rounds
      the decimal it reads to the nearest double, ties to even, overflowing
      to an infinity.
    - A database table is the list of its rows in the order a select returns
      them; an insert appends a row, an update changes rows where they
      stand.  (PostgreSQL may return an updated row at another place; which
      place is not modelled.)  The columns the database fills in by itself
      and that no code below reads (row [id] of a PR or a notification,
      [createdAt], [read]) are left out; a random identifier or a clock
      reading that the code does use is an explicit argument.
    - HTTP transport between the app and the server is the identity: a request
      reaches its route handler and the handler's answer comes back.  The
      signed-in profile is stored, so [getProfile] returns it.
    - On the save path the network and the database are up, and a request
      fails only where the server's answer makes it fail: the update of a
      program that has no row, whose answer has no body, and the insert of a
      PR whose weight the integer column does not take.  The requests of the
      calls of [addNotification], which [save] does not await, are served in
      the order of the calls.
    - In the sweep anything may fail: what fails in a run is an argument of
      the sweep ([Faults.t]), besides the removal of a file that is a
      directory, which always fails. *)

From Stdlib Require Import ZArith QArith List String Ascii Bool Lia DecimalString.
Import ListNotations.

Local Open Scope string_scope.
Local Open Scope Z_scope.

(** ** JavaScript primitives *)

Module JS.

(** *** Strings *)

(** Truthiness of a string: every string but the empty one. *)
Definition truthy (s : string) : bool :=
  match s with EmptyString => false | String _ _ => true end.

(** [a || b] on strings. *)
Definition or_else (a b : string) : string := if truthy a then a else b.

(** Truthiness of [string | null | undefined]. *)
Definition truthy_opt (o : option string) : bool :=
  match o with Some s => truthy s | None => false end.

Definition isUpper (c : ascii) : bool :=
  let n := nat_of_ascii c in (Nat.leb 65 n && Nat.leb n 90)%bool.

Definition isLower (c : ascii) : bool :=
  let n := nat_of_ascii c in (Nat.leb 97 n && Nat.leb n 122)%bool.

Definition lowerChar (c : ascii) : ascii :=
  if isUpper c then ascii_of_nat (nat_of_ascii c + 32) else c.

Definition upperChar (c : ascii) : ascii :=
  if isLower c then ascii_of_nat (nat_of_ascii c - 32) else c.

Fixpoint mapChars (f : ascii -> ascii) (s : string) : string :=
  match s with
  | EmptyString => EmptyString
  | String c r => String (f c) (mapChars f r)
  end.

Definition toLowerCase : string -> string := mapChars lowerChar.
Definition toUpperCase : string -> string := mapChars upperChar.

(** White space as [trim] and [parseFloat] see it (the ASCII part). *)
Definition isWhite (c : ascii) : bool :=
  let n := nat_of_ascii c in
  (Nat.leb 9 n && Nat.leb n 13 || Nat.eqb n 32)%bool.

Fixpoint trimStart (s : string) : string :=
  match s with
  | EmptyString => EmptyString
  | String c r => if isWhite c then trimStart r else s
  end.

Fixpoint rev (s : string) (acc : string) : string :=
  match s with
  | EmptyString => acc
  | String c r => rev r (String c acc)
  end.

Definition trimEnd (s : string) : string :=
  rev (trimStart (rev s EmptyString)) EmptyString.

Definition trim (s : string) : string := trimEnd (trimStart s).

Fixpoint startsWith (s p : string) : bool :=
  match p, s with
  | EmptyString, _ => true
  | String _ _, EmptyString => false
  | String a p', String b s' => (Ascii.eqb a b && startsWith s' p')%bool
  end.

(** [s.includes(sub)] *)
Fixpoint includes (s sub : string) : bool :=
  (startsWith s sub ||
   match s with
   | EmptyString => false
   | String _ r => includes r sub
   end)%bool.

(** How many UTF-16 code units JavaScript counts for the character that
    starts with the byte [c] of its UTF-8 encoding: none for a continuation
    byte, two (a surrogate pair) for the lead byte of a four-byte character,
    one for every other byte. *)
Definition units (c : ascii) : nat :=
  let n := nat_of_ascii c in
  if Nat.ltb n 128 then 1%nat
  else if Nat.ltb n 192 then 0%nat
  else if Nat.ltb n 240 then 1%nat
  else 2%nat.

(** [s.length] *)
Fixpoint length (s : string) : nat :=
  match s with
  | EmptyString => 0%nat
  | String c r => (units c + length r)%nat
  end.

(** U+FFFD, which is what becomes of half a surrogate pair when the string
    is encoded for the request. *)
Definition replacement : string :=
  String (ascii_of_nat 239) (String (ascii_of_nat 191)
    (String (ascii_of_nat 189) EmptyString)).

(** [s.slice(0, n)]: the first [n] code units.  A cut between the halves of
    a surrogate pair keeps the first half alone. *)
Fixpoint slice0 (n : nat) (s : string) : string :=
  match s with
  | EmptyString => EmptyString
  | String c r =>
      match units c, n with
      | O, _ => String c (slice0 n r)
      | S _, O => EmptyString
      | S O, S k => String c (slice0 k r)
      | S (S _), S O => replacement
      | S (S _), S (S k) => String c (slice0 k r)
      end
  end.


(** [s.charAt(0).toUpperCase() + s.slice(1)] *)
Definition capitalize (s : string) : string :=
  match s with
  | EmptyString => EmptyString
  | String c r => String (upperChar c) r
  end.

(** The double quote, as a one-character string. *)
Definition dquote : string := String (ascii_of_nat 34) EmptyString.

(** *** Numbers *)

Inductive number : Type :=
| NaN : number
| NegInfinity : number
| Finite : Q -> number
| Infinity : number.

Definition isNaN (x : number) : bool :=
  match x with NaN => true | _ => false end.

(** [a < b] *)
Definition lt (a b : number) : bool :=
  match a, b with
  | NaN, _ | _, NaN => false
  | NegInfinity, NegInfinity => false
  | NegInfinity, _ => true
  | _, NegInfinity => false
  | Infinity, _ => false
  | Finite _, Infinity => true
  | Finite p, Finite q => negb (Qle_bool q p)
  end.

(** [a > b] *)
Definition gt (a b : number) : bool := lt b a.

(** [a <= b] *)
Definition le (a b : number) : bool :=
  match a, b with
  | NaN, _ | _, NaN => false
  | NegInfinity, _ => true
  | _, Infinity => true
  | Finite p, Finite q => Qle_bool p q
  | _, _ => false
  end.

Definition ofZ (z : Z) : number := Finite (inject_Z z).

(** The integer nearest to [n / d], for [0 <= n]; of two equally near ones
    the even one. *)
Definition roundHalfEven (n : Z) (d : positive) : Z :=
  let q := n / Z.pos d in
  match 2 * (n mod Z.pos d) ?= Z.pos d with
  | Lt => q
  | Gt => q + 1
  | Eq => if Z.even q then q else q + 1
  end.

(** The double nearest to a positive rational: a significand of at most 53
    bits times a power of two not below [2^-1074], or [Infinity] from
    [2^1024] on. *)
Definition doublePos (q : Q) : number :=
  let n := Qnum q in
  let d := Z.pos (Qden q) in
  let e0 := Z.log2 n - Z.log2 d in
  let e :=
    if (if 0 <=? e0 then d * 2 ^ e0 <=? n else d <=? n * 2 ^ (- e0))
    then e0 else e0 - 1 in
  let p := Z.max (e - 52) (-1074) in
  if 0 <=? p then
    let m := roundHalfEven n (Z.to_pos (d * 2 ^ p)) in
    if 2 ^ 1024 <=? m * 2 ^ p then Infinity else Finite (inject_Z (m * 2 ^ p))
  else
    let m := roundHalfEven (n * 2 ^ (- p)) (Qden q) in
    Finite (Qred (Qmake m (Z.to_pos (2 ^ (- p))))).

(** The Number value of a rational: the nearest double. *)
Definition double (q : Q) : number :=
  match Qnum q with
  | Z0 => Finite 0
  | Z.pos _ => doublePos q
  | Z.neg _ =>
      match doublePos (Qopp q) with
      | Finite r => Finite (Qopp r)
      | Infinity => NegInfinity
      | other => other
      end
  end.

(** [Math.max] of two arguments. *)
Definition max2 (a b : number) : number :=
  if (isNaN a || isNaN b)%bool then NaN else if lt a b then b else a.

(** [Math.max(...xs)]; with no argument the result is -Infinity. *)
Definition Math_max (xs : list number) : number :=
  fold_left max2 xs NegInfinity.

(** *** parseFloat *)

Definition digitVal (c : ascii) : option Z :=
  let n := nat_of_ascii c in
  if (Nat.leb 48 n && Nat.leb n 57)%bool then Some (Z.of_nat (n - 48)) else None.

(** Reads the longest run of decimal digits: its value on top of [acc], how
    many digits were read, and the rest of the input. *)
Fixpoint readDigits (s : string) (acc : Z) (cnt : nat) : Z * nat * string :=
  match s with
  | EmptyString => (acc, cnt, s)
  | String c r =>
      match digitVal c with
      | Some d => readDigits r (10 * acc + d) (S cnt)
      | None => (acc, cnt, s)
      end
  end.

(** An optional sign: [true] for a minus. *)
Definition readSign (s : string) : bool * string :=
  match s with
  | String c r =>
      if Ascii.eqb c "-"%char then (true, r)
      else if Ascii.eqb c "+"%char then (false, r)
      else (false, s)
  | EmptyString => (false, s)
  end.

(** An optional exponent part [e[+-]digits]; 0 when there is none. *)
Definition readExponent (s : string) : Z :=
  match s with
  | String c r =>
      if (Ascii.eqb c "e"%char || Ascii.eqb c "E"%char)%bool then
        let '(neg, r1) := readSign r in
        let '(e, n, _) := readDigits r1 0 0%nat in
        match n with
        | O => 0
        | S _ => if neg then - e else e
        end
      else 0
  | EmptyString => 0
  end.

(** The value [m * 10^k] as a rational. *)
Definition scale10 (m k : Z) : Q :=
  if 0 <=? k then inject_Z (m * 10 ^ k) else Qmake m (Z.to_pos (10 ^ (- k))).

Definition parseFloat (input : string) : number :=
  let '(neg, s) := readSign (trimStart input) in
  if startsWith s "Infinity" then (if neg then NegInfinity else Infinity)
  else
    let '(m1, n1, r1) := readDigits s 0 0%nat in
    let '(m, n2, r2) :=
      match r1 with
      | String c r =>
          if Ascii.eqb c "."%char then readDigits r m1 0%nat else (m1, 0%nat, r1)
      | EmptyString => (m1, 0%nat, r1)
      end in
    match (n1 + n2)%nat with
    | O => NaN
    | S _ =>
        let q := scale10 m (readExponent r2 - Z.of_nat n2) in
        double (if neg then Qopp q else q)
    end.

End JS.

(** ** Data model ([lib/storage.ts], [shared/schema.ts]) *)

Inductive LiftType : Type := squat | deadlift | bench.

Inductive WeightUnit : Type := kg | lbs.

Module Role.
Inductive t : Type := coach | client.
End Role.

Module NotificationType.
Inductive t : Type := video | notes | comment | completion | chat.
End NotificationType.

Module Exercise.
Record t : Type := mk {
  id : string;
  name : string;
  weight : string;
  repsSets : string;
  rpe : string;
  isCompleted : bool;
  notes : string;
  clientNotes : string;
  coachComment : string;
  videoUrl : string
}.

(** [ex.videoUrl = v] *)
Definition setVideoUrl (v : string) (ex : t) : t :=
  mk (id ex) (name ex) (weight ex) (repsSets ex) (rpe ex) (isCompleted ex)
     (notes ex) (clientNotes ex) (coachComment ex) v.

(** [{ ...ex, coachComment: c }] *)
Definition setCoachComment (c : string) (ex : t) : t :=
  mk (id ex) (name ex) (weight ex) (repsSets ex) (rpe ex) (isCompleted ex)
     (notes ex) (clientNotes ex) c (videoUrl ex).
End Exercise.

Module WorkoutDay.
Record t : Type := mk {
  dayNumber : Z;
  exercises : list Exercise.t
}.
End WorkoutDay.

Module WorkoutWeek.
Record t : Type := mk {
  weekNumber : Z;
  days : list WorkoutDay.t
}.
End WorkoutWeek.

Module Program.
Record t : Type := mk {
  id : string;
  title : string;
  description : string;
  weeks : list WorkoutWeek.t;
  createdAt : string;
  daysPerWeek : Z;
  shareCode : string;
  coachId : string;
  clientId : option string;
  status : string
}.
End Program.

(** A row of [profiles]; the app's [UserProfile] has the same fields. *)
Module UserProfile.
Record t : Type := mk {
  id : string;
  name : string;
  role : Role.t;
  weightUnit : WeightUnit;
  coachCode : string;
  avatarUrl : string;
  plan : string;
  planUserLimit : Z
}.
End UserProfile.

(** A row of [clients]: the ClientLink. *)
Module Client.
Record t : Type := mk {
  id : string;
  coachId : string;
  clientProfileId : string;
  name : string;
  joinedAt : Z
}.
End Client.

(** What [getClients] hands to the app. *)
Module ClientInfo.
Record t : Type := mk {
  id : string;
  name : string;
  joinedAt : Z;
  clientProfileId : option string
}.
End ClientInfo.

(** A row of [prs]. *)
Module PR.
Record t : Type := mk {
  profileId : string;
  liftType : LiftType;
  weight : JS.number;
  unit : WeightUnit;
  date : string;
  notes : string
}.
End PR.

(** The app's [LiftPR], as [getPRs] returns it and [addPR] takes it. *)
Module LiftPR.
Record t : Type := mk {
  liftType : LiftType;
  weight : JS.number;
  unit : WeightUnit;
  date : string;
  notes : string
}.
End LiftPR.

(** A row of [notifications]. *)
Module Notification.
Record t : Type := mk {
  profileId : string;
  type : NotificationType.t;
  title : string;
  message : string;
  programId : string;
  programTitle : string;
  exerciseName : string;
  fromRole : Role.t
}.
End Notification.

(** The argument of [addNotification]. *)
Module NewNotification.
Record t : Type := mk {
  targetProfileId : option string;
  type : NotificationType.t;
  title : string;
  message : string;
  programId : string;
  programTitle : string;
  exerciseName : string;
  fromRole : Role.t
}.
End NewNotification.

(** A row of [video_uploads]: the VideoArtifact.  Times are milliseconds. *)
Module VideoUpload.
Record t : Type := mk {
  id : string;
  filename : string;
  programId : string;
  exerciseId : string;
  uploadedBy : string;
  coachId : string;
  coachViewedAt : option Z;
  uploadedAt : Z
}.
End VideoUpload.

(** The database. *)
Module Db.
Record t : Type := mk {
  profiles : list UserProfile.t;
  programs : list Program.t;
  clients : list Client.t;
  prs : list PR.t;
  notifications : list Notification.t;
  videoUploads : list VideoUpload.t
}.

Definition setPrograms (v : list Program.t) (d : t) : t :=
  mk (profiles d) v (clients d) (prs d) (notifications d) (videoUploads d).

Definition setClients (v : list Client.t) (d : t) : t :=
  mk (profiles d) (programs d) v (prs d) (notifications d) (videoUploads d).

Definition setPrs (v : list PR.t) (d : t) : t :=
  mk (profiles d) (programs d) (clients d) v (notifications d) (videoUploads d).

Definition setNotifications (v : list Notification.t) (d : t) : t :=
  mk (profiles d) (programs d) (clients d) (prs d) v (videoUploads d).

Definition setVideoUploads (v : list VideoUpload.t) (d : t) : t :=
  mk (profiles d) (programs d) (clients d) (prs d) (notifications d) v.
End Db.

Definition LiftType_eqb (a b : LiftType) : bool :=
  match a, b with
  | squat, squat | deadlift, deadlift | bench, bench => true
  | _, _ => false
  end.

(** [for week of weeks, for day of week.days, for ex of day.exercises],
    threading the state the loop body acts on. *)
Definition forEachExercise {S : Type} (weeks : list WorkoutWeek.t)
    (body : WorkoutWeek.t -> WorkoutDay.t -> Exercise.t -> S -> S) (s : S) : S :=
  fold_left (fun s1 week =>
    fold_left (fun s2 day =>
      fold_left (fun s3 ex => body week day ex s3)
        (WorkoutDay.exercises day) s2)
      (WorkoutWeek.days week) s1)
    weeks s.

(** The exercises of a document in traversal order. *)
Definition allExercises (weeks : list WorkoutWeek.t) : list Exercise.t :=
  flat_map (fun week => flat_map WorkoutDay.exercises (WorkoutWeek.days week)) weeks.

(** How a block of statements ends: normally, or by an exception, in either
    case with the state it has reached. *)
Inductive Outcome (A : Type) : Type :=
| Done : A -> Outcome A
| Thrown : A -> Outcome A.

Arguments Done {A} _.
Arguments Thrown {A} _.

Definition andThen {A : Type} (o : Outcome A) (k : A -> Outcome A) : Outcome A :=
  match o with
  | Done a => k a
  | Thrown a => Thrown a
  end.

(** The state a block of statements has reached, however it ended. *)
Definition stateOf {A : Type} (o : Outcome A) : A :=
  match o with
  | Done a => a
  | Thrown a => a
  end.

(** ** The app's storage layer ([lib/storage.ts]) over the server's routes *)

(** [p.clientId || p.client_id || null] *)
Definition orNull (o : option string) : option string :=
  if JS.truthy_opt o then o else None.

(** [getProgram(id)]: [GET /api/programs/:id] takes the first row with that
    id; a 404 becomes [null]. *)
Definition getProgram (db : Db.t) (id : string) : option Program.t :=
  match find (fun p => String.eqb (Program.id p) id) (Db.programs db) with
  | Some p =>
      Some (Program.mk (Program.id p) (Program.title p) (Program.description p)
              (Program.weeks p) (Program.createdAt p) (Program.daysPerWeek p)
              (Program.shareCode p) (Program.coachId p)
              (orNull (Program.clientId p))
              (JS.or_else (Program.status p) "active"))
  | None => None
  end.

(** [PUT /api/programs/:id] in the database: title, description, weeks,
    daysPerWeek, clientId and status of the rows with that id are
    overwritten. *)
Definition putProgram (program : Program.t) (db : Db.t) : Db.t :=
  Db.setPrograms
    (map (fun p =>
       if String.eqb (Program.id p) (Program.id program) then
         Program.mk (Program.id p) (Program.title program)
           (Program.description program) (Program.weeks program)
           (Program.createdAt p) (Program.daysPerWeek program)
           (Program.shareCode p) (Program.coachId p)
           (Program.clientId program) (Program.status program)
       else p) (Db.programs db)) db.

(** [updateProgram(program)].  The route answers the first row it has
    updated, with status 200 also when there is none: then the body is
    empty, [res.json()] in [apiPut] throws and the promise is rejected. *)
Definition updateProgram (program : Program.t) (db : Db.t) : Outcome Db.t :=
  match find (fun p => String.eqb (Program.id p) (Program.id program))
             (Db.programs db) with
  | Some _ => Done (putProgram program db)
  | None => Thrown (putProgram program db)
  end.

(** [getClients()]: [GET /api/clients?coachId=<own profile id>].  The route
    sorts the rows by [joinedAt]; the order is left out, the one use of the
    result below looks a row up by [id], the table's primary key. *)
Definition getClients (profile : UserProfile.t) (db : Db.t) : list ClientInfo.t :=
  map (fun c =>
         ClientInfo.mk (Client.id c) (Client.name c) (Client.joinedAt c)
           (if JS.truthy (Client.clientProfileId c)
            then Some (Client.clientProfileId c) else None))
      (filter (fun c => String.eqb (Client.coachId c) (UserProfile.id profile))
              (Db.clients db)).

(** [getPRs()]: [GET /api/prs?profileId=<own profile id>]. *)
Definition getPRs (profile : UserProfile.t) (db : Db.t) : list LiftPR.t :=
  map (fun p => LiftPR.mk (PR.liftType p) (PR.weight p) (PR.unit p) (PR.date p) (PR.notes p))
      (filter (fun p => String.eqb (PR.profileId p) (UserProfile.id profile))
              (Db.prs db)).

(** What the column [weight integer not null] of [prs] takes: a whole number
    from -2^31 to 2^31 - 1.  The driver hands the number over as text, and
    the database refuses a fraction, a number out of range, one written
    with an exponent (from 1e21 on), and [null], which is what JSON makes of
    NaN and of an infinity. *)
Definition fitsInteger (x : JS.number) : bool :=
  match x with
  | JS.Finite q =>
      let n := Qnum q in
      let d := Z.pos (Qden q) in
      ((n mod d =? 0) && (-2147483648 <=? n / d) && (n / d <=? 2147483647))%bool
  | _ => false
  end.

(** [addPR(pr)]: [POST /api/prs] inserts one row for the own profile.  When
    the database refuses the row the route answers 500 and [apiPost]
    throws. *)
Definition addPR (profile : UserProfile.t) (pr : LiftPR.t) (db : Db.t) : Outcome Db.t :=
  if fitsInteger (LiftPR.weight pr) then
    Done
      (Db.setPrs
         (Db.prs db ++
          [PR.mk (UserProfile.id profile) (LiftPR.liftType pr) (LiftPR.weight pr)
             (LiftPR.unit pr) (LiftPR.date pr) (LiftPR.notes pr)]) db)
  else Thrown db.

(** [addNotification(n)]: [POST /api/notifications] inserts one row, for
    [n.targetProfileId || profile.id]. *)
Definition addNotification (profile : UserProfile.t) (n : NewNotification.t)
    (db : Db.t) : Db.t :=
  Db.setNotifications
    (Db.notifications db ++
     [Notification.mk
        (if JS.truthy_opt (NewNotification.targetProfileId n)
         then match NewNotification.targetProfileId n with
              | Some t => t
              | None => UserProfile.id profile
              end
         else UserProfile.id profile)
        (NewNotification.type n) (NewNotification.title n)
        (NewNotification.message n) (NewNotification.programId n)
        (NewNotification.programTitle n) (NewNotification.exerciseName n)
        (NewNotification.fromRole n)]) db.

(** ** Saving a program ([save] of the program detail screen) *)

(** The old exercise a new one is compared with: [oldWeek], [oldDay] and
    [oldEx] of the notification loop. *)
Definition oldEx (oldProgram : Program.t) (week : WorkoutWeek.t)
    (day : WorkoutDay.t) (ex : Exercise.t) : option Exercise.t :=
  match find (fun w => WorkoutWeek.weekNumber w =? WorkoutWeek.weekNumber week)
             (Program.weeks oldProgram) with
  | Some oldWeek =>
      match find (fun d => WorkoutDay.dayNumber d =? WorkoutDay.dayNumber day)
                 (WorkoutWeek.days oldWeek) with
      | Some oldDay =>
          find (fun e => String.eqb (Exercise.id e) (Exercise.id ex))
               (WorkoutDay.exercises oldDay)
      | None => None
      end
  | None => None
  end.

(** The profile the notifications of a save are meant for. *)
Definition targetProfileId (profile : UserProfile.t) (isCoach : bool)
    (program : Program.t) (db : Db.t) : option string :=
  if negb isCoach then Some (Program.coachId program)
  else
    match Program.clientId program with
    | Some clientId =>
        if JS.truthy clientId then
          match find (fun c => String.eqb (ClientInfo.id c) clientId)
                     (getClients profile db) with
          | Some clientRecord => ClientInfo.clientProfileId clientRecord
          | None => None
          end
        else None
    | None => None
    end.

Definition notesNotification (target : option string) (program : Program.t)
    (ex : Exercise.t) : NewNotification.t :=
  NewNotification.mk target NotificationType.notes "New Client Notes"
    ("Notes added on " ++ Exercise.name ex ++ ": " ++ JS.dquote
       ++ JS.slice0 60 (Exercise.clientNotes ex) ++ JS.dquote)
    (Program.id program) (Program.title program) (Exercise.name ex) Role.client.

Definition videoNotification (target : option string) (program : Program.t)
    (ex : Exercise.t) : NewNotification.t :=
  NewNotification.mk target NotificationType.video "Form Check Video"
    ("Video uploaded for " ++ Exercise.name ex)
    (Program.id program) (Program.title program) (Exercise.name ex) Role.client.

Definition completionNotification (target : option string) (program : Program.t)
    (ex : Exercise.t) : NewNotification.t :=
  NewNotification.mk target NotificationType.completion "Exercise Completed"
    (Exercise.name ex ++ " marked as completed")
    (Program.id program) (Program.title program) (Exercise.name ex) Role.client.

Definition commentNotification (target : option string) (program : Program.t)
    (ex : Exercise.t) : NewNotification.t :=
  NewNotification.mk target NotificationType.comment "New Coach Feedback"
    ("Coach commented on " ++ Exercise.name ex ++ ": " ++ JS.dquote
       ++ JS.slice0 60 (Exercise.coachComment ex) ++ JS.dquote)
    (Program.id program) (Program.title program) (Exercise.name ex) Role.coach.

(** [a && a !== b] on strings. *)
Definition setAndChanged (a b : string) : bool :=
  (JS.truthy a && negb (String.eqb a b))%bool.

(** The body of the notification loop for one exercise. *)
Definition notifyExercise (profile : UserProfile.t) (isCoach : bool)
    (target : option string) (program oldProgram : Program.t)
    (week : WorkoutWeek.t) (day : WorkoutDay.t) (ex : Exercise.t)
    (db : Db.t) : Db.t :=
  match oldEx oldProgram week day ex with
  | None => db
  | Some old =>
      if negb (JS.truthy (Exercise.name ex)) then db
      else if negb isCoach then
        let db1 :=
          if setAndChanged (Exercise.clientNotes ex) (Exercise.clientNotes old)
          then addNotification profile (notesNotification target program ex) db
          else db in
        let db2 :=
          if setAndChanged (Exercise.videoUrl ex) (Exercise.videoUrl old)
          then addNotification profile (videoNotification target program ex) db1
          else db1 in
        if (Exercise.isCompleted ex && negb (Exercise.isCompleted old))%bool
        then addNotification profile (completionNotification target program ex) db2
        else db2
      else
        if setAndChanged (Exercise.coachComment ex) (Exercise.coachComment old)
        then addNotification profile (commentNotification target program ex) db
        else db
  end.

(** [liftKeywords], in the order [Object.entries] lists it. *)
Definition liftKeywords : list (string * LiftType) :=
  [ ("squat", squat); ("back squat", squat); ("front squat", squat);
    ("bench", bench); ("bench press", bench); ("flat bench", bench);
    ("deadlift", deadlift); ("sumo deadlift", deadlift);
    ("conventional deadlift", deadlift) ].

(** The first keyword the lowered name includes decides the lift type. *)
Definition liftTypeOf (exNameLower : string) : option LiftType :=
  match find (fun kv => JS.includes exNameLower (fst kv)) liftKeywords with
  | Some kv => Some (snd kv)
  | None => None
  end.

(** [currentBest]: the greatest weight among the existing PRs of the lift
    type, 0 when there is none. *)
Definition currentBest (existingPRs : list LiftPR.t) (liftType : LiftType) : JS.number :=
  let bestExisting :=
    filter (fun p => LiftType_eqb (LiftPR.liftType p) liftType) existingPRs in
  match bestExisting with
  | [] => JS.ofZ 0
  | _ :: _ => JS.Math_max (map LiftPR.weight bestExisting)
  end.

(** The body of the PR loop for one exercise; [existingPRs] is the ledger as
    it was read before the loop.  It throws when [addPR] does. *)
Definition scanExercise (profile : UserProfile.t) (today : string)
    (program : Program.t) (existingPRs : list LiftPR.t) (ex : Exercise.t)
    (db : Db.t) : Outcome Db.t :=
  if (negb (JS.truthy (Exercise.name ex)) || negb (JS.truthy (Exercise.weight ex))
      || negb (Exercise.isCompleted ex))%bool then Done db
  else
    match liftTypeOf (JS.trim (JS.toLowerCase (Exercise.name ex))) with
    | None => Done db
    | Some liftType =>
        let weightNum := JS.parseFloat (Exercise.weight ex) in
        if (JS.isNaN weightNum || JS.le weightNum (JS.ofZ 0))%bool then Done db
        else if JS.gt weightNum (currentBest existingPRs liftType) then
          addPR profile
            (LiftPR.mk liftType weightNum (UserProfile.weightUnit profile) today
               ("Auto-logged from " ++ Program.title program ++ " - "
                  ++ Exercise.name ex)) db
        else Done db
    end.

(** The promise of [save]: [profile] is the signed-in profile, [isCoach] and
    [program] the screen's state, [today] the current date as [YYYY-MM-DD].
    [Thrown] is a rejected promise.  When [updateProgram] throws, nothing
    after it runs.  The PR loops sit in one [try]: the first exception leaves
    them for the [catch], which logs it, and the promise is fulfilled. *)
Definition savePromise (profile : UserProfile.t) (isCoach : bool) (today : string)
    (program : Program.t) (db : Db.t) : Outcome Db.t :=
  let oldProgram := getProgram db (Program.id program) in
  andThen (updateProgram program db) (fun db1 =>
    let db2 :=
      match oldProgram with
      | Some old =>
          let target := targetProfileId profile isCoach program db1 in
          forEachExercise (Program.weeks program)
            (notifyExercise profile isCoach target program old) db1
      | None => db1
      end in
    if negb isCoach then
      let existingPRs := getPRs profile db2 in
      Done
        (stateOf
           (forEachExercise (Program.weeks program)
              (fun _ _ ex tried =>
                 andThen tried (scanExercise profile today program existingPRs ex))
              (Done db2)))
    else Done db2).

(** [save]: the database once the promise is settled. *)
Definition save (profile : UserProfile.t) (isCoach : bool) (today : string)
    (program : Program.t) (db : Db.t) : Db.t :=
  stateOf (savePromise profile isCoach today program db).

(** ** Joining a coach ([POST /api/join-coach]) *)

Module JoinBody.
Record t : Type := mk {
  coachId : string;
  coachName : string;
  client : Client.t
}.
End JoinBody.

(** What a route handler answers. *)
Inductive Response (A : Type) : Type :=
| Json : A -> Response A
| Status : Z -> string -> Response A.

Arguments Json {A} _.
Arguments Status {A} _ _.

(** [`${n}`] for an integer. *)
Definition numberToString (n : Z) : string :=
  DecimalString.NilZero.string_of_int (Z.to_int n).

Definition planName (plan : string) : string :=
  if String.eqb plan "free" then "Free"
  else if String.eqb plan "tier_5" then "Starter"
  else if String.eqb plan "tier_10" then "Growth"
  else if String.eqb plan "saas" then "SaaS"
  else JS.capitalize plan.

Definition limitMessage (plan : string) (limit : Z) : string :=
  "This coach has reached their " ++ planName plan ++ " plan limit of "
    ++ numberToString limit ++ " client" ++ (if limit =? 1 then "" else "s")
    ++ ". The coach needs to upgrade their plan to accept more clients.".

Definition Role_eqb (a b : Role.t) : bool :=
  match a, b with
  | Role.coach, Role.coach | Role.client, Role.client => true
  | _, _ => false
  end.

(** The handler.  [newId] is the [randomUUID()] of the row it may insert and
    [now] the time the database stamps it with. *)
Definition joinCoach (newId : string) (now : Z)
    (code clientProfileId clientName : string) (db : Db.t)
    : Response JoinBody.t * Db.t :=
  match find (fun p => (String.eqb (UserProfile.coachCode p) (JS.toUpperCase code)
                        && Role_eqb (UserProfile.role p) Role.coach)%bool)
             (Db.profiles db) with
  | None => (Status 404 "Invalid coach code", db)
  | Some coach =>
      let inserted :=
        let client := Client.mk newId (UserProfile.id coach) clientProfileId
                        (JS.or_else clientName "Client") now in
        (Json (JoinBody.mk (UserProfile.id coach) (UserProfile.name coach) client),
         Db.setClients (Db.clients db ++ [client]) db) in
      match filter (fun c => (String.eqb (Client.coachId c) (UserProfile.id coach)
                              && String.eqb (Client.clientProfileId c) clientProfileId)%bool)
                   (Db.clients db) with
      | existing :: _ =>
          (Json (JoinBody.mk (UserProfile.id coach) (UserProfile.name coach) existing), db)
      | [] =>
          match filter (fun c => String.eqb (Client.clientProfileId c) clientProfileId)
                       (Db.clients db) with
          | _ :: _ =>
              (Status 400
                 "You already have a coach. Remove your current coach before joining a new one.",
               db)
          | [] =>
              match find (fun p => String.eqb (UserProfile.id p) (UserProfile.id coach))
                         (Db.profiles db) with
              | Some coachProfile =>
                  let plan := JS.or_else (UserProfile.plan coachProfile) "free" in
                  let limit :=
                    if UserProfile.planUserLimit coachProfile =? 0 then 1
                    else UserProfile.planUserLimit coachProfile in
                  let currentClients :=
                    filter (fun c => String.eqb (Client.coachId c) (UserProfile.id coach))
                           (Db.clients db) in
                  if limit <=? Z.of_nat (List.length currentClients)
                  then (Status 403 (limitMessage plan limit), db)
                  else inserted
              | None => inserted
              end
          end
      end
  end.

(** ** The video sweep ([cleanupExpiredVideos]) *)

(** What a name in the uploads directory may be.  [fs.unlinkSync] removes a
    regular file and throws on a directory. *)
Inductive FsEntry : Type := RegularFile | Directory.

(** The server: its database and its uploads directory. *)
Module Server.
Record t : Type := mk {
  db : Db.t;
  uploads : list (string * FsEntry)
}.
End Server.

(** Where the processing of one record fails, when it does: at the removal
    of the file, at the select of the programs, at the update of the
    program that select has returned at index [k], or at the delete of the
    record. *)
Inductive Stage : Type :=
| atUnlink : Stage
| atSelect : Stage
| atUpdate : nat -> Stage
| atDelete : Stage.

(** What fails in one run of the sweep: the selects of the expired records,
    or, for the record at a position of the batch, a stage of its
    processing.  A stage that the processing does not reach, or does not
    have, fails nothing. *)
Module Faults.
Record t : Type := mk {
  selects : bool;
  item : nat -> option Stage
}.

Definition none : t := mk false (fun _ => None).
End Faults.

Definition failsUnlink (fault : option Stage) : bool :=
  match fault with Some atUnlink => true | _ => false end.

Definition failsSelect (fault : option Stage) : bool :=
  match fault with Some atSelect => true | _ => false end.

Definition failsUpdate (fault : option Stage) (k : nat) : bool :=
  match fault with Some (atUpdate j) => Nat.eqb j k | _ => false end.

Definition failsDelete (fault : option Stage) : bool :=
  match fault with Some atDelete => true | _ => false end.

(** Every segment of the name, between its slashes, is empty, [.] or [..];
    [dots] counts the dots of the segment being read. *)
Fixpoint dotsOnly (s : string) (dots : nat) : bool :=
  match s with
  | EmptyString => Nat.leb dots 2
  | String c r =>
      if Ascii.eqb c "/"%char then (Nat.leb dots 2 && dotsOnly r 0)%bool
      else if Ascii.eqb c "."%char then dotsOnly r (S dots)
      else false
  end.

(** What [path.join(uploadsDir, filename)] is on the disk.  The empty name,
    and any name made of [.], [..] and slashes only, is the uploads
    directory or one above it; any other name is looked up in the uploads
    directory as it is written.  (A second way of writing the name of a
    file, such as [./a.mp4] for [a.mp4], is not resolved; the names the
    upload route gives, a UUID and an extension, have no slash.) *)
Definition entryAt (filename : string) (uploads : list (string * FsEntry))
    : option FsEntry :=
  if dotsOnly filename 0 then Some Directory
  else
    match find (fun e => String.eqb (fst e) filename) uploads with
    | Some (_, entry) => Some entry
    | None => None
    end.

(** [if (fs.existsSync(filePath)) fs.unlinkSync(filePath)]; [fails] says
    that the removal of a regular file fails. *)
Definition unlinkIfExists (fails : bool) (filename : string)
    (uploads : list (string * FsEntry)) : Outcome (list (string * FsEntry)) :=
  match entryAt filename uploads with
  | None => Done uploads
  | Some Directory => Thrown uploads
  | Some RegularFile =>
      if fails then Thrown uploads
      else Done (filter (fun e => negb (String.eqb (fst e) filename)) uploads)
  end.

(** The test of the innermost loop of the sweep. *)
Definition referencesVideo (record : VideoUpload.t) (ex : Exercise.t) : bool :=
  (String.eqb (Exercise.id ex) (VideoUpload.exerciseId record)
   && JS.truthy (Exercise.videoUrl ex)
   && JS.includes (Exercise.videoUrl ex) (VideoUpload.filename record))%bool.

(** The three nested loops over [prog.weeks]: the document they leave. *)
Definition blankVideo (record : VideoUpload.t) (weeks : list WorkoutWeek.t)
    : list WorkoutWeek.t :=
  map (fun week =>
    WorkoutWeek.mk (WorkoutWeek.weekNumber week)
      (map (fun day =>
         WorkoutDay.mk (WorkoutDay.dayNumber day)
           (map (fun ex =>
              if referencesVideo record ex then Exercise.setVideoUrl "" ex else ex)
              (WorkoutDay.exercises day)))
        (WorkoutWeek.days week)))
    weeks.

(** The flag [changed] the loops leave. *)
Definition changed (record : VideoUpload.t) (weeks : list WorkoutWeek.t) : bool :=
  existsb (referencesVideo record) (allExercises weeks).

(** [db.update(programs).set({ weeks }).where(eq(programs.id, id))] *)
Definition setWeeks (id : string) (weeks : list WorkoutWeek.t) (db : Db.t) : Db.t :=
  Db.setPrograms
    (map (fun p =>
       if String.eqb (Program.id p) id then
         Program.mk (Program.id p) (Program.title p) (Program.description p) weeks
           (Program.createdAt p) (Program.daysPerWeek p) (Program.shareCode p)
           (Program.coachId p) (Program.clientId p) (Program.status p)
       else p) (Db.programs db)) db.

(** [for (const prog of allPrograms) { ... }]; [k] is the index of the first
    program of the list. *)
Fixpoint blankPrograms (fault : option Stage) (record : VideoUpload.t)
    (allPrograms : list Program.t) (k : nat) (db : Db.t) : Outcome Db.t :=
  match allPrograms with
  | [] => Done db
  | prog :: rest =>
      if changed record (Program.weeks prog) then
        if failsUpdate fault k then Thrown db
        else
          blankPrograms fault record rest (S k)
            (setWeeks (Program.id prog) (blankVideo record (Program.weeks prog)) db)
      else blankPrograms fault record rest (S k) db
  end.

(** The body of the sweep's loop for one record. *)
Definition processRecord (fault : option Stage) (record : VideoUpload.t)
    (srv : Server.t) : Outcome Server.t :=
  match unlinkIfExists (failsUnlink fault) (VideoUpload.filename record)
          (Server.uploads srv) with
  | Thrown _ => Thrown srv
  | Done uploads =>
      let db := Server.db srv in
      if failsSelect fault then Thrown (Server.mk db uploads)
      else
        let allPrograms :=
          filter (fun p => String.eqb (Program.id p) (VideoUpload.programId record))
                 (Db.programs db) in
        match blankPrograms fault record allPrograms 0 db with
        | Thrown db1 => Thrown (Server.mk db1 uploads)
        | Done db1 =>
            if failsDelete fault then Thrown (Server.mk db1 uploads)
            else
              Done
                (Server.mk
                   (Db.setVideoUploads
                      (filter (fun v => negb (String.eqb (VideoUpload.id v)
                                                (VideoUpload.id record)))
                              (Db.videoUploads db1)) db1)
                   uploads)
        end
  end.

(** [for (const record of toDelete) { ... }]; [i] is the position of the
    first record of the list in the batch. *)
Fixpoint processAll (item : nat -> option Stage) (i : nat)
    (toDelete : list VideoUpload.t) (srv : Server.t) : Outcome Server.t :=
  match toDelete with
  | [] => Done srv
  | record :: rest =>
      andThen (processRecord (item i) record srv) (processAll item (S i) rest)
  end.

Definition day_ms : Z := 24 * 60 * 60 * 1000.

Definition viewedExpired (now : Z) (db : Db.t) : list VideoUpload.t :=
  filter (fun v => match VideoUpload.coachViewedAt v with
                   | Some t => t <? now - 3 * day_ms
                   | None => false
                   end) (Db.videoUploads db).

Definition unviewedExpired (now : Z) (db : Db.t) : list VideoUpload.t :=
  filter (fun v => match VideoUpload.coachViewedAt v with
                   | Some _ => false
                   | None => VideoUpload.uploadedAt v <? now - 7 * day_ms
                   end) (Db.videoUploads db).

(** The sweep: the server it leaves, and whether its [catch] logged an error. *)
Definition cleanupExpiredVideos (faults : Faults.t) (now : Z) (srv : Server.t)
    : Server.t * bool :=
  if Faults.selects faults then (srv, true)
  else
    let toDelete :=
      (viewedExpired now (Server.db srv) ++ unviewedExpired now (Server.db srv))%list in
    match processAll (Faults.item faults) 0 toDelete srv with
    | Done srv' => (srv', false)
    | Thrown srv' => (srv', true)
    end.

(** ** Auxiliary definitions for the statements below *)

Definition emptyDb : Db.t := Db.mk [] [] [] [] [] [].

(** The PR rows the PR loop's body asks the database to insert for one
    exercise: none or one. *)
Definition promotions (profile : UserProfile.t) (today : string)
    (program : Program.t) (existingPRs : list LiftPR.t) (ex : Exercise.t) : list PR.t :=
  if (negb (JS.truthy (Exercise.name ex)) || negb (JS.truthy (Exercise.weight ex))
      || negb (Exercise.isCompleted ex))%bool then []
  else
    match liftTypeOf (JS.trim (JS.toLowerCase (Exercise.name ex))) with
    | None => []
    | Some liftType =>
        let weightNum := JS.parseFloat (Exercise.weight ex) in
        if (JS.isNaN weightNum || JS.le weightNum (JS.ofZ 0))%bool then []
        else if JS.gt weightNum (currentBest existingPRs liftType) then
          [PR.mk (UserProfile.id profile) liftType weightNum
             (UserProfile.weightUnit profile) today
             ("Auto-logged from " ++ Program.title program ++ " - "
                ++ Exercise.name ex)]
        else []
    end.

(** The database takes the row. *)
Definition storable (r : PR.t) : bool := fitsInteger (PR.weight r).

(** The longest initial part of a list whose elements all pass the test. *)
Fixpoint takeWhile {A : Type} (f : A -> bool) (l : list A) : list A :=
  match l with
  | [] => []
  | x :: rest => if f x then x :: takeWhile f rest else []
  end.

(** The program has a row in the database. *)
Definition stored (program : Program.t) (db : Db.t) : bool :=
  existsb (fun p => String.eqb (Program.id p) (Program.id program)) (Db.programs db).

(** The notification rows the notification loop's body inserts for one
    exercise. *)
Definition emitted (profile : UserProfile.t) (isCoach : bool)
    (target : option string) (program oldProgram : Program.t)
    (week : WorkoutWeek.t) (day : WorkoutDay.t) (ex : Exercise.t) : list Notification.t :=
  Db.notifications
    (notifyExercise profile isCoach target program oldProgram week day ex emptyDb).

(** The rows a traversal of a document collects, in traversal order. *)
Definition collect {A : Type} (weeks : list WorkoutWeek.t)
    (out : WorkoutWeek.t -> WorkoutDay.t -> Exercise.t -> list A) : list A :=
  flat_map (fun week =>
    flat_map (fun day => flat_map (out week day) (WorkoutDay.exercises day))
      (WorkoutWeek.days week)) weeks.

(** An exercise the PR scan takes up for lift type [liftType] with the
    number [w]: named, with a weight, completed, its name containing a
    keyword of that lift type and its weight reading as [w], a positive
    number. *)
Definition scannedAs (liftType : LiftType) (w : JS.number) (ex : Exercise.t) : Prop :=
  JS.truthy (Exercise.name ex) = true /\
  JS.truthy (Exercise.weight ex) = true /\
  Exercise.isCompleted ex = true /\
  liftTypeOf (JS.trim (JS.toLowerCase (Exercise.name ex))) = Some liftType /\
  JS.parseFloat (Exercise.weight ex) = w /\
  JS.gt w (JS.ofZ 0) = true.

(** The PR row the scan inserts for such an exercise. *)
Definition promotedRow (profile : UserProfile.t) (today : string)
    (program : Program.t) (liftType : LiftType) (w : JS.number) (ex : Exercise.t) : PR.t :=
  PR.mk (UserProfile.id profile) liftType w (UserProfile.weightUnit profile) today
    ("Auto-logged from " ++ Program.title program ++ " - " ++ Exercise.name ex).

(** The database the notification loop of [save] leaves. *)
Definition afterNotifications (profile : UserProfile.t) (isCoach : bool)
    (program : Program.t) (db : Db.t) : Db.t :=
  match getProgram db (Program.id program) with
  | Some old =>
      forEachExercise (Program.weeks program)
        (notifyExercise profile isCoach
           (targetProfileId profile isCoach program (putProgram program db))
           program old) (putProgram program db)
  | None => putProgram program db
  end.


(** The keys of a document are unique: no two weeks with the same week
    number, no two days of a week with the same day number, no two exercises
    of a day with the same identifier. *)
Definition uniqueKeys (weeks : list WorkoutWeek.t) : Prop :=
  NoDup (map WorkoutWeek.weekNumber weeks) /\
  forall w, In w weeks ->
    NoDup (map WorkoutDay.dayNumber (WorkoutWeek.days w)) /\
    forall d, In d (WorkoutWeek.days w) ->
      NoDup (map Exercise.id (WorkoutDay.exercises d)).

(** A document with one exercise singled out: [e] is the exercise at some
    place of the document, the lists are what comes before and after it in
    its day, its week and the document. *)
Definition weeksAround (ws1 : list WorkoutWeek.t) (weekNumber : Z)
    (ds1 : list WorkoutDay.t) (dayNumber : Z) (es1 : list Exercise.t)
    (e : Exercise.t) (es2 : list Exercise.t) (ds2 : list WorkoutDay.t)
    (ws2 : list WorkoutWeek.t) : list WorkoutWeek.t :=
  (ws1 ++
   WorkoutWeek.mk weekNumber
     (ds1 ++ WorkoutDay.mk dayNumber (es1 ++ e :: es2) :: ds2)
   :: ws2)%list.

(** The pairing the specification words: the exercise at the same exercise
    index of the old day with the same day number in the old week with the
    same week number. *)
Definition positionalOldEx (oldProgram : Program.t) (weekNumber dayNumber : Z)
    (index : nat) : option Exercise.t :=
  match find (fun w => WorkoutWeek.weekNumber w =? weekNumber)
             (Program.weeks oldProgram) with
  | Some oldWeek =>
      match find (fun d => WorkoutDay.dayNumber d =? dayNumber)
                 (WorkoutWeek.days oldWeek) with
      | Some oldDay => nth_error (WorkoutDay.exercises oldDay) index
      | None => None
      end
  | None => None
  end.

(** [program] with another document. *)
Definition withWeeks (weeks : list WorkoutWeek.t) (program : Program.t) : Program.t :=
  Program.mk (Program.id program) (Program.title program)
    (Program.description program) weeks (Program.createdAt program)
    (Program.daysPerWeek program) (Program.shareCode program)
    (Program.coachId program) (Program.clientId program) (Program.status program).

(** The document [weeksAround] describes, without the exercise singled out. *)
Definition weeksWithout (ws1 : list WorkoutWeek.t) (weekNumber : Z)
    (ds1 : list WorkoutDay.t) (dayNumber : Z) (es1 es2 : list Exercise.t)
    (ds2 : list WorkoutDay.t) (ws2 : list WorkoutWeek.t) : list WorkoutWeek.t :=
  (ws1 ++
   WorkoutWeek.mk weekNumber
     (ds1 ++ WorkoutDay.mk dayNumber (es1 ++ es2) :: ds2)
   :: ws2)%list.

(** No exercise of the document passes the test of the sweep's innermost
    loop. *)
Definition noReference (record : VideoUpload.t) (weeks : list WorkoutWeek.t) : Prop :=
  forall ex, In ex (allExercises weeks) -> referencesVideo record ex = false.

(** The statement of the sweep's loop over the programs of a record. *)
Definition blankStep (record : VideoUpload.t) (d : Db.t) (prog : Program.t) : Db.t :=
  if changed record (Program.weeks prog)
  then setWeeks (Program.id prog) (blankVideo record (Program.weeks prog)) d
  else d.

(** ** Sample data *)

Module Sample.

Definition coach : UserProfile.t :=
  UserProfile.mk "coach-1" "Casey" Role.coach kg "ABC123" "" "tier_5" 5.

Definition client : UserProfile.t :=
  UserProfile.mk "client-1" "Robin" Role.client kg "ZZZ999" "" "free" 1.

Definition link : Client.t :=
  Client.mk "link-1" "coach-1" "client-1" "Robin" 1000.

Definition benchPress : Exercise.t :=
  Exercise.mk "ex-1" "Bench Press" "80" "4x8" "7" false "" "" "" "".

Definition squatRow : Exercise.t :=
  Exercise.mk "ex-2" "Squat" "100" "5x5" "7" true "" "" "" "".

Definition document (exercises : list Exercise.t) : list WorkoutWeek.t :=
  [WorkoutWeek.mk 1 [WorkoutDay.mk 1 exercises]].

Definition program (clientId : option string) (exercises : list Exercise.t) : Program.t :=
  Program.mk "prog-1" "Strength Foundations" "" (document exercises)
    "2026-01-01" 3 "SHARE1" "coach-1" clientId "active".

(** A database holding the two profiles, their link and one program. *)
Definition db (stored : Program.t) : Db.t :=
  Db.mk [coach; client] [stored] [link] [] [] [].

Definition today : string := "2026-11-01".

(** The stored program and the one the coach saves: the comment on the bench
    press goes from empty to "Good job". *)
Definition stored : Program.t := program (Some "link-1") [benchPress; squatRow].

Definition commented : Program.t :=
  program (Some "link-1") [Exercise.setCoachComment "Good job" benchPress; squatRow].



(** A brand-new exercise, named and with client notes. *)
Definition newRow : Exercise.t :=
  Exercise.mk "ex-3" "Deadlift" "" "3x5" "8" false "" "felt heavy" "" "".

(** The bench press under another identifier. *)
Definition benchPressRenamed : Exercise.t :=
  Exercise.mk "ex-9" "Bench Press" "80" "4x8" "7" false "" "" "Good job" "".



(** A coach on the enterprise plan, whose limit is 999, with 999 clients. *)
Definition enterpriseCoach : UserProfile.t :=
  UserProfile.mk "coach-2" "Eve" Role.coach kg "ENT999" "" "enterprise" 999.

Definition numbered (prefix : string) (n : nat) : string :=
  prefix ++ numberToString (Z.of_nat n).

Definition clientsOf (coachId : string) (count : nat) : list Client.t :=
  map (fun n => Client.mk (numbered "link-" n) coachId (numbered "client-" n) "Client" 0)
      (seq 0 count).

Definition enterpriseDb : Db.t :=
  Db.mk [enterpriseCoach] [] (clientsOf "coach-2" 999) [] [] [].

(** A coach on the starter plan, whose limit is 5, with 5 clients. *)
Definition starterDb : Db.t :=
  Db.mk [coach] [] (clientsOf "coach-1" 5) [] [] [].

(** The starter coach's database with a second coach, on the free plan with
    its one client. *)
Definition freeCoach : UserProfile.t :=
  UserProfile.mk "coach-3" "Omar" Role.coach kg "FREE01" "" "free" 1.

Definition twoCoachDb : Db.t :=
  Db.mk [coach; freeCoach] []
    (clientsOf "coach-1" 5 ++ [Client.mk "link-x" "coach-3" "client-x" "Xi" 0])
    [] [] [].

(** Ten days after time 0. *)
Definition now : Z := 10 * day_ms.

(** Two expired videos: one the coach viewed nine days ago, one uploaded
    ten days ago and never viewed. *)
Definition viewedVideo : VideoUpload.t :=
  VideoUpload.mk "vid-1" "a.mp4" "prog-1" "ex-1" "client-1" "coach-1"
    (Some day_ms) 0.

Definition unviewedVideo : VideoUpload.t :=
  VideoUpload.mk "vid-2" "b.mp4" "prog-1" "ex-2" "client-1" "coach-1" None 0.

(** A server on which the first video's name is a directory. *)
Definition blockedServer : Server.t :=
  Server.mk (Db.mk [coach; client] [stored] [link] [] [] [viewedVideo; unviewedVideo])
    [("a.mp4", Directory); ("b.mp4", RegularFile)].

(** A video that three exercises reference: the one it was uploaded for,
    another one of the same program, and one of another program. *)
Definition sharedVideo : VideoUpload.t :=
  VideoUpload.mk "vid-3" "c.mp4" "prog-1" "ex-1" "client-1" "coach-1"
    (Some day_ms) 0.

Definition withVideo (id name : string) : Exercise.t :=
  Exercise.mk id name "80" "4x8" "7" true "" "" "" "/api/videos/c.mp4".

Definition videoProgram : Program.t :=
  program (Some "link-1") [withVideo "ex-1" "Bench Press"; withVideo "ex-2" "Squat"].

Definition otherProgram : Program.t :=
  Program.mk "prog-2" "Copy" "" (document [withVideo "ex-1" "Bench Press"])
    "2026-01-02" 3 "SHARE2" "coach-1" (Some "link-1") "active".

Definition videoServer : Server.t :=
  Server.mk (Db.mk [coach; client] [videoProgram; otherProgram] [link] [] [] [sharedVideo])
    [("c.mp4", RegularFile)].

(** A server with three expired videos and their files, and a run of the
    sweep in which the update of the program fails for the second record
    of the batch. *)
Definition failingServer : Server.t :=
  Server.mk
    (Db.mk [coach; client] [videoProgram; otherProgram] [link] [] []
       [viewedVideo; sharedVideo; unviewedVideo])
    [("a.mp4", RegularFile); ("c.mp4", RegularFile); ("b.mp4", RegularFile)].

Definition updateFails : Faults.t :=
  Faults.mk false (fun i => if Nat.eqb i 1 then Some (atUpdate 0) else None).








End Sample.

(** ** Further code of the same files *)

(** *** [lib/storage.ts] *)

(** [getBestPR(prs, liftType)]: [reduce] without an initial value starts from
    the first PR of the lift type. *)
Definition getBestPR (prs : list LiftPR.t) (liftType : LiftType) : option LiftPR.t :=
  match filter (fun p => LiftType_eqb (LiftPR.liftType p) liftType) prs with
  | [] => None
  | first :: rest =>
      Some (fold_left
              (fun best curr =>
                 if JS.gt (LiftPR.weight curr) (LiftPR.weight best) then curr else best)
              rest first)
  end.

(** *** The editing actions of the program detail screen *)

(** [program.weeks.map(week => week.weekNumber !== activeWeek ? week :
    { ...week, days: week.days.map(day => day.dayNumber !== activeDay ? day :
    { ...day, exercises: f(day.exercises) }) })], the frame [deleteExercise]
    and [addExercise] share. *)
Definition inActiveDay (activeWeek activeDay : Z)
    (f : list Exercise.t -> list Exercise.t) (weeks : list WorkoutWeek.t)
    : list WorkoutWeek.t :=
  map (fun week =>
    if negb (WorkoutWeek.weekNumber week =? activeWeek) then week
    else
      WorkoutWeek.mk (WorkoutWeek.weekNumber week)
        (map (fun day =>
           if negb (WorkoutDay.dayNumber day =? activeDay) then day
           else WorkoutDay.mk (WorkoutDay.dayNumber day) (f (WorkoutDay.exercises day)))
           (WorkoutWeek.days week)))
    weeks.

(** [deleteExercise(exerciseId)] *)
Definition deleteExercise (activeWeek activeDay : Z) (exerciseId : string)
    (program : Program.t) : Program.t :=
  withWeeks
    (inActiveDay activeWeek activeDay
       (filter (fun ex => negb (String.eqb (Exercise.id ex) exerciseId)))
       (Program.weeks program))
    program.

(** The exercise [addExercise] makes; [newId] is its [Crypto.randomUUID()]. *)
Definition newExercise (newId : string) : Exercise.t :=
  Exercise.mk newId "" "" "" "" false "" "" "" "".

(** [addExercise()] *)
Definition addExercise (activeWeek activeDay : Z) (newId : string)
    (program : Program.t) : Program.t :=
  withWeeks
    (inActiveDay activeWeek activeDay
       (fun exercises => (exercises ++ [newExercise newId])%list)
       (Program.weeks program))
    program.

(** The copy [addWeek] makes of an exercise of the last week. *)
Definition copyForNewWeek (newId : string) (ex : Exercise.t) : Exercise.t :=
  Exercise.mk newId (Exercise.name ex) "" (Exercise.repsSets ex) "" false
    (Exercise.notes ex) "" "" "".

(** [templateDay.exercises.map(ex => ({ id: Crypto.randomUUID(), ... }))]:
    [uuid k] is the k-th identifier drawn, [next] the number drawn so far. *)
Fixpoint copyExercises (uuid : nat -> string) (next : nat) (exercises : list Exercise.t)
    : list Exercise.t * nat :=
  match exercises with
  | [] => ([], next)
  | ex :: rest =>
      let '(copies, next') := copyExercises uuid (S next) rest in
      (copyForNewWeek (uuid next) ex :: copies, next')
  end.

(** [for (let d = 1; d <= daysPerWeek; d++) newDays.push(...)], the days
    from [d] on, [count] of them. *)
Fixpoint newDaysFrom (uuid : nat -> string) (next : nat)
    (lastWeek : option WorkoutWeek.t) (d : Z) (count : nat) : list WorkoutDay.t :=
  match count with
  | O => []
  | S count' =>
      let templateDay :=
        match lastWeek with
        | Some w => find (fun day => WorkoutDay.dayNumber day =? d) (WorkoutWeek.days w)
        | None => None
        end in
      let '(exercises, next') :=
        match templateDay with
        | Some day => copyExercises uuid next (WorkoutDay.exercises day)
        | None => ([], next)
        end in
      WorkoutDay.mk d exercises :: newDaysFrom uuid next' lastWeek (d + 1) count'
  end.

(** [addWeek()]: the program with the new week, and the new [activeWeek]. *)
Definition addWeek (uuid : nat -> string) (program : Program.t) : Program.t * Z :=
  let lastWeek := last (map Some (Program.weeks program)) None in
  let newWeekNumber :=
    match lastWeek with
    | Some w => WorkoutWeek.weekNumber w + 1
    | None => 1
    end in
  let daysPerWeek :=
    match lastWeek with
    | Some w => List.length (WorkoutWeek.days w)
    | None => Z.to_nat (Program.daysPerWeek program)
    end in
  let newWeek :=
    WorkoutWeek.mk newWeekNumber (newDaysFrom uuid 0 lastWeek 1 daysPerWeek) in
  (withWeeks (Program.weeks program ++ [newWeek]) program, newWeekNumber).

(** *** More routes of [server/routes.ts] *)

(** [POST /api/videos/:filename/viewed]: stamps the records of that file
    that have no view time yet and answers whether there was one. *)
Definition markViewed (now : Z) (filename : string) (db : Db.t) : bool * Db.t :=
  let unviewed v :=
    (String.eqb (VideoUpload.filename v) filename
     && match VideoUpload.coachViewedAt v with None => true | Some _ => false end)%bool in
  (existsb unviewed (Db.videoUploads db),
   Db.setVideoUploads
     (map (fun v =>
        if unviewed v then
          VideoUpload.mk (VideoUpload.id v) (VideoUpload.filename v)
            (VideoUpload.programId v) (VideoUpload.exerciseId v)
            (VideoUpload.uploadedBy v) (VideoUpload.coachId v) (Some now)
            (VideoUpload.uploadedAt v)
        else v) (Db.videoUploads db)) db).

(** [POST /api/upload-video]: [filename] is the name multer has stored the
    file under ([None] when the request carried no file), the four fields are
    the form's, [newId] the row's [randomUUID()], [now] the upload time. *)
Definition uploadVideo (newId : string) (now : Z) (filename : option string)
    (programId exerciseId uploadedBy coachId : option string) (srv : Server.t)
    : Response string * Server.t :=
  match filename with
  | None => (Status 400 "No file uploaded", srv)
  | Some name =>
      let uploads := (Server.uploads srv ++ [(name, RegularFile)])%list in
      let db := Server.db srv in
      (Json ("/api/videos/" ++ name),
       match programId, exerciseId, uploadedBy, coachId with
       | Some p, Some e, Some u, Some c =>
           if (JS.truthy p && JS.truthy e && JS.truthy u && JS.truthy c)%bool then
             Server.mk
               (Db.setVideoUploads
                  (Db.videoUploads db ++ [VideoUpload.mk newId name p e u c None now]) db)
               uploads
           else Server.mk db uploads
       | _, _, _, _ => Server.mk db uploads
       end)
  end.

Module MyCoach.
Record t : Type := mk {
  coachId : string;
  coachName : string;
  clientRecordId : string
}.
End MyCoach.

(** [GET /api/my-coach?clientProfileId=...]; [None] is the JSON [null]. *)
Definition myCoach (clientProfileId : string) (db : Db.t) : Response (option MyCoach.t) :=
  if negb (JS.truthy clientProfileId) then Status 400 "clientProfileId required"
  else
    match filter (fun c => String.eqb (Client.clientProfileId c) clientProfileId)
                 (Db.clients db) with
    | [] => Json None
    | coachRecord :: _ =>
        let coachProfile :=
          filter (fun p => String.eqb (UserProfile.id p) (Client.coachId coachRecord))
                 (Db.profiles db) in
        Json (Some (MyCoach.mk (Client.coachId coachRecord)
                      match coachProfile with
                      | p :: _ => UserProfile.name p
                      | [] => "Coach"
                      end
                      (Client.id coachRecord)))
    end.

(** The coach's limit as the join handler reads it. *)
Definition effectiveLimit (p : UserProfile.t) : Z :=
  if UserProfile.planUserLimit p =? 0 then 1 else UserProfile.planUserLimit p.

(** The links of a coach, and of a client profile. *)
Definition linksOfCoach (coachId : string) (db : Db.t) : list Client.t :=
  filter (fun c => String.eqb (Client.coachId c) coachId) (Db.clients db).

Definition linksOfClient (clientProfileId : string) (db : Db.t) : list Client.t :=
  filter (fun c => String.eqb (Client.clientProfileId c) clientProfileId) (Db.clients db).

(** An exercise with nothing in the fields the save reports on: no client
    notes, no video, no coach comment, not completed. *)
Definition quiet (ex : Exercise.t) : Prop :=
  Exercise.clientNotes ex = "" /\ Exercise.videoUrl ex = "" /\
  Exercise.coachComment ex = "" /\ Exercise.isCompleted ex = false.

(** The sweep's selection at time [now]. *)
Definition expired (now : Z) (v : VideoUpload.t) : bool :=
  match VideoUpload.coachViewedAt v with
  | Some t => t <? now - 3 * day_ms
  | None => VideoUpload.uploadedAt v <? now - 7 * day_ms
  end.

(** A document with every video reference blanked: what of a document the
    sweep cannot change. *)
Definition withoutVideos (weeks : list WorkoutWeek.t) : list WorkoutWeek.t :=
  map (fun week =>
    WorkoutWeek.mk (WorkoutWeek.weekNumber week)
      (map (fun day =>
         WorkoutDay.mk (WorkoutDay.dayNumber day)
           (map (Exercise.setVideoUrl "") (WorkoutDay.exercises day)))
        (WorkoutWeek.days week)))
    weeks.

(** A program row with the video references of its document blanked. *)
Definition eraseVideos (p : Program.t) : Program.t :=
  withWeeks (withoutVideos (Program.weeks p)) p.

(** [Partial<Exercise>]: the fields an update carries. *)
Module ExerciseUpdates.
Record t : Type := mk {
  id : option string;
  name : option string;
  weight : option string;
  repsSets : option string;
  rpe : option string;
  isCompleted : option bool;
  notes : option string;
  clientNotes : option string;
  coachComment : option string;
  videoUrl : option string
}.
End ExerciseUpdates.

(** A field of [{ ...ex, ...updates }]. *)
Definition orKeep {A : Type} (update : option A) (old : A) : A :=
  match update with
  | Some v => v
  | None => old
  end.

(** [{ ...ex, ...updates }] *)
Definition applyUpdates (updates : ExerciseUpdates.t) (ex : Exercise.t) : Exercise.t :=
  Exercise.mk
    (orKeep (ExerciseUpdates.id updates) (Exercise.id ex))
    (orKeep (ExerciseUpdates.name updates) (Exercise.name ex))
    (orKeep (ExerciseUpdates.weight updates) (Exercise.weight ex))
    (orKeep (ExerciseUpdates.repsSets updates) (Exercise.repsSets ex))
    (orKeep (ExerciseUpdates.rpe updates) (Exercise.rpe ex))
    (orKeep (ExerciseUpdates.isCompleted updates) (Exercise.isCompleted ex))
    (orKeep (ExerciseUpdates.notes updates) (Exercise.notes ex))
    (orKeep (ExerciseUpdates.clientNotes updates) (Exercise.clientNotes ex))
    (orKeep (ExerciseUpdates.coachComment updates) (Exercise.coachComment ex))
    (orKeep (ExerciseUpdates.videoUrl updates) (Exercise.videoUrl ex)).

(** [{ ...ex, name: n }] *)
Definition setName (n : string) (ex : Exercise.t) : Exercise.t :=
  Exercise.mk (Exercise.id ex) n (Exercise.weight ex) (Exercise.repsSets ex)
    (Exercise.rpe ex) (Exercise.isCompleted ex) (Exercise.notes ex)
    (Exercise.clientNotes ex) (Exercise.coachComment ex) (Exercise.videoUrl ex).

(** [l.findIndex(f)], with [None] for -1; [i] is the index of the head. *)
Fixpoint findIndexFrom {A : Type} (f : A -> bool) (l : list A) (i : nat) : option nat :=
  match l with
  | [] => None
  | x :: rest => if f x then Some i else findIndexFrom f rest (S i)
  end.

(** [l.map((x, i) => f(x, i))]; [i] is the index of the head. *)
Fixpoint mapIndexedFrom {A B : Type} (f : A -> nat -> B) (l : list A) (i : nat) : list B :=
  match l with
  | [] => []
  | x :: rest => f x i :: mapIndexedFrom f rest (S i)
  end.

(** [updateExercise(exerciseId, updates)] *)
Definition updateExercise (activeWeek activeDay : Z) (exerciseId : string)
    (updates : ExerciseUpdates.t) (program : Program.t) : Program.t :=
  let currentDay :=
    match find (fun w => WorkoutWeek.weekNumber w =? activeWeek) (Program.weeks program) with
    | Some w => find (fun d => WorkoutDay.dayNumber d =? activeDay) (WorkoutWeek.days w)
    | None => None
    end in
  let exerciseIndex :=
    match currentDay with
    | Some d =>
        findIndexFrom (fun e => String.eqb (Exercise.id e) exerciseId)
          (WorkoutDay.exercises d) 0
    | None => None
    end in
  let oldExercise :=
    match currentDay, exerciseIndex with
    | Some d, Some i => nth_error (WorkoutDay.exercises d) i
    | _, _ => None
    end in
  let renamed :=
    match ExerciseUpdates.name updates, oldExercise, exerciseIndex with
    | Some newName, Some old, Some i =>
        if negb (String.eqb newName (Exercise.name old)) then Some (newName, old, i)
        else None
    | _, _, _ => None
    end in
  let updatedWeeks :=
    map (fun week =>
      if WorkoutWeek.weekNumber week =? activeWeek then
        WorkoutWeek.mk (WorkoutWeek.weekNumber week)
          (map (fun day =>
             if negb (WorkoutDay.dayNumber day =? activeDay) then day
             else
               WorkoutDay.mk (WorkoutDay.dayNumber day)
                 (map (fun ex =>
                    if String.eqb (Exercise.id ex) exerciseId
                    then applyUpdates updates ex else ex)
                    (WorkoutDay.exercises day)))
             (WorkoutWeek.days week))
      else
        match renamed with
        | Some (newName, old, i) =>
            if activeWeek <? WorkoutWeek.weekNumber week then
              WorkoutWeek.mk (WorkoutWeek.weekNumber week)
                (map (fun day =>
                   if negb (WorkoutDay.dayNumber day =? activeDay) then day
                   else
                     match nth_error (WorkoutDay.exercises day) i with
                     | None => day
                     | Some targetEx =>
                         if (negb (JS.truthy (Exercise.name targetEx))
                             || String.eqb (Exercise.name targetEx) (Exercise.name old))%bool
                         then
                           WorkoutDay.mk (WorkoutDay.dayNumber day)
                             (mapIndexedFrom
                                (fun ex k => if Nat.eqb k i then setName newName ex else ex)
                                (WorkoutDay.exercises day) 0)
                         else day
                     end)
                   (WorkoutWeek.days week))
            else week
        | None => week
        end)
      (Program.weeks program) in
  withWeeks updatedWeeks program.

(** Nothing is newly set in [ex], compared with [old], in the fields a save
    reports on. *)
Definition nothingNew (ex old : Exercise.t) : Prop :=
  (Exercise.clientNotes ex = "" \/ Exercise.clientNotes ex = Exercise.clientNotes old) /\
  (Exercise.videoUrl ex = "" \/ Exercise.videoUrl ex = Exercise.videoUrl old) /\
  (Exercise.coachComment ex = "" \/ Exercise.coachComment ex = Exercise.coachComment old) /\
  (Exercise.isCompleted ex = false \/ Exercise.isCompleted old = true).

(** The update touches the prescription only: name, weight, reps and sets,
    RPE, notes. *)
Definition prescriptionOnly (updates : ExerciseUpdates.t) : Prop :=
  ExerciseUpdates.id updates = None /\
  ExerciseUpdates.isCompleted updates = None /\
  ExerciseUpdates.clientNotes updates = None /\
  ExerciseUpdates.coachComment updates = None /\
  ExerciseUpdates.videoUrl updates = None.

(** The weeks, days and exercise identifiers of a document. *)
Definition skeleton (weeks : list WorkoutWeek.t) : list (Z * list (Z * list string)) :=
  map (fun week =>
    (WorkoutWeek.weekNumber week,
     map (fun day => (WorkoutDay.dayNumber day, map Exercise.id (WorkoutDay.exercises day)))
         (WorkoutWeek.days week)))
    weeks.

(** ** Sample data for the further code *)

Module Scenario.

(** The stored program with its two exercises in the other order. *)
Definition reordered : Program.t :=
  Sample.program (Some "link-1") [Sample.squatRow; Sample.benchPress].

(** A ledger with two squats and a bench. *)
Definition ledger : list LiftPR.t :=
  [LiftPR.mk squat (JS.Finite (100 # 1)) kg "2026-10-01" "";
   LiftPR.mk bench (JS.Finite (80 # 1)) kg "2026-10-02" "";
   LiftPR.mk squat (JS.Finite (120 # 1)) kg "2026-10-03" ""].

(** A second client, without a coach, who joins the sample coach. *)
Definition newcomer : UserProfile.t :=
  UserProfile.mk "client-2" "Sam" Role.client kg "YYY888" "" "free" 1.

Definition joinDb : Db.t :=
  Db.mk [Sample.coach; Sample.client; newcomer] [] [Sample.link] [] [] [].

Definition newLink : Client.t :=
  Client.mk "link-2" "coach-1" "client-2" "Sam" 2000.

Definition joinedDb : Db.t :=
  Db.mk [Sample.coach; Sample.client; newcomer] [] [Sample.link; newLink] [] [] [].

Definition joinAnswer : JoinBody.t :=
  JoinBody.mk "coach-1" "Casey" newLink.

(** A server with the expired, viewed video of the samples and one uploaded
    eight days after time 0 and not viewed. *)
Definition recentVideo : VideoUpload.t :=
  VideoUpload.mk "vid-4" "d.mp4" "prog-1" "ex-2" "client-1" "coach-1" None (8 * day_ms).

Definition mixedServer : Server.t :=
  Server.mk
    (Db.mk [Sample.coach; Sample.client] [Sample.videoProgram; Sample.otherProgram]
       [Sample.link] [] [] [Sample.sharedVideo; recentVideo])
    [("c.mp4", RegularFile); ("d.mp4", RegularFile)].

(** The same records with the file of the expired one lost, and a run of
    the sweep in which every removal of a file would fail. *)
Definition lostFileServer : Server.t :=
  Server.mk (Server.db mixedServer) [("d.mp4", RegularFile)].

Definition removalsFail : Faults.t :=
  Faults.mk false (fun _ => Some atUnlink).

(** A two-week program with the bench press first in both weeks. *)
Definition twoWeeks : Program.t :=
  Program.mk "prog-1" "Strength Foundations" ""
    [WorkoutWeek.mk 1 [WorkoutDay.mk 1 [Sample.benchPress; Sample.squatRow]];
     WorkoutWeek.mk 2
       [WorkoutDay.mk 1
          [Exercise.mk "ex-5" "Bench Press" "" "4x8" "" false "" "" "" "";
           Exercise.mk "ex-6" "Squat" "" "5x5" "" false "" "" "" ""]]]
    "2026-01-01" 3 "SHARE1" "coach-1" (Some "link-1") "active".

(** The coach renames the bench press and raises its weight. *)
Definition rename : ExerciseUpdates.t :=
  ExerciseUpdates.mk None (Some "Incline Bench Press") (Some "85") None None None None
    None None None.

End Scenario.

(** * Properties *)

(** ** Numbers *)

Lemma lt_trans (a b c : JS.number) :
  JS.lt a b = true -> JS.lt b c = true -> JS.lt a c = true.
Proof.
  destruct a as [| |p|], b as [| |q|], c as [| |r|]; simpl; try congruence.
  rewrite !negb_true_iff. intros H1 H2.
  destruct (Qle_bool r p) eqn:E; [|reflexivity].
  apply Qle_bool_iff in E.
  assert (Hqp : ~ (q <= p)%Q) by (intro K; apply Qle_bool_iff in K; congruence).
  assert (Hrq : ~ (r <= q)%Q) by (intro K; apply Qle_bool_iff in K; congruence).
  apply Qnot_le_lt in Hqp. apply Qnot_le_lt in Hrq.
  exfalso. apply (Qlt_irrefl p).
  apply Qlt_trans with q; [assumption|].
  apply Qlt_le_trans with r; assumption.
Qed.

Lemma ge_lt_trans (a b c : JS.number) :
  JS.isNaN a = false -> JS.isNaN b = false ->
  JS.lt a b = false -> JS.lt a c = true -> JS.lt b c = true.
Proof.
  destruct a as [| |p|], b as [| |q|], c as [| |r|]; simpl; try congruence.
  rewrite negb_false_iff, !negb_true_iff. intros _ _ H1 H2.
  destruct (Qle_bool r q) eqn:E; [|reflexivity].
  apply Qle_bool_iff in E. apply Qle_bool_iff in H1.
  assert (K : (r <= p)%Q) by (apply Qle_trans with q; assumption).
  apply Qle_bool_iff in K. congruence.
Qed.

Lemma lt_irrefl (a : JS.number) : JS.lt a a = false.
Proof.
  destruct a as [| |p|]; simpl; try reflexivity.
  apply negb_false_iff, Qle_bool_iff, Qle_refl.
Qed.

Lemma lt_NaN_r (a : JS.number) : JS.lt a JS.NaN = false.
Proof. destruct a; reflexivity. Qed.





Lemma positive_gt_zero (w : JS.number) :
  JS.isNaN w = false -> JS.le w (JS.ofZ 0) = false -> JS.gt w (JS.ofZ 0) = true.
Proof.
  destruct w as [| |q|]; simpl; try congruence.
  intros _ H. rewrite H. reflexivity.
Qed.

Lemma gt_zero_positive (w : JS.number) :
  JS.gt w (JS.ofZ 0) = true -> JS.isNaN w = false /\ JS.le w (JS.ofZ 0) = false.
Proof.
  destruct w as [| |q|]; simpl; try congruence; auto.
  intro H. apply negb_true_iff in H. auto.
Qed.

(** ** Traversals *)

Lemma fold_left_inv {S A : Type} (P : S -> Prop) (f : S -> A -> S) (l : list A) :
  (forall s a, P s -> P (f s a)) -> forall s, P s -> P (fold_left f l s).
Proof.
  intro Hf. induction l as [|a l IH]; intros s Hs; simpl; auto.
Qed.

Lemma forEachExercise_inv {S : Type} (P : S -> Prop) weeks body (s : S) :
  (forall w d e s', P s' -> P (body w d e s')) ->
  P s -> P (forEachExercise weeks body s).
Proof.
  intros Hb Hs. unfold forEachExercise.
  apply fold_left_inv; [|exact Hs]. intros s1 w H1.
  apply fold_left_inv; [|exact H1]. intros s2 d H2.
  apply fold_left_inv; [|exact H2]. intros s3 e H3.
  apply Hb, H3.
Qed.

Lemma fold_left_collect {S A B : Type} (proj : S -> list B) (f : S -> A -> S)
    (out : A -> list B) (l : list A) :
  (forall s a, proj (f s a) = (proj s ++ out a)%list) ->
  forall s, proj (fold_left f l s) = (proj s ++ flat_map out l)%list.
Proof.
  intro Hf. induction l as [|a l IH]; intro s; simpl.
  - rewrite app_nil_r. reflexivity.
  - rewrite IH, Hf, <- app_assoc. reflexivity.
Qed.

(** A loop body that appends rows to a table leaves the table extended by
    the rows of all exercises, in traversal order. *)
Lemma forEachExercise_collect {S B : Type} (proj : S -> list B) out weeks body (s : S) :
  (forall w d e s', proj (body w d e s') = (proj s' ++ out w d e)%list) ->
  proj (forEachExercise weeks body s) = (proj s ++ collect weeks out)%list.
Proof.
  intro Hb. unfold forEachExercise, collect.
  apply fold_left_collect. intros s1 w.
  apply fold_left_collect. intros s2 d.
  apply fold_left_collect. intros s3 e. apply Hb.
Qed.

Lemma flat_map_flat_map {A B C : Type} (f : B -> list C) (g : A -> list B) (l : list A) :
  flat_map f (flat_map g l) = flat_map (fun a => flat_map f (g a)) l.
Proof.
  induction l as [|a l IH]; simpl; [reflexivity|].
  rewrite flat_map_app, IH. reflexivity.
Qed.

Lemma collect_allExercises {B : Type} (f : Exercise.t -> list B) weeks :
  collect weeks (fun _ _ ex => f ex) = flat_map f (allExercises weeks).
Proof.
  unfold collect, allExercises. rewrite flat_map_flat_map.
  apply flat_map_ext. intro w. rewrite flat_map_flat_map. reflexivity.
Qed.

(** ** The storage calls touch one table each *)

Lemma setPrs_id db : Db.setPrs (Db.prs db ++ []) db = db.
Proof. destruct db. unfold Db.setPrs. simpl. rewrite app_nil_r. reflexivity. Qed.

Lemma setNotifications_id db : Db.setNotifications (Db.notifications db ++ []) db = db.
Proof.
  destruct db. unfold Db.setNotifications. simpl. rewrite app_nil_r. reflexivity.
Qed.

Lemma promotions_one profile today program existingPRs ex :
  promotions profile today program existingPRs ex = [] \/
  exists r, promotions profile today program existingPRs ex = [r].
Proof.
  unfold promotions.
  destruct (negb (JS.truthy (Exercise.name ex)) || negb (JS.truthy (Exercise.weight ex))
            || negb (Exercise.isCompleted ex))%bool; [left; reflexivity|].
  destruct (liftTypeOf _) as [t|]; [|left; reflexivity].
  destruct (JS.isNaN _ || JS.le _ _)%bool; [left; reflexivity|].
  destruct (JS.gt _ _); [right; eexists; reflexivity|left; reflexivity].
Qed.

(** The loop body asks for the rows of [promotions]; the database takes the
    row or the body throws. *)
Lemma scanExercise_spec profile today program existingPRs ex db :
  scanExercise profile today program existingPRs ex db =
  match promotions profile today program existingPRs ex with
  | [] => Done db
  | r :: _ =>
      if storable r then Done (Db.setPrs (Db.prs db ++ [r]) db) else Thrown db
  end.
Proof.
  unfold promotions, scanExercise.
  destruct (negb (JS.truthy (Exercise.name ex)) || negb (JS.truthy (Exercise.weight ex))
            || negb (Exercise.isCompleted ex))%bool; [reflexivity|].
  destruct (liftTypeOf _) as [t|]; [|reflexivity].
  destruct (JS.isNaN _ || JS.le _ _)%bool; [reflexivity|].
  destruct (JS.gt _ _); reflexivity.
Qed.

Lemma notifyExercise_appends profile isCoach target program old week day ex db :
  notifyExercise profile isCoach target program old week day ex db =
  Db.setNotifications
    (Db.notifications db ++ emitted profile isCoach target program old week day ex) db.
Proof.
  unfold emitted, notifyExercise.
  destruct (oldEx old week day ex) as [o|]; [|symmetry; apply setNotifications_id].
  destruct (negb (JS.truthy (Exercise.name ex))); [symmetry; apply setNotifications_id|].
  destruct (negb isCoach).
  - destruct (setAndChanged (Exercise.clientNotes ex) (Exercise.clientNotes o)),
             (setAndChanged (Exercise.videoUrl ex) (Exercise.videoUrl o)),
             (Exercise.isCompleted ex && negb (Exercise.isCompleted o))%bool;
      destruct db; unfold addNotification, Db.setNotifications; simpl;
      rewrite <- ?app_assoc, ?app_nil_r; reflexivity.
  - destruct (setAndChanged _ _); [reflexivity|symmetry; apply setNotifications_id].
Qed.

Lemma getPRs_putProgram profile program db :
  getPRs profile (putProgram program db) = getPRs profile db.
Proof. reflexivity. Qed.

Lemma targetProfileId_putProgram profile isCoach program p db :
  targetProfileId profile isCoach program (putProgram p db) =
  targetProfileId profile isCoach program db.
Proof. reflexivity. Qed.

Lemma afterNotifications_prs profile isCoach program db :
  Db.prs (afterNotifications profile isCoach program db) = Db.prs db.
Proof.
  unfold afterNotifications. destruct (getProgram _ _); [|reflexivity].
  apply (forEachExercise_inv (fun d => Db.prs d = Db.prs db)); [|reflexivity].
  intros w d e s' H. rewrite notifyExercise_appends. exact H.
Qed.

Lemma afterNotifications_notifications profile isCoach program db :
  Db.notifications (afterNotifications profile isCoach program db) =
  (Db.notifications db ++
   match getProgram db (Program.id program) with
   | Some old =>
       collect (Program.weeks program)
         (emitted profile isCoach (targetProfileId profile isCoach program db) program old)
   | None => []
   end)%list.
Proof.
  unfold afterNotifications. destruct (getProgram _ _).
  - rewrite (forEachExercise_collect Db.notifications
               (emitted profile isCoach (targetProfileId profile isCoach program db) program t)).
    + reflexivity.
    + intros w d e s'. rewrite notifyExercise_appends. reflexivity.
  - simpl. rewrite app_nil_r. reflexivity.
Qed.

(** *** A rejected save *)

Lemma stored_iff program db :
  stored program db = true <->
  exists row, In row (Db.programs db) /\ Program.id row = Program.id program.
Proof.
  unfold stored. rewrite existsb_exists. split.
  - intros (row & Hin & E). exists row. split; [exact Hin|apply String.eqb_eq, E].
  - intros (row & Hin & E). exists row. split; [exact Hin|apply String.eqb_eq, E].
Qed.

Lemma find_existsb {A : Type} (f : A -> bool) (l : list A) :
  existsb f l = match find f l with Some _ => true | None => false end.
Proof.
  induction l as [|a l IH]; simpl; [reflexivity|].
  destruct (f a); [reflexivity|exact IH].
Qed.

Lemma getProgram_stored program db :
  stored program db =
  match getProgram db (Program.id program) with Some _ => true | None => false end.
Proof.
  unfold stored, getProgram. rewrite find_existsb.
  destruct (find _ _); reflexivity.
Qed.

Lemma updateProgram_spec program db :
  updateProgram program db =
  if stored program db then Done (putProgram program db)
  else Thrown (putProgram program db).
Proof.
  unfold updateProgram, stored. rewrite find_existsb.
  destruct (find _ _); reflexivity.
Qed.

(** Without a row of that id the update changes nothing. *)
Lemma putProgram_unstored program db :
  stored program db = false -> putProgram program db = db.
Proof.
  unfold stored, putProgram. intro H. destruct db as [pf ps cl pr nt vu].
  unfold Db.setPrograms. simpl in *. f_equal.
  induction ps as [|a ps IH]; simpl in *; [reflexivity|].
  apply orb_false_iff in H as [Ha H]. rewrite Ha, (IH H). reflexivity.
Qed.


(** *** The PR loops *)

Lemma fold_left_flat_map {S A B : Type} (f : S -> B -> S) (g : A -> list B) (l : list A) :
  forall s, fold_left f (flat_map g l) s = fold_left (fun s' a => fold_left f (g a) s') l s.
Proof.
  induction l as [|a l IH]; intro s; simpl; [reflexivity|].
  rewrite fold_left_app. apply IH.
Qed.

(** A loop body that does not look at the week and the day runs over the
    exercises in traversal order. *)
Lemma forEachExercise_flat {S : Type} weeks (body : Exercise.t -> S -> S) (s : S) :
  forEachExercise weeks (fun _ _ ex s' => body ex s') s =
  fold_left (fun s' ex => body ex s') (allExercises weeks) s.
Proof.
  unfold forEachExercise, allExercises. rewrite fold_left_flat_map.
  revert s. induction weeks as [|w ws IH]; intro s; simpl; [reflexivity|].
  rewrite fold_left_flat_map. apply IH.
Qed.

Lemma fold_andThen_Thrown {S A : Type} (body : A -> S -> Outcome S) (l : list A) (s : S) :
  fold_left (fun tried a => andThen tried (body a)) l (Thrown s) = Thrown s.
Proof. induction l as [|a l IH]; simpl; [reflexivity|exact IH]. Qed.



Lemma takeWhile_In {A : Type} (f : A -> bool) (l : list A) x :
  In x (takeWhile f l) -> In x l /\ f x = true.
Proof.
  induction l as [|a l IH]; simpl; [intros []|].
  destruct (f a) eqn:E; [|intros []].
  intros [<-|H]; [auto|]. destruct (IH H). auto.
Qed.

Lemma takeWhile_length {A : Type} (f : A -> bool) (l : list A) :
  (List.length (takeWhile f l) <= List.length l)%nat.
Proof.
  induction l as [|a l IH]; simpl; [lia|]. destruct (f a); simpl; lia.
Qed.

(** The PR loops leave the ledger extended by the rows asked for, in
    traversal order, up to the first one the database refuses. *)
Lemma scan_state profile today program existingPRs (l : list Exercise.t) : forall db,
  stateOf
    (fold_left
       (fun tried ex => andThen tried (scanExercise profile today program existingPRs ex))
       l (Done db)) =
  Db.setPrs
    (Db.prs db ++
     takeWhile storable (flat_map (promotions profile today program existingPRs) l)) db.
Proof.
  induction l as [|ex l IH]; intro db; simpl.
  - symmetry. apply setPrs_id.
  - rewrite scanExercise_spec.
    destruct (promotions_one profile today program existingPRs ex) as [E|[r E]];
      rewrite E; simpl.
    + apply IH.
    + destruct (storable r).
      * rewrite IH. destruct db. unfold Db.setPrs. simpl.
        rewrite <- app_assoc. reflexivity.
      * rewrite fold_andThen_Thrown. simpl. symmetry. apply setPrs_id.
Qed.

(** *** What a save leaves *)

Lemma save_unstored profile isCoach today program db :
  stored program db = false -> save profile isCoach today program db = db.
Proof.
  intro H. unfold save, savePromise. rewrite updateProgram_spec, H. simpl.
  apply putProgram_unstored, H.
Qed.

Lemma save_stored profile isCoach today program db :
  stored program db = true ->
  save profile isCoach today program db =
  if isCoach then afterNotifications profile isCoach program db
  else
    Db.setPrs
      (Db.prs db ++
       takeWhile storable
         (flat_map (promotions profile today program (getPRs profile db))
            (allExercises (Program.weeks program))))
      (afterNotifications profile isCoach program db).
Proof.
  intro H. unfold save, savePromise. rewrite updateProgram_spec, H.
  cbn [andThen]. fold (afterNotifications profile isCoach program db).
  destruct isCoach; cbn [negb stateOf]; [reflexivity|].
  rewrite (forEachExercise_flat (Program.weeks program)
             (fun ex tried =>
                andThen tried
                  (scanExercise profile today program
                     (getPRs profile (afterNotifications profile false program db)) ex))).
  rewrite scan_state.
  assert (E : getPRs profile (afterNotifications profile false program db) =
              getPRs profile db)
    by (unfold getPRs; rewrite afterNotifications_prs; reflexivity).
  rewrite E, afterNotifications_prs. reflexivity.
Qed.

(** The PR ledger after a client's save: the ledger before, then, for a
    stored program, the rows the scan asks for in traversal order, each
    decided against the ledger as it was before the save, up to the first
    one the database refuses. *)
Lemma save_client_prs profile today program db :
  Db.prs (save profile false today program db) =
  (Db.prs db ++
   if stored program db then
     takeWhile storable
       (flat_map (promotions profile today program (getPRs profile db))
          (allExercises (Program.weeks program)))
   else [])%list.
Proof.
  destruct (stored program db) eqn:H.
  - rewrite (save_stored _ _ _ _ _ H). reflexivity.
  - rewrite (save_unstored _ _ _ _ _ H), app_nil_r. reflexivity.
Qed.

(** ** The PR scan *)

Lemma LiftType_eqb_eq a b : LiftType_eqb a b = true <-> a = b.
Proof. destruct a, b; simpl; split; congruence. Qed.


(** What the loop body does with an exercise: nothing whatever the ledger,
    or, for an exercise the scan takes up, one insertion exactly when its
    weight is above the current best of its lift type. *)
Lemma promotions_spec profile today program ex :
  (forall existingPRs, promotions profile today program existingPRs ex = []) \/
  (exists liftType w,
     scannedAs liftType w ex /\
     forall existingPRs,
       promotions profile today program existingPRs ex =
       if JS.gt w (currentBest existingPRs liftType)
       then [promotedRow profile today program liftType w ex] else []).
Proof.
  unfold promotions, scanExercise, scannedAs.
  destruct (JS.truthy (Exercise.name ex)); [|left; reflexivity].
  destruct (JS.truthy (Exercise.weight ex)); [|left; reflexivity].
  destruct (Exercise.isCompleted ex); [|left; reflexivity].
  cbn [negb orb]. destruct (liftTypeOf _) as [t|]; [|left; reflexivity].
  destruct (JS.isNaN (JS.parseFloat (Exercise.weight ex))) eqn:N; [left; reflexivity|].
  destruct (JS.le (JS.parseFloat (Exercise.weight ex)) (JS.ofZ 0)) eqn:L; [left; reflexivity|].
  right. exists t, (JS.parseFloat (Exercise.weight ex)).
  split; [repeat split; apply positive_gt_zero; assumption|].
  intro E. cbn [orb]. destruct (JS.gt _ _); reflexivity.
Qed.

Lemma promotions_scanned profile today program existingPRs liftType w ex :
  scannedAs liftType w ex ->
  promotions profile today program existingPRs ex =
  if JS.gt w (currentBest existingPRs liftType)
  then [promotedRow profile today program liftType w ex] else [].
Proof.
  intros (Hn & Hw & Hc & Ht & Hp & Hg).
  apply gt_zero_positive in Hg as [N L].
  unfold promotions, scanExercise. rewrite Hn, Hw, Hc, Ht, Hp, N, L. simpl.
  destruct (JS.gt _ _); reflexivity.
Qed.



(** With no entry of the lift type in the ledger the current best is 0. *)
Lemma currentBest_none existingPRs liftType :
  (forall p, In p existingPRs -> LiftPR.liftType p <> liftType) ->
  currentBest existingPRs liftType = JS.ofZ 0.
Proof.
  intro H. unfold currentBest.
  destruct (filter _ existingPRs) as [|b bs] eqn:E; [reflexivity|].
  assert (Hb : In b (filter (fun p => LiftType_eqb (LiftPR.liftType p) liftType) existingPRs))
    by (rewrite E; left; reflexivity).
  apply filter_In in Hb as [Hb Ht]. apply LiftType_eqb_eq in Ht.
  exfalso. exact (H b Hb Ht).
Qed.


Lemma flat_map_nil {A B : Type} (f : A -> list B) (l : list A) :
  (forall x, In x l -> f x = []) -> flat_map f l = [].
Proof.
  induction l as [|a l IH]; intro H; simpl; [reflexivity|].
  rewrite (H a (or_introl eq_refl)), IH; [reflexivity|].
  intros x Hx. apply H. right. exact Hx.
Qed.

Lemma scannedAs_Squat_100 ex :
  Exercise.name ex = "Squat" -> Exercise.weight ex = "100" ->
  Exercise.isCompleted ex = true ->
  scannedAs squat (JS.Finite (100 # 1)) ex.
Proof.
  intros Hn Hw Hc. unfold scannedAs. rewrite Hn, Hw, Hc.
  repeat split; reflexivity.
Qed.

Lemma promotions_not_completed profile today program existingPRs ex :
  Exercise.isCompleted ex = false ->
  promotions profile today program existingPRs ex = [].
Proof.
  intro H. unfold promotions, scanExercise. rewrite H.
  rewrite !orb_true_r. reflexivity.
Qed.

(** C7.  A client saves a stored program in which a single exercise is
    completed, named "Squat" and carrying the weight "100", while the
    client's PR ledger holds no squat PR: the ledger gains exactly one row,
    a squat PR of weight 100 (for the client, in the client's unit, dated
    today, with the generated note). *)
Theorem C7_first_squat_promoted profile today program db before ex after :
  (exists row, In row (Db.programs db) /\ Program.id row = Program.id program) ->
  allExercises (Program.weeks program) = (before ++ ex :: after)%list ->
  (forall x, In x (before ++ after)%list -> Exercise.isCompleted x = false) ->
  Exercise.name ex = "Squat" ->
  Exercise.weight ex = "100" ->
  Exercise.isCompleted ex = true ->
  (forall p, In p (getPRs profile db) -> LiftPR.liftType p <> squat) ->
  Db.prs (save profile false today program db) =
  (Db.prs db ++
   [PR.mk (UserProfile.id profile) squat (JS.Finite (100 # 1))
      (UserProfile.weightUnit profile) today
      ("Auto-logged from " ++ Program.title program ++ " - Squat")])%list.
Proof.
  intros Hstored Hall Hrest Hn Hw Hc Hnone. apply stored_iff in Hstored.
  rewrite save_client_prs, Hstored, Hall, flat_map_app. simpl flat_map.
  rewrite (flat_map_nil _ before), (flat_map_nil _ after).
  - rewrite app_nil_r. simpl app.
    rewrite (promotions_scanned _ _ _ _ _ _ _ (scannedAs_Squat_100 ex Hn Hw Hc)).
    rewrite (currentBest_none _ _ Hnone).
    unfold promotedRow. rewrite Hn. reflexivity.
  - intros x Hx. apply promotions_not_completed, Hrest, in_or_app. right. exact Hx.
  - intros x Hx. apply promotions_not_completed, Hrest, in_or_app. left. exact Hx.
Qed.






(** ** The notification loop *)

Lemma save_notifications profile isCoach today program db :
  Db.notifications (save profile isCoach today program db) =
  Db.notifications (afterNotifications profile isCoach program db).
Proof.
  destruct (stored program db) eqn:H.
  - rewrite (save_stored _ _ _ _ _ H). destruct isCoach; reflexivity.
  - rewrite (save_unstored _ _ _ _ _ H). unfold afterNotifications.
    rewrite getProgram_stored in H.
    destruct (getProgram _ _); [discriminate|reflexivity].
Qed.

Lemma find_NoDup {A K : Type} (key : A -> K) (eqb : K -> K -> bool) (l : list A) x k :
  (forall a b, eqb a b = true <-> a = b) ->
  NoDup (map key l) -> In x l -> key x = k ->
  find (fun y => eqb (key y) k) l = Some x.
Proof.
  intros Heqb. induction l as [|a l IH]; intros Hnd Hin Hk; [destruct Hin|].
  simpl in Hnd. inversion Hnd as [|? ? Hnotin Hnd']; subst.
  simpl. destruct Hin as [->|Hin].
  - rewrite (proj2 (Heqb _ _) eq_refl). reflexivity.
  - destruct (eqb (key a) (key x)) eqn:E.
    + apply Heqb in E. exfalso. apply Hnotin. rewrite E. apply in_map, Hin.
    + apply IH; auto.
Qed.

(** In a document with unique keys, an exercise of the new document finds
    the old exercise with its week number, day number and identifier. *)
Lemma oldEx_found old w d e week day ex :
  uniqueKeys (Program.weeks old) ->
  In w (Program.weeks old) -> In d (WorkoutWeek.days w) ->
  In e (WorkoutDay.exercises d) ->
  WorkoutWeek.weekNumber week = WorkoutWeek.weekNumber w ->
  WorkoutDay.dayNumber day = WorkoutDay.dayNumber d ->
  Exercise.id ex = Exercise.id e ->
  oldEx old week day ex = Some e.
Proof.
  intros [Hw Hrest] Hinw Hind Hine Ew Ed Ee.
  destruct (Hrest w Hinw) as [Hd He]. specialize (He d Hind).
  unfold oldEx.
  rewrite (find_NoDup WorkoutWeek.weekNumber Z.eqb _ w _ Z.eqb_eq Hw Hinw (eq_sym Ew)).
  rewrite (find_NoDup WorkoutDay.dayNumber Z.eqb _ d _ Z.eqb_eq Hd Hind (eq_sym Ed)).
  apply (find_NoDup Exercise.id String.eqb _ e _ String.eqb_eq He Hine (eq_sym Ee)).
Qed.












Lemma C7_witness :
  Db.prs (save Sample.client false Sample.today Sample.stored
            (Sample.db Sample.stored)) =
  [PR.mk "client-1" squat (JS.Finite (100 # 1)) kg "2026-11-01"
     "Auto-logged from Strength Foundations - Squat"].
Proof.
  apply (C7_first_squat_promoted Sample.client Sample.today Sample.stored
           (Sample.db Sample.stored) [Sample.benchPress] Sample.squatRow []);
    try reflexivity.
  - exists Sample.stored. split; [left; reflexivity|reflexivity].
  - intros x [<-|[]]. reflexivity.
  - intros p [].
Defined.





Lemma Sample_stored_uniqueKeys : uniqueKeys (Program.weeks Sample.stored).
Proof.
  split.
  - simpl. repeat constructor. intros [].
  - intros w [<-|[]]. split.
    + simpl. repeat constructor. intros [].
    + intros d [<-|[]]. simpl. repeat constructor; simpl; intuition discriminate.
Qed.


(** The comment of the claim, "Good job", is kept whole. *)
Example coach_comment_Good_job :
  Db.notifications (save Sample.coach true Sample.today Sample.commented
                      (Sample.db Sample.stored)) =
  [Notification.mk "client-1" NotificationType.comment "New Coach Feedback"
     ("Coach commented on Bench Press: " ++ JS.dquote ++ "Good job" ++ JS.dquote)
     "prog-1" "Strength Foundations" "Bench Press" Role.coach].
Proof. reflexivity. Qed.

(** ** Unresolved counterpart *)



Lemma In_collect {B : Type} weeks (out : WorkoutWeek.t -> WorkoutDay.t -> Exercise.t -> list B) n :
  In n (collect weeks out) ->
  exists w d e, In w weeks /\ In d (WorkoutWeek.days w) /\
                In e (WorkoutDay.exercises d) /\ In n (out w d e).
Proof.
  unfold collect. intro H.
  apply in_flat_map in H as (w & Hw & H).
  apply in_flat_map in H as (d & Hd & H).
  apply in_flat_map in H as (e & He & H).
  exists w, d, e. auto.
Qed.





(** ** Pairing of new and old exercises *)

(** C3, as the code has it.  In a stored document with unique keys, the old
    exercise a new exercise is compared with is the one that carries the new
    exercise's identifier in the old day with the same day number of the old
    week with the same week number, wherever it stands in that day; the new
    exercise's index plays no part. *)
Theorem C3_pairing_by_identifier old week day ex o :
  uniqueKeys (Program.weeks old) ->
  (oldEx old week day ex = Some o <->
   exists oldWeek oldDay,
     In oldWeek (Program.weeks old) /\
     WorkoutWeek.weekNumber oldWeek = WorkoutWeek.weekNumber week /\
     In oldDay (WorkoutWeek.days oldWeek) /\
     WorkoutDay.dayNumber oldDay = WorkoutDay.dayNumber day /\
     In o (WorkoutDay.exercises oldDay) /\
     Exercise.id o = Exercise.id ex).
Proof.
  intro U. split.
  - unfold oldEx.
    destruct (find _ (Program.weeks old)) as [ow|] eqn:Ew; [|discriminate].
    destruct (find _ (WorkoutWeek.days ow)) as [od|] eqn:Ed; [|discriminate].
    intro Ee.
    apply find_some in Ew as [Hw Kw]. apply find_some in Ed as [Hd Kd].
    apply find_some in Ee as [He Ke].
    exists ow, od. repeat split; auto.
    + apply Z.eqb_eq, Kw.
    + apply Z.eqb_eq, Kd.
    + apply String.eqb_eq, Ke.
  - intros (ow & od & Hw & Kw & Hd & Kd & He & Ke).
    apply (oldEx_found old ow od o week day ex U Hw Hd He); auto.
Qed.

Lemma C3_witness :
  oldEx Sample.stored
    (WorkoutWeek.mk 1 [WorkoutDay.mk 1 [Sample.squatRow; Sample.benchPress]])
    (WorkoutDay.mk 1 [Sample.squatRow; Sample.benchPress])
    Sample.squatRow = Some Sample.squatRow <->
  exists oldWeek oldDay,
    In oldWeek (Program.weeks Sample.stored) /\
    WorkoutWeek.weekNumber oldWeek = 1 /\
    In oldDay (WorkoutWeek.days oldWeek) /\
    WorkoutDay.dayNumber oldDay = 1 /\
    In Sample.squatRow (WorkoutDay.exercises oldDay) /\
    Exercise.id Sample.squatRow = Exercise.id Sample.squatRow.
Proof.
  apply (C3_pairing_by_identifier Sample.stored
           (WorkoutWeek.mk 1 [WorkoutDay.mk 1 [Sample.squatRow; Sample.benchPress]])
           (WorkoutDay.mk 1 [Sample.squatRow; Sample.benchPress])
           Sample.squatRow Sample.squatRow).
  exact Sample_stored_uniqueKeys.
Defined.

(** C3, as stated, fails.  The stored day holds the bench press and then the
    squat.  In a new day whose first exercise is the bench press under a new
    identifier, the exercise at the same week number, day number and index
    is the stored bench press, yet the code compares the new exercise with
    nothing, while under its old identifier it compares it with the stored
    bench press.  And in a new day that lists the squat first, the code
    compares the squat with the stored squat, not with the exercise at its
    index. *)
Lemma C3_counterexample :
  let day := WorkoutDay.mk 1 [Sample.benchPressRenamed; Sample.squatRow] in
  let week := WorkoutWeek.mk 1 [day] in
  let swapped := WorkoutDay.mk 1 [Sample.squatRow; Sample.benchPress] in
  nth_error (WorkoutDay.exercises day) 0 = Some Sample.benchPressRenamed /\
  positionalOldEx Sample.stored 1 1 0 = Some Sample.benchPress /\
  oldEx Sample.stored week day Sample.benchPressRenamed = None /\
  oldEx Sample.stored week day
    (Exercise.setCoachComment "Good job" Sample.benchPress) = Some Sample.benchPress /\
  nth_error (WorkoutDay.exercises swapped) 0 = Some Sample.squatRow /\
  oldEx Sample.stored (WorkoutWeek.mk 1 [swapped]) swapped Sample.squatRow =
    Some Sample.squatRow /\
  positionalOldEx Sample.stored 1 1 0 <> Some Sample.squatRow.
Proof. repeat split. discriminate. Qed.

(** ** Exercises without an old counterpart *)

Lemma emitted_absent profile isCoach target program old week day ex :
  oldEx old week day ex = None ->
  emitted profile isCoach target program old week day ex = [].
Proof. intro H. unfold emitted, notifyExercise. rewrite H. reflexivity. Qed.

(** C6, as the code has it.  An exercise of the new document for which the
    old snapshot has no exercise with its identifier (in the old day with
    its day number, in the old week with its week number) is passed over:
    the save persists the notifications it would persist for the document
    without that exercise, whatever the fields of the exercise. *)
Theorem C6_absent_exercise_skipped profile isCoach today program old db e
    ws1 weekNumber ds1 dayNumber es1 es2 ds2 ws2 :
  let day := WorkoutDay.mk dayNumber (es1 ++ e :: es2) in
  let week := WorkoutWeek.mk weekNumber (ds1 ++ day :: ds2) in
  getProgram db (Program.id program) = Some old ->
  Program.weeks program = weeksAround ws1 weekNumber ds1 dayNumber es1 e es2 ds2 ws2 ->
  oldEx old week day e = None ->
  Db.notifications (save profile isCoach today program db) =
  Db.notifications
    (save profile isCoach today
       (withWeeks (weeksWithout ws1 weekNumber ds1 dayNumber es1 es2 ds2 ws2) program) db).
Proof.
  intros day week Hget Hweeks Habsent.
  rewrite !save_notifications, !afterNotifications_notifications.
  change (Program.id (withWeeks _ program)) with (Program.id program).
  rewrite Hget. f_equal.
  change (targetProfileId profile isCoach (withWeeks _ program) db)
    with (targetProfileId profile isCoach program db).
  set (target := targetProfileId profile isCoach program db).
  change (Program.weeks (withWeeks ?w program)) with w.
  rewrite Hweeks. unfold collect, weeksAround, weeksWithout.
  rewrite !flat_map_app. f_equal. simpl flat_map. f_equal.
  rewrite !flat_map_app. f_equal. simpl flat_map. f_equal.
  rewrite !flat_map_app. f_equal. simpl flat_map.
  fold day. fold week.
  rewrite (emitted_absent profile isCoach target program old week day e Habsent).
  reflexivity.
Qed.

Lemma C6_witness :
  Db.notifications
    (save Sample.client false Sample.today
       (Sample.program (Some "link-1")
          [Sample.benchPress; Sample.squatRow; Sample.newRow])
       (Sample.db Sample.stored)) =
  Db.notifications
    (save Sample.client false Sample.today
       (withWeeks (weeksWithout [] 1 [] 1 [Sample.benchPress; Sample.squatRow] [] [] [])
          (Sample.program (Some "link-1")
             [Sample.benchPress; Sample.squatRow; Sample.newRow]))
       (Sample.db Sample.stored)).
Proof.
  apply (C6_absent_exercise_skipped Sample.client false Sample.today
           (Sample.program (Some "link-1")
              [Sample.benchPress; Sample.squatRow; Sample.newRow])
           Sample.stored (Sample.db Sample.stored) Sample.newRow
           [] 1 [] 1 [Sample.benchPress; Sample.squatRow] [] [] []);
    reflexivity.
Defined.

(** C6, as stated, fails: a client saves a document with a brand-new
    exercise, named and with client notes; no notification is persisted. *)
Lemma C6_counterexample :
  oldEx Sample.stored
    (WorkoutWeek.mk 1 [WorkoutDay.mk 1 [Sample.benchPress; Sample.squatRow; Sample.newRow]])
    (WorkoutDay.mk 1 [Sample.benchPress; Sample.squatRow; Sample.newRow])
    Sample.newRow = None /\
  JS.truthy (Exercise.name Sample.newRow) = true /\
  JS.truthy (Exercise.clientNotes Sample.newRow) = true /\
  Db.notifications
    (save Sample.client false Sample.today
       (Sample.program (Some "link-1")
          [Sample.benchPress; Sample.squatRow; Sample.newRow])
       (Sample.db Sample.stored)) = [].
Proof. repeat split. Qed.

(** ** Joining a coach *)

Lemma filter_nil {A : Type} (f : A -> bool) (l : list A) :
  (forall x, In x l -> f x = false) -> filter f l = [].
Proof.
  induction l as [|a l IH]; intro H; simpl; [reflexivity|].
  rewrite (H a (or_introl eq_refl)). apply IH. intros x Hx. apply H. right. exact Hx.
Qed.

(** C5, as the code has it.  A client who holds no ClientLink at all asks to
    join a coach found by the code.  When the number of the coach's links is
    at least the coach's limit (the plan user limit, or 1 where that is 0),
    the request is answered with status 403 and the message naming the plan
    and the limit, and the database is left as it was.  The limit 999, which
    the home screen displays as unlimited, is left aside here. *)
Theorem C5_join_rejected_at_limit newId now code clientProfileId clientName db
    coach coachProfile :
  let plan := JS.or_else (UserProfile.plan coachProfile) "free" in
  let limit :=
    if UserProfile.planUserLimit coachProfile =? 0 then 1
    else UserProfile.planUserLimit coachProfile in
  find (fun p => (String.eqb (UserProfile.coachCode p) (JS.toUpperCase code)
                  && Role_eqb (UserProfile.role p) Role.coach)%bool)
       (Db.profiles db) = Some coach ->
  find (fun p => String.eqb (UserProfile.id p) (UserProfile.id coach))
       (Db.profiles db) = Some coachProfile ->
  (forall c, In c (Db.clients db) -> Client.clientProfileId c <> clientProfileId) ->
  limit <> 999 ->
  limit <= Z.of_nat (List.length
                       (filter (fun c => String.eqb (Client.coachId c) (UserProfile.id coach))
                               (Db.clients db))) ->
  joinCoach newId now code clientProfileId clientName db =
  (Status 403
     ("This coach has reached their " ++ planName plan ++ " plan limit of "
        ++ numberToString limit ++ " client" ++ (if limit =? 1 then "" else "s")
        ++ ". The coach needs to upgrade their plan to accept more clients."),
   db).
Proof.
  intros plan limit Hcoach Hprofile Hnone _ Hfull.
  unfold joinCoach. rewrite Hcoach.
  rewrite filter_nil.
  2:{ intros c Hc. apply andb_false_iff. right. apply String.eqb_neq, Hnone, Hc. }
  rewrite filter_nil.
  2:{ intros c Hc. apply String.eqb_neq, Hnone, Hc. }
  rewrite Hprofile. fold limit. fold plan.
  apply Z.leb_le in Hfull. rewrite Hfull. reflexivity.
Qed.

Lemma C5_witness :
  joinCoach "link-new" 5000 "abc123" "client-new" "Nia" Sample.starterDb =
  (Status 403
     ("This coach has reached their " ++ planName "tier_5" ++ " plan limit of "
        ++ numberToString 5 ++ " client" ++ "s"
        ++ ". The coach needs to upgrade their plan to accept more clients."),
   Sample.starterDb).
Proof.
  apply (C5_join_rejected_at_limit "link-new" 5000 "abc123" "client-new" "Nia"
           Sample.starterDb Sample.coach Sample.coach); try reflexivity;
    try discriminate.
  intros c Hc. vm_compute in Hc.
  repeat (destruct Hc as [<-|Hc]; [discriminate|]). destruct Hc.
Defined.

(** C5, as stated, fails: a client linked to one coach, and not to the free
    coach, asks to join the free coach, whose one link fills the plan's
    limit of 1.  The answer is status 400 with the message about the coach
    the client already has, not the message naming plan and limit. *)
Lemma C5_counterexample :
  filter (fun c => (String.eqb (Client.coachId c) "coach-3"
                    && String.eqb (Client.clientProfileId c) "client-0")%bool)
         (Db.clients Sample.twoCoachDb) = [] /\
  UserProfile.planUserLimit Sample.freeCoach = 1 /\
  List.length (filter (fun c => String.eqb (Client.coachId c) "coach-3")
                      (Db.clients Sample.twoCoachDb)) = 1%nat /\
  joinCoach "link-new" 5000 "free01" "client-0" "Nia" Sample.twoCoachDb =
  (Status 400
     "You already have a coach. Remove your current coach before joining a new one.",
   Sample.twoCoachDb).
Proof. repeat split. Qed.

(** The handler at a limit of 999: a coach with 999 links turns the next
    client away like any other full coach. *)
Example join_at_999_rejected :
  UserProfile.planUserLimit Sample.enterpriseCoach = 999 /\
  List.length (Db.clients Sample.enterpriseDb) = 999%nat /\
  joinCoach "link-new" 5000 "ent999" "client-new" "Nia" Sample.enterpriseDb =
  (Status 403
     "This coach has reached their Enterprise plan limit of 999 clients. The coach needs to upgrade their plan to accept more clients.",
   Sample.enterpriseDb).
Proof. repeat split. Qed.

(** ** The video sweep *)

Lemma processAll_app item i pre post srv :
  processAll item i (pre ++ post) srv =
  andThen (processAll item i pre srv) (processAll item (i + List.length pre) post).
Proof.
  revert i srv. induction pre as [|r pre IH]; intros i srv; simpl.
  - rewrite Nat.add_0_r. reflexivity.
  - destruct (processRecord (item i) r srv) as [s|s]; simpl; [|reflexivity].
    rewrite IH. replace (S i + List.length pre)%nat with (i + S (List.length pre))%nat by lia.
    reflexivity.
Qed.

Lemma blankStep_videoUploads record d prog :
  Db.videoUploads (blankStep record d prog) = Db.videoUploads d.
Proof. unfold blankStep. destruct (changed _ _); reflexivity. Qed.

Lemma fold_blankStep_videoUploads record progs d :
  Db.videoUploads (fold_left (blankStep record) progs d) = Db.videoUploads d.
Proof.
  apply (fold_left_inv (fun x => Db.videoUploads x = Db.videoUploads d)); [|reflexivity].
  intros s a H. rewrite blankStep_videoUploads. exact H.
Qed.

(** The loop over the programs, when it is not interrupted, is the fold of
    its statement. *)
Lemma blankPrograms_Done fault record progs : forall k d d',
  blankPrograms fault record progs k d = Done d' ->
  d' = fold_left (blankStep record) progs d.
Proof.
  induction progs as [|p progs IH]; intros k d d' H; simpl in H.
  - injection H as <-. reflexivity.
  - simpl. unfold blankStep at 2.
    destruct (changed record (Program.weeks p)).
    + destruct (failsUpdate fault k); [discriminate|]. exact (IH _ _ _ H).
    + exact (IH _ _ _ H).
Qed.

(** When an update fails, the loop has run over the programs before it. *)
Lemma blankPrograms_Thrown fault record progs : forall k d d',
  blankPrograms fault record progs k d = Thrown d' ->
  exists j, d' = fold_left (blankStep record) (firstn j progs) d.
Proof.
  induction progs as [|p progs IH]; intros k d d' H; simpl in H; [discriminate|].
  destruct (changed record (Program.weeks p)) eqn:C.
  - destruct (failsUpdate fault k).
    + injection H as <-. exists 0%nat. reflexivity.
    + destruct (IH _ _ _ H) as [j E]. exists (S j). simpl.
      unfold blankStep at 2. rewrite C. exact E.
  - destruct (IH _ _ _ H) as [j E]. exists (S j). simpl.
    unfold blankStep at 2. rewrite C. exact E.
Qed.

Lemma blankPrograms_no_fault record progs : forall k d,
  blankPrograms None record progs k d = Done (fold_left (blankStep record) progs d).
Proof.
  induction progs as [|p progs IH]; intros k d; simpl; [reflexivity|].
  unfold blankStep at 2. destruct (changed record (Program.weeks p)); apply IH.
Qed.

(** What [processRecord] leaves when it ends normally, whatever could have
    failed. *)
Lemma processRecord_Done fault record srv srv' :
  processRecord fault record srv = Done srv' ->
  exists uploads,
    unlinkIfExists false (VideoUpload.filename record) (Server.uploads srv) = Done uploads /\
    let db1 :=
      fold_left (blankStep record)
        (filter (fun p => String.eqb (Program.id p) (VideoUpload.programId record))
                (Db.programs (Server.db srv)))
        (Server.db srv) in
    srv' =
    Server.mk
      (Db.setVideoUploads
         (filter (fun v => negb (String.eqb (VideoUpload.id v) (VideoUpload.id record)))
                 (Db.videoUploads db1)) db1)
      uploads.
Proof.
  unfold processRecord, unlinkIfExists.
  destruct (entryAt _ _) as [[|]|]; try discriminate.
  - destruct (failsUnlink fault); [discriminate|].
    destruct (failsSelect fault); [discriminate|].
    destruct (blankPrograms _ _ _ _ _) as [d|d] eqn:B; [|discriminate].
    destruct (failsDelete fault); [discriminate|].
    intro H. injection H as <-. apply blankPrograms_Done in B. subst d.
    eexists. split; reflexivity.
  - destruct (failsSelect fault); [discriminate|].
    destruct (blankPrograms _ _ _ _ _) as [d|d] eqn:B; [|discriminate].
    destruct (failsDelete fault); [discriminate|].
    intro H. injection H as <-. apply blankPrograms_Done in B. subst d.
    eexists. split; reflexivity.
Qed.

(** What [processRecord] leaves when it throws: the file of the record may
    be removed and the loop over its programs may have run over some of
    them; nothing else has happened, the record is still there. *)
Lemma processRecord_Thrown fault record srv s :
  processRecord fault record srv = Thrown s ->
  (exists j,
     Server.db s =
     fold_left (blankStep record)
       (firstn j
          (filter (fun p => String.eqb (Program.id p) (VideoUpload.programId record))
                  (Db.programs (Server.db srv))))
       (Server.db srv)) /\
  (Server.uploads s = Server.uploads srv \/
   Server.uploads s =
   filter (fun e => negb (String.eqb (fst e) (VideoUpload.filename record)))
          (Server.uploads srv)).
Proof.
  unfold processRecord, unlinkIfExists.
  set (progs := filter _ (Db.programs (Server.db srv))).
  assert (Z0 : Server.db srv = fold_left (blankStep record) (firstn 0 progs) (Server.db srv))
    by reflexivity.
  assert (ZN : exists n, fold_left (blankStep record) progs (Server.db srv) =
                         fold_left (blankStep record) (firstn n progs) (Server.db srv))
    by (exists (List.length progs); rewrite firstn_all; reflexivity).
  destruct (entryAt _ _) as [[|]|].
  - destruct (failsUnlink fault).
    { intro H. injection H as <-. split; [exists 0%nat; exact Z0|left; reflexivity]. }
    destruct (failsSelect fault).
    { intro H. injection H as <-. split; [exists 0%nat; exact Z0|right; reflexivity]. }
    destruct (blankPrograms _ _ _ _ _) as [d|d] eqn:B.
    + destruct (failsDelete fault); [|discriminate].
      intro H. injection H as <-. apply blankPrograms_Done in B. subst d.
      split; [|right; reflexivity]. destruct ZN as [n E]. exists n. exact E.
    + intro H. injection H as <-. apply blankPrograms_Thrown in B as [j E].
      split; [exists j; exact E|right; reflexivity].
  - intro H. injection H as <-. split; [exists 0%nat; exact Z0|left; reflexivity].
  - destruct (failsSelect fault).
    { intro H. injection H as <-. split; [exists 0%nat; exact Z0|left; reflexivity]. }
    destruct (blankPrograms _ _ _ _ _) as [d|d] eqn:B.
    + destruct (failsDelete fault); [|discriminate].
      intro H. injection H as <-. apply blankPrograms_Done in B. subst d.
      split; [|left; reflexivity]. destruct ZN as [n E]. exists n. exact E.
    + intro H. injection H as <-. apply blankPrograms_Thrown in B as [j E].
      split; [exists j; exact E|left; reflexivity].
Qed.

Lemma processRecord_keeps fault record srv srv' v :
  processRecord fault record srv = Done srv' ->
  In v (Db.videoUploads (Server.db srv)) ->
  VideoUpload.id record <> VideoUpload.id v ->
  In v (Db.videoUploads (Server.db srv')).
Proof.
  intros H Hin Hne. apply processRecord_Done in H as (u & _ & ->). simpl.
  apply filter_In. rewrite fold_blankStep_videoUploads. split; [exact Hin|].
  apply negb_true_iff, String.eqb_neq. congruence.
Qed.

Lemma processAll_keeps item pre : forall i srv srv1 v,
  processAll item i pre srv = Done srv1 ->
  In v (Db.videoUploads (Server.db srv)) ->
  (forall p, In p pre -> VideoUpload.id p <> VideoUpload.id v) ->
  In v (Db.videoUploads (Server.db srv1)).
Proof.
  induction pre as [|r pre IH]; intros i srv srv1 v H Hin Hne; simpl in H.
  - injection H as <-. exact Hin.
  - destruct (processRecord (item i) r srv) as [s|s] eqn:E; simpl in H; [|discriminate].
    apply (IH _ s _ _ H).
    + apply (processRecord_keeps _ r srv s v E Hin). apply Hne. left. reflexivity.
    + intros p Hp. apply Hne. right. exact Hp.
Qed.

Lemma blankStep_tables record d prog :
  Db.profiles (blankStep record d prog) = Db.profiles d /\
  Db.clients (blankStep record d prog) = Db.clients d /\
  Db.prs (blankStep record d prog) = Db.prs d /\
  Db.notifications (blankStep record d prog) = Db.notifications d.
Proof. unfold blankStep. destruct (changed _ _); repeat split. Qed.

Lemma fold_blankStep_tables record progs : forall d,
  Db.profiles (fold_left (blankStep record) progs d) = Db.profiles d /\
  Db.clients (fold_left (blankStep record) progs d) = Db.clients d /\
  Db.prs (fold_left (blankStep record) progs d) = Db.prs d /\
  Db.notifications (fold_left (blankStep record) progs d) = Db.notifications d.
Proof.
  induction progs as [|p progs IH]; intro d; simpl; [repeat split|].
  destruct (IH (blankStep record d p)) as (A & B & C & D).
  destruct (blankStep_tables record d p) as (A' & B' & C' & D').
  repeat split; congruence.
Qed.

Lemma allExercises_blankVideo record weeks :
  allExercises (blankVideo record weeks) =
  map (fun ex => if referencesVideo record ex then Exercise.setVideoUrl "" ex else ex)
      (allExercises weeks).
Proof.
  unfold allExercises, blankVideo.
  induction weeks as [|w weeks IH]; simpl; [reflexivity|].
  rewrite map_app, IH. f_equal.
  induction (WorkoutWeek.days w) as [|d ds IHd]; simpl; [reflexivity|].
  rewrite map_app, IHd. reflexivity.
Qed.

Lemma referencesVideo_blank record ex :
  referencesVideo record (Exercise.setVideoUrl "" ex) = false.
Proof.
  unfold referencesVideo. simpl. rewrite andb_false_r. reflexivity.
Qed.

Lemma noReference_blankVideo record weeks : noReference record (blankVideo record weeks).
Proof.
  intros ex Hex. rewrite allExercises_blankVideo in Hex.
  apply in_map_iff in Hex as (x & <- & _).
  destruct (referencesVideo record x) eqn:E; [apply referencesVideo_blank|exact E].
Qed.

Lemma changed_false record weeks :
  changed record weeks = false -> noReference record weeks.
Proof.
  unfold changed. intros H ex Hex.
  destruct (referencesVideo record ex) eqn:E; [|reflexivity].
  rewrite <- H. symmetry. apply existsb_exists. exists ex. auto.
Qed.

(** After the loop over the programs of the record, no program with the
    record's program id holds an exercise that passes the loop's test. *)
Lemma fold_blankStep_noReference record progs : forall d,
  (forall s, In s progs -> Program.id s = VideoUpload.programId record) ->
  (forall q, In q (Db.programs d) -> Program.id q = VideoUpload.programId record ->
     noReference record (Program.weeks q) \/
     exists s, In s progs /\ Program.weeks q = Program.weeks s) ->
  forall q, In q (Db.programs (fold_left (blankStep record) progs d)) ->
    Program.id q = VideoUpload.programId record ->
    noReference record (Program.weeks q).
Proof.
  induction progs as [|s progs IH]; intros d Hids Hinv q Hq Hid; simpl in Hq.
  - destruct (Hinv q Hq Hid) as [H|(s & [] & _)]. exact H.
  - apply (IH (blankStep record d s)); auto.
    + intros s' Hs'. apply Hids. right. exact Hs'.
    + clear q Hq Hid. intros q Hq Hid. unfold blankStep in Hq.
      destruct (changed record (Program.weeks s)) eqn:Ech.
      * left. unfold setWeeks in Hq. simpl in Hq.
        apply in_map_iff in Hq as (q0 & <- & Hq0).
        destruct (String.eqb (Program.id q0) (Program.id s)) eqn:E.
        -- simpl. apply noReference_blankVideo.
        -- apply String.eqb_neq in E. exfalso. apply E.
           rewrite (Hids s (or_introl eq_refl)). exact Hid.
      * destruct (Hinv q Hq Hid) as [H|(s' & [<-|Hs'] & Ew)].
        -- left. exact H.
        -- left. rewrite Ew. apply changed_false, Ech.
        -- right. exists s'. auto.
Qed.

Lemma fold_blankStep_others record progs : forall d p,
  (forall s, In s progs -> Program.id s = VideoUpload.programId record) ->
  In p (Db.programs d) -> Program.id p <> VideoUpload.programId record ->
  In p (Db.programs (fold_left (blankStep record) progs d)).
Proof.
  induction progs as [|s progs IH]; intros d p Hids Hp Hne; simpl; [exact Hp|].
  apply IH; auto.
  - intros s' Hs'. apply Hids. right. exact Hs'.
  - unfold blankStep. destruct (changed _ _); [|exact Hp].
    unfold setWeeks. simpl. apply in_map_iff. exists p. split; [|exact Hp].
    destruct (String.eqb (Program.id p) (Program.id s)) eqn:E; [|reflexivity].
    apply String.eqb_eq in E. exfalso. apply Hne.
    rewrite E. apply Hids. left. reflexivity.
Qed.

(** After the loop, the document of a program with the record's program id
    is the document one of the loaded programs had, as it was or blanked. *)
Lemma fold_blankStep_origin record (loaded : list Program.t) progs : forall d,
  (forall s, In s progs ->
     In s loaded /\ Program.id s = VideoUpload.programId record) ->
  (forall q, In q (Db.programs d) -> Program.id q = VideoUpload.programId record ->
     exists s, In s loaded /\
       (Program.weeks q = Program.weeks s \/
        Program.weeks q = blankVideo record (Program.weeks s))) ->
  forall q, In q (Db.programs (fold_left (blankStep record) progs d)) ->
    Program.id q = VideoUpload.programId record ->
    exists s, In s loaded /\
      (Program.weeks q = Program.weeks s \/
       Program.weeks q = blankVideo record (Program.weeks s)).
Proof.
  induction progs as [|s progs IH]; intros d Hids Hinv q Hq Hid; simpl in Hq.
  - exact (Hinv q Hq Hid).
  - apply (IH (blankStep record d s)); auto.
    + intros s' Hs'. apply Hids. right. exact Hs'.
    + clear q Hq Hid. intros q Hq Hid. unfold blankStep in Hq.
      destruct (changed record (Program.weeks s)); [|exact (Hinv q Hq Hid)].
      unfold setWeeks in Hq. simpl in Hq.
      apply in_map_iff in Hq as (q0 & <- & Hq0).
      destruct (String.eqb (Program.id q0) (Program.id s)) eqn:E.
      * exists s. split; [apply Hids; left; reflexivity|]. right. reflexivity.
      * apply (Hinv q0 Hq0 Hid).
Qed.

Lemma map_blank_noReference record weeks :
  noReference record weeks ->
  map (fun ex => if referencesVideo record ex then Exercise.setVideoUrl "" ex else ex)
      (allExercises weeks) = allExercises weeks.
Proof.
  intro H. rewrite <- (map_id (allExercises weeks)) at 2.
  apply map_ext_in. intros ex Hex. rewrite (H ex Hex). reflexivity.
Qed.

(** C4, as the code has it.  After the sweep has processed an artifact to
    the end (nothing failed on the way), its record is gone, and in every
    stored program with the artifact's program id every exercise with the
    artifact's exercise id whose video reference contains the artifact's
    filename has the empty video reference: the exercises of such a program
    are those of a program stored before under that id, the referencing
    ones among them blanked.  Programs with another id are left as they
    were. *)
Theorem C4_processed_artifact_scrubbed fault record srv srv' :
  processRecord fault record srv = Done srv' ->
  (forall v, In v (Db.videoUploads (Server.db srv')) ->
     VideoUpload.id v <> VideoUpload.id record) /\
  (forall p ex, In p (Db.programs (Server.db srv')) ->
     Program.id p = VideoUpload.programId record ->
     In ex (allExercises (Program.weeks p)) ->
     Exercise.id ex = VideoUpload.exerciseId record ->
     JS.includes (Exercise.videoUrl ex) (VideoUpload.filename record) = true ->
     Exercise.videoUrl ex = "") /\
  (forall p, In p (Db.programs (Server.db srv')) ->
     Program.id p = VideoUpload.programId record ->
     exists s, In s (Db.programs (Server.db srv)) /\
       Program.id s = VideoUpload.programId record /\
       allExercises (Program.weeks p) =
       map (fun ex => if referencesVideo record ex then Exercise.setVideoUrl "" ex else ex)
           (allExercises (Program.weeks s))) /\
  (forall p, In p (Db.programs (Server.db srv)) ->
     Program.id p <> VideoUpload.programId record ->
     In p (Db.programs (Server.db srv'))).
Proof.
  intro H. apply processRecord_Done in H as (u & _ & ->). simpl.
  set (progs := filter (fun p => String.eqb (Program.id p) (VideoUpload.programId record))
                       (Db.programs (Server.db srv))).
  assert (Hids : forall s, In s progs -> Program.id s = VideoUpload.programId record).
  { intros s Hs. apply filter_In in Hs as [_ Hs]. apply String.eqb_eq, Hs. }
  assert (Hloaded : forall q, In q (Db.programs (Server.db srv)) ->
            Program.id q = VideoUpload.programId record -> In q progs).
  { intros q Hq Hqid. apply filter_In. split; [exact Hq|]. apply String.eqb_eq, Hqid. }
  assert (Hno : forall p, In p (Db.programs (fold_left (blankStep record) progs (Server.db srv))) ->
            Program.id p = VideoUpload.programId record ->
            noReference record (Program.weeks p)).
  { apply (fold_blankStep_noReference record progs (Server.db srv)); auto.
    intros q Hq Hqid. right. exists q. split; [auto|reflexivity]. }
  split; [|split; [|split]].
  - intros v Hv. apply filter_In in Hv as [_ Hv].
    apply negb_true_iff, String.eqb_neq in Hv. exact Hv.
  - intros p ex Hp Hid Hex Hexid Hincl.
    specialize (Hno p Hp Hid ex Hex). unfold referencesVideo in Hno.
    rewrite Hincl, andb_true_r in Hno.
    rewrite (proj2 (String.eqb_eq _ _) Hexid) in Hno. simpl in Hno.
    destruct (Exercise.videoUrl ex); [reflexivity|discriminate].
  - intros p Hp Hid.
    destruct (fold_blankStep_origin record progs progs (Server.db srv)) with (q := p)
      as (s & Hs & Hw); auto.
    { intros q Hq Hqid. exists q. split; [auto|]. left. reflexivity. }
    exists s. split; [|split].
    + apply filter_In in Hs as [Hs _]. exact Hs.
    + apply Hids, Hs.
    + destruct Hw as [Hw|Hw].
      * rewrite <- Hw. symmetry. apply map_blank_noReference, Hno; assumption.
      * rewrite Hw. apply allExercises_blankVideo.
  - intros p Hp Hne. apply fold_blankStep_others; auto.
Qed.

Lemma C4_witness :
  let srv' :=
    Server.mk
      (Db.mk [Sample.coach; Sample.client]
         [Sample.program (Some "link-1")
            [Exercise.setVideoUrl "" (Sample.withVideo "ex-1" "Bench Press");
             Sample.withVideo "ex-2" "Squat"];
          Sample.otherProgram]
         [Sample.link] [] [] [])
      [] in
  (forall v, In v (Db.videoUploads (Server.db srv')) ->
     VideoUpload.id v <> VideoUpload.id Sample.sharedVideo) /\
  (forall p ex, In p (Db.programs (Server.db srv')) ->
     Program.id p = VideoUpload.programId Sample.sharedVideo ->
     In ex (allExercises (Program.weeks p)) ->
     Exercise.id ex = VideoUpload.exerciseId Sample.sharedVideo ->
     JS.includes (Exercise.videoUrl ex) (VideoUpload.filename Sample.sharedVideo) = true ->
     Exercise.videoUrl ex = "") /\
  (forall p, In p (Db.programs (Server.db srv')) ->
     Program.id p = VideoUpload.programId Sample.sharedVideo ->
     exists s, In s (Db.programs (Server.db Sample.videoServer)) /\
       Program.id s = VideoUpload.programId Sample.sharedVideo /\
       allExercises (Program.weeks p) =
       map (fun ex => if referencesVideo Sample.sharedVideo ex
                      then Exercise.setVideoUrl "" ex else ex)
           (allExercises (Program.weeks s))) /\
  (forall p, In p (Db.programs (Server.db Sample.videoServer)) ->
     Program.id p <> VideoUpload.programId Sample.sharedVideo ->
     In p (Db.programs (Server.db srv'))).
Proof.
  apply (C4_processed_artifact_scrubbed None Sample.sharedVideo Sample.videoServer).
  reflexivity.
Defined.

(** C4, as stated, fails: three exercises reference the file of the
    processed artifact; afterwards only the one with the artifact's exercise
    id in the artifact's program is blank, the other exercise of that
    program and the exercise of the other program still reference it. *)
Lemma C4_counterexample :
  (viewedExpired Sample.now (Server.db Sample.videoServer) ++
   unviewedExpired Sample.now (Server.db Sample.videoServer))%list =
    [Sample.sharedVideo] /\
  cleanupExpiredVideos Faults.none Sample.now Sample.videoServer =
  (Server.mk
     (Db.mk [Sample.coach; Sample.client]
        [Sample.program (Some "link-1")
           [Exercise.setVideoUrl "" (Sample.withVideo "ex-1" "Bench Press");
            Sample.withVideo "ex-2" "Squat"];
         Sample.otherProgram]
        [Sample.link] [] [] [])
     [], false) /\
  JS.includes (Exercise.videoUrl (Sample.withVideo "ex-2" "Squat"))
    (VideoUpload.filename Sample.sharedVideo) = true /\
  Exercise.videoUrl (Sample.withVideo "ex-2" "Squat") <> "" /\
  In (Sample.withVideo "ex-1" "Bench Press")
    (allExercises (Program.weeks Sample.otherProgram)).
Proof. repeat split; simpl; auto. discriminate. Qed.

(** ** A failure in the sweep *)

Lemma In_firstn {A : Type} (l : list A) : forall j x, In x (firstn j l) -> In x l.
Proof.
  induction l as [|a l IH]; intros [|j] x H; simpl in H; try destruct H.
  - left. assumption.
  - right. apply (IH j), H.
Qed.

Lemma fold_blankStep_firstn_others record (progs : list Program.t) j d p :
  (forall s, In s progs -> Program.id s = VideoUpload.programId record) ->
  In p (Db.programs d) -> Program.id p <> VideoUpload.programId record ->
  In p (Db.programs (fold_left (blankStep record) (firstn j progs) d)).
Proof.
  intros Hids Hp Hne. apply fold_blankStep_others; auto.
  intros s Hs. apply Hids. exact (In_firstn _ _ _ Hs).
Qed.

(** C1, as the code has it.  When the processing of a selected artifact
    fails, at the removal of its file or at one of its three database
    requests, the loop ends there and the sweep's one handler logs the
    error.  The artifacts selected before the failing one have been
    processed.  Of the failing one the record is still there; its file may
    be gone and its program may be blanked already.  Nothing has been done
    for the artifacts selected after it: every record there was is still
    there, so are theirs (where no artifact processed before them carries
    their id); every file but that of the failing artifact is still there;
    every program with another id than the failing artifact's program is as
    it was. *)
Theorem C1_failure_ends_sweep faults now srv pre record post srv1 s :
  Faults.selects faults = false ->
  (viewedExpired now (Server.db srv) ++ unviewedExpired now (Server.db srv))%list =
    (pre ++ record :: post)%list ->
  processAll (Faults.item faults) 0 pre srv = Done srv1 ->
  processRecord (Faults.item faults (List.length pre)) record srv1 = Thrown s ->
  cleanupExpiredVideos faults now srv = (s, true) /\
  Db.videoUploads (Server.db s) = Db.videoUploads (Server.db srv1) /\
  (forall v, In v (record :: post) ->
     (forall p, In p pre -> VideoUpload.id p <> VideoUpload.id v) ->
     In v (Db.videoUploads (Server.db s))) /\
  (forall name entry, In (name, entry) (Server.uploads srv1) ->
     name <> VideoUpload.filename record -> In (name, entry) (Server.uploads s)) /\
  (forall p, In p (Db.programs (Server.db srv1)) ->
     Program.id p <> VideoUpload.programId record ->
     In p (Db.programs (Server.db s))).
Proof.
  intros Hsel Hbatch Hpre Hthrow.
  destruct (processRecord_Thrown _ _ _ _ Hthrow) as [[j Hdb] Hup].
  assert (Hvu : Db.videoUploads (Server.db s) = Db.videoUploads (Server.db srv1))
    by (rewrite Hdb; apply fold_blankStep_videoUploads).
  split; [|split; [exact Hvu|split; [|split]]].
  - unfold cleanupExpiredVideos. rewrite Hsel, Hbatch, processAll_app, Hpre. simpl.
    rewrite Hthrow. reflexivity.
  - intros v Hv Hne. rewrite Hvu.
    apply (processAll_keeps _ pre 0%nat srv srv1 v Hpre); [|exact Hne].
    assert (Hin : In v (viewedExpired now (Server.db srv) ++
                        unviewedExpired now (Server.db srv))%list).
    { rewrite Hbatch. apply in_or_app. right. exact Hv. }
    apply in_app_or in Hin as [Hin|Hin]; apply filter_In in Hin as [Hin _]; exact Hin.
  - intros name entry Hin Hne. destruct Hup as [->| ->]; [exact Hin|].
    apply filter_In. split; [exact Hin|]. simpl.
    apply negb_true_iff, String.eqb_neq, Hne.
  - intros p Hp Hne. rewrite Hdb. apply fold_blankStep_firstn_others; auto.
    intros q Hq. apply filter_In in Hq as [_ Hq]. apply String.eqb_eq, Hq.
Qed.

Lemma C1_witness :
  let s :=
    Server.mk
      (Db.mk [Sample.coach; Sample.client] [Sample.videoProgram; Sample.otherProgram]
         [Sample.link] [] [] [Sample.sharedVideo; Sample.unviewedVideo])
      [("b.mp4", RegularFile)] in
  cleanupExpiredVideos Sample.updateFails Sample.now Sample.failingServer = (s, true) /\
  Db.videoUploads (Server.db s) = [Sample.sharedVideo; Sample.unviewedVideo] /\
  (forall v, In v [Sample.sharedVideo; Sample.unviewedVideo] ->
     (forall p, In p [Sample.viewedVideo] -> VideoUpload.id p <> VideoUpload.id v) ->
     In v (Db.videoUploads (Server.db s))) /\
  (forall name entry, In (name, entry) [("c.mp4", RegularFile); ("b.mp4", RegularFile)] ->
     name <> "c.mp4" -> In (name, entry) (Server.uploads s)) /\
  (forall p, In p [Sample.videoProgram; Sample.otherProgram] ->
     Program.id p <> "prog-1" -> In p (Db.programs (Server.db s))).
Proof.
  apply (C1_failure_ends_sweep Sample.updateFails Sample.now Sample.failingServer
           [Sample.viewedVideo] Sample.sharedVideo [Sample.unviewedVideo]
           (Server.mk
              (Db.mk [Sample.coach; Sample.client]
                 [Sample.videoProgram; Sample.otherProgram]
                 [Sample.link] [] [] [Sample.sharedVideo; Sample.unviewedVideo])
              [("c.mp4", RegularFile); ("b.mp4", RegularFile)]));
    reflexivity.
Defined.

(** C1, as stated, fails: the sweep selects three artifacts; the first is
    processed; for the second the file is removed and then the update of its
    program fails; the third, which would have been processed, is not: its
    record and its file are still there after the sweep. *)
Lemma C1_counterexample :
  (viewedExpired Sample.now (Server.db Sample.failingServer) ++
   unviewedExpired Sample.now (Server.db Sample.failingServer))%list =
    [Sample.viewedVideo; Sample.sharedVideo; Sample.unviewedVideo] /\
  cleanupExpiredVideos Sample.updateFails Sample.now Sample.failingServer =
  (Server.mk
     (Db.mk [Sample.coach; Sample.client] [Sample.videoProgram; Sample.otherProgram]
        [Sample.link] [] [] [Sample.sharedVideo; Sample.unviewedVideo])
     [("b.mp4", RegularFile)], true) /\
  processRecord None Sample.unviewedVideo
    (fst (cleanupExpiredVideos Sample.updateFails Sample.now Sample.failingServer)) =
  Done
    (Server.mk
       (Db.mk [Sample.coach; Sample.client] [Sample.videoProgram; Sample.otherProgram]
          [Sample.link] [] [] [Sample.sharedVideo])
       []) /\
  In Sample.unviewedVideo
    (Db.videoUploads
       (Server.db
          (fst (cleanupExpiredVideos Sample.updateFails Sample.now Sample.failingServer)))) /\
  In ("b.mp4", RegularFile)
    (Server.uploads
       (fst (cleanupExpiredVideos Sample.updateFails Sample.now Sample.failingServer))).
Proof. repeat split; simpl; auto. Qed.

(** A directory in the place of a file ends the sweep as well, before
    anything is done for the record. *)
Example sweep_blocked_by_directory :
  cleanupExpiredVideos Faults.none Sample.now Sample.blockedServer =
  (Sample.blockedServer, true).
Proof. reflexivity. Qed.

(** So does a record with the empty file name, which names the uploads
    directory itself. *)
Example unlink_of_the_empty_name :
  unlinkIfExists false "" [("a.mp4", RegularFile)] = Thrown [("a.mp4", RegularFile)] /\
  unlinkIfExists false "../." [] = Thrown [] /\
  unlinkIfExists false "..." [("a.mp4", RegularFile)] = Done [("a.mp4", RegularFile)] /\
  unlinkIfExists false "a.mp4" [("a.mp4", RegularFile)] = Done [].
Proof. repeat split. Qed.

(** ** Checks of the primitives on sample inputs *)

(** [slice] counts UTF-16 code units: a letter with an accent (two bytes) is
    one, an emoji (four bytes) is two, and half an emoji is U+FFFD. *)
Example slice0_code_units :
  let accent := String (ascii_of_nat 195) (String (ascii_of_nat 169) "") in
  let emoji :=
    String (ascii_of_nat 240) (String (ascii_of_nat 159)
      (String (ascii_of_nat 146) (String (ascii_of_nat 170) ""))) in
  JS.length ("a" ++ accent ++ emoji ++ "b") = 5%nat /\
  JS.slice0 1 ("a" ++ accent ++ emoji ++ "b") = "a" /\
  JS.slice0 2 ("a" ++ accent ++ emoji ++ "b") = "a" ++ accent /\
  JS.slice0 3 ("a" ++ accent ++ emoji ++ "b") = "a" ++ accent ++ JS.replacement /\
  JS.slice0 4 ("a" ++ accent ++ emoji ++ "b") = "a" ++ accent ++ emoji /\
  JS.slice0 60 ("a" ++ accent ++ emoji ++ "b") = "a" ++ accent ++ emoji ++ "b".
Proof. repeat split. Qed.

Example parseFloat_100 : JS.parseFloat "100" = JS.Finite (100 # 1).
Proof. reflexivity. Qed.

Example parseFloat_suffix : JS.parseFloat " 72.5kg" = JS.Finite (145 # 2).
Proof. reflexivity. Qed.

Example parseFloat_tenth :
  JS.parseFloat "0.1" = JS.Finite (3602879701896397 # 36028797018963968).
Proof. vm_compute. reflexivity. Qed.

Example parseFloat_rounds_to_whole :
  JS.parseFloat "100.0000000000000000001" = JS.Finite (100 # 1).
Proof. vm_compute. reflexivity. Qed.

Example parseFloat_tie_to_even :
  JS.parseFloat "9007199254740993" = JS.Finite (9007199254740992 # 1).
Proof. vm_compute. reflexivity. Qed.

Example parseFloat_overflow : JS.parseFloat "1e400" = JS.Infinity.
Proof. vm_compute. reflexivity. Qed.

Example parseFloat_underflow : JS.parseFloat "1e-400" = JS.Finite 0.
Proof. vm_compute. reflexivity. Qed.

Example fitsInteger_samples :
  fitsInteger (JS.parseFloat "100") = true /\
  fitsInteger (JS.parseFloat "72.5") = false /\
  fitsInteger (JS.parseFloat "2147483647") = true /\
  fitsInteger (JS.parseFloat "2147483648") = false /\
  fitsInteger (JS.parseFloat "Infinity") = false.
Proof. repeat split; vm_compute; reflexivity. Qed.

Example parseFloat_exponent : JS.parseFloat "1.5e2" = JS.Finite (150 # 1).
Proof. reflexivity. Qed.

Example parseFloat_BW : JS.parseFloat "BW" = JS.NaN.
Proof. reflexivity. Qed.

Example parseFloat_dot : JS.parseFloat "." = JS.NaN.
Proof. reflexivity. Qed.

Example liftTypeOf_paused_bench :
  liftTypeOf (JS.trim (JS.toLowerCase "  Paused BENCH Press ")) = Some bench.
Proof. reflexivity. Qed.

Example liftTypeOf_row : liftTypeOf (JS.trim (JS.toLowerCase "Barbell Row")) = None.
Proof. reflexivity. Qed.

Example Math_max_NaN :
  JS.Math_max [JS.Finite (100 # 1); JS.NaN; JS.Finite (120 # 1)] = JS.NaN.
Proof. reflexivity. Qed.

Example Math_max_numbers :
  JS.Math_max [JS.Finite (100 # 1); JS.Finite (120 # 1); JS.Finite (80 # 1)]
  = JS.Finite (120 # 1).
Proof. reflexivity. Qed.

(** * Further properties *)

(** ** What a save does to the tables *)

Lemma notifyExercise_frame profile isCoach target program old week day ex db :
  Db.profiles (notifyExercise profile isCoach target program old week day ex db) = Db.profiles db /\
  Db.programs (notifyExercise profile isCoach target program old week day ex db) = Db.programs db /\
  Db.clients (notifyExercise profile isCoach target program old week day ex db) = Db.clients db /\
  Db.videoUploads (notifyExercise profile isCoach target program old week day ex db) =
    Db.videoUploads db.
Proof. rewrite notifyExercise_appends. repeat split. Qed.

Lemma afterNotifications_frame profile isCoach program db :
  let d := afterNotifications profile isCoach program db in
  Db.profiles d = Db.profiles db /\
  Db.clients d = Db.clients db /\
  Db.videoUploads d = Db.videoUploads db /\
  Db.programs d = Db.programs (putProgram program db).
Proof.
  unfold afterNotifications.
  destruct (getProgram db (Program.id program)); [|repeat split].
  apply (forEachExercise_inv
           (fun d => Db.profiles d = Db.profiles db /\ Db.clients d = Db.clients db /\
                     Db.videoUploads d = Db.videoUploads db /\
                     Db.programs d = Db.programs (putProgram program db)));
    [|repeat split].
  intros w d e s' (A & B & C & D).
  destruct (notifyExercise_frame profile isCoach
              (targetProfileId profile isCoach program (putProgram program db))
              program t w d e s') as (A' & D' & B' & C').
  rewrite A', B', C', D'. auto.
Qed.

(** The columns of a program row that a save cannot change. *)
Lemma save_frame profile isCoach today program db :
  let db' := save profile isCoach today program db in
  Db.profiles db' = Db.profiles db /\
  Db.clients db' = Db.clients db /\
  Db.videoUploads db' = Db.videoUploads db /\
  Db.programs db' = Db.programs (putProgram program db).
Proof.
  destruct (stored program db) eqn:H.
  - rewrite (save_stored _ _ _ _ _ H).
    destruct isCoach; apply afterNotifications_frame.
  - rewrite (save_unstored _ _ _ _ _ H), (putProgram_unstored _ _ H). repeat split.
Qed.

Lemma save_scope profile isCoach today program db :
  let db' := save profile isCoach today program db in
  Db.profiles db' = Db.profiles db /\
  Db.clients db' = Db.clients db /\
  Db.videoUploads db' = Db.videoUploads db /\
  map (fun p => (Program.id p, Program.coachId p, Program.shareCode p, Program.createdAt p))
      (Db.programs db') =
  map (fun p => (Program.id p, Program.coachId p, Program.shareCode p, Program.createdAt p))
      (Db.programs db) /\
  (forall p, In p (Db.programs db) -> Program.id p <> Program.id program ->
     In p (Db.programs db')) /\
  (isCoach = true -> Db.prs db' = Db.prs db).
Proof.
  intro db'. destruct (save_frame profile isCoach today program db) as (A & B & C & D).
  fold db' in A, B, C, D. repeat split; auto.
  - rewrite D. unfold putProgram. simpl. rewrite map_map. apply map_ext.
    intro p. destruct (String.eqb _ _); reflexivity.
  - intros p Hp Hne. rewrite D. unfold putProgram. simpl.
    apply in_map_iff. exists p. split; [|exact Hp].
    apply String.eqb_neq in Hne. rewrite Hne. reflexivity.
  - intros ->. unfold db'. destruct (stored program db) eqn:H.
    + rewrite (save_stored _ _ _ _ _ H). apply afterNotifications_prs.
    + rewrite (save_unstored _ _ _ _ _ H). reflexivity.
Qed.

(** X1.  A save never touches the profiles, the client links or the video
    records; of the programs it changes only rows with the saved program's
    id, and of those never the id, the owning coach, the share code or the
    creation time; and a coach's save leaves the PR ledger as it was. *)
Theorem save_changes_only_the_saved_program profile isCoach today program db :
  let db' := save profile isCoach today program db in
  Db.profiles db' = Db.profiles db /\
  Db.clients db' = Db.clients db /\
  Db.videoUploads db' = Db.videoUploads db /\
  map (fun p => (Program.id p, Program.coachId p, Program.shareCode p, Program.createdAt p))
      (Db.programs db') =
  map (fun p => (Program.id p, Program.coachId p, Program.shareCode p, Program.createdAt p))
      (Db.programs db) /\
  (forall p, In p (Db.programs db) -> Program.id p <> Program.id program ->
     In p (Db.programs db')) /\
  (isCoach = true -> Db.prs db' = Db.prs db).
Proof.
  exact (save_scope profile isCoach today program db).
Qed.

Lemma find_map_key {A K : Type} (key : A -> K) (eqb : K -> K -> bool) (f : A -> A) k l :
  (forall a, key (f a) = key a) ->
  find (fun a => eqb (key a) k) (map f l) =
  option_map f (find (fun a => eqb (key a) k) l).
Proof.
  intro H. induction l as [|a l IH]; simpl; [reflexivity|].
  rewrite H. destruct (eqb (key a) k); [reflexivity|exact IH].
Qed.

(** X2.  Save and load.  After a save of a stored program, loading it
    returns the saved title, description, document, days per week, client and
    status, with the owning coach, share code and creation time of the
    stored row. *)
Theorem getProgram_after_save profile isCoach today program db row :
  find (fun p => String.eqb (Program.id p) (Program.id program)) (Db.programs db) = Some row ->
  getProgram (save profile isCoach today program db) (Program.id program) =
  Some (Program.mk (Program.id row) (Program.title program) (Program.description program)
          (Program.weeks program) (Program.createdAt row) (Program.daysPerWeek program)
          (Program.shareCode row) (Program.coachId row)
          (orNull (Program.clientId program))
          (JS.or_else (Program.status program) "active")).
Proof.
  intro H. unfold getProgram.
  destruct (save_frame profile isCoach today program db) as (_ & _ & _ & D).
  rewrite D. unfold putProgram. simpl.
  rewrite (find_map_key Program.id String.eqb), H.
  - simpl. apply find_some in H as [_ E]. rewrite E. reflexivity.
  - intro a. destruct (String.eqb _ _); reflexivity.
Qed.

(** X3.  A save of a program that is not stored does not create it: the
    programs and the notifications are left as they were, and the program
    still cannot be loaded. *)
Theorem save_of_unstored_program profile isCoach today program db :
  getProgram db (Program.id program) = None ->
  Db.programs (save profile isCoach today program db) = Db.programs db /\
  Db.notifications (save profile isCoach today program db) = Db.notifications db /\
  getProgram (save profile isCoach today program db) (Program.id program) = None.
Proof.
  intro H.
  assert (Hnone : find (fun p => String.eqb (Program.id p) (Program.id program))
                       (Db.programs db) = None).
  { unfold getProgram in H. destruct (find _ _); [discriminate|reflexivity]. }
  assert (Hprog : Db.programs (save profile isCoach today program db) = Db.programs db).
  { destruct (save_frame profile isCoach today program db) as (_ & _ & _ & D).
    rewrite D. unfold putProgram. simpl.
    rewrite <- (map_id (Db.programs db)) at 2. apply map_ext_in.
    intros p Hp. rewrite (find_none _ _ Hnone p Hp). reflexivity. }
  split; [exact Hprog|split].
  - rewrite save_notifications, afterNotifications_notifications, H. apply app_nil_r.
  - unfold getProgram. rewrite Hprog, Hnone. reflexivity.
Qed.

(** ** Saves that report nothing *)

Lemma collect_app {B : Type} ws1 ws2
    (out : WorkoutWeek.t -> WorkoutDay.t -> Exercise.t -> list B) :
  collect (ws1 ++ ws2) out = (collect ws1 out ++ collect ws2 out)%list.
Proof. unfold collect. apply flat_map_app. Qed.

Lemma collect_nil {B : Type} weeks
    (out : WorkoutWeek.t -> WorkoutDay.t -> Exercise.t -> list B) :
  (forall w d e, In w weeks -> In d (WorkoutWeek.days w) ->
     In e (WorkoutDay.exercises d) -> out w d e = []) ->
  collect weeks out = [].
Proof.
  intro H. unfold collect.
  apply flat_map_nil. intros w Hw. apply flat_map_nil. intros d Hd.
  apply flat_map_nil. intros e He. apply H; assumption.
Qed.

Lemma emitted_nothingNew profile isCoach target program old week day ex o :
  oldEx old week day ex = Some o -> nothingNew ex o ->
  emitted profile isCoach target program old week day ex = [].
Proof.
  intros H (Hn & Hv & Hc & Hd). unfold emitted, notifyExercise, setAndChanged. rewrite H.
  assert (A : forall a b : string, a = "" \/ a = b ->
            (JS.truthy a && negb (String.eqb a b))%bool = false).
  { intros a b [->| ->]; [reflexivity|].
    rewrite String.eqb_refl. apply andb_false_r. }
  rewrite (A _ _ Hn), (A _ _ Hv), (A _ _ Hc).
  assert (B : (Exercise.isCompleted ex && negb (Exercise.isCompleted o))%bool = false).
  { destruct Hd as [->| ->]; [reflexivity|apply andb_false_r]. }
  rewrite B.
  destruct (negb (JS.truthy (Exercise.name ex))), (negb isCoach); reflexivity.
Qed.

Lemma save_silent profile isCoach today program old db :
  getProgram db (Program.id program) = Some old ->
  uniqueKeys (Program.weeks old) ->
  (forall week day ex,
     In week (Program.weeks program) -> In day (WorkoutWeek.days week) ->
     In ex (WorkoutDay.exercises day) ->
     exists oldWeek oldDay oldExercise,
       In oldWeek (Program.weeks old) /\
       WorkoutWeek.weekNumber oldWeek = WorkoutWeek.weekNumber week /\
       In oldDay (WorkoutWeek.days oldWeek) /\
       WorkoutDay.dayNumber oldDay = WorkoutDay.dayNumber day /\
       In oldExercise (WorkoutDay.exercises oldDay) /\
       Exercise.id oldExercise = Exercise.id ex /\
       nothingNew ex oldExercise) ->
  Db.notifications (save profile isCoach today program db) = Db.notifications db.
Proof.
  intros Hget U Hsub.
  rewrite save_notifications, afterNotifications_notifications, Hget.
  rewrite <- (app_nil_r (Db.notifications db)) at 2. f_equal.
  apply collect_nil. intros w d x Hw Hd Hx.
  destruct (Hsub w d x Hw Hd Hx) as (ow & od & o & How & Ew & Hod & Ed & Ho & Eid & Hnew).
  apply (emitted_nothingNew profile isCoach _ program old w d x o); [|exact Hnew].
  apply (oldEx_found old ow od o w d x U How Hod Ho); auto.
Qed.

(** X4.  A save reports only what is newly set.  When the stored document
    has unique keys and every exercise of the saved document has, in the
    stored day with its day number of the stored week with its week number,
    an exercise with its identifier compared with which it has no new client
    notes, video reference or coach comment and is not newly completed, the
    save persists no notification, whoever saves.  Saving the stored
    document again, reordering or deleting exercises, changing names or
    weights, clearing notes and un-completing are cases of this. *)
Theorem save_of_nothing_new_is_silent profile isCoach today program old db :
  getProgram db (Program.id program) = Some old ->
  uniqueKeys (Program.weeks old) ->
  (forall week day ex,
     In week (Program.weeks program) -> In day (WorkoutWeek.days week) ->
     In ex (WorkoutDay.exercises day) ->
     exists oldWeek oldDay oldExercise,
       In oldWeek (Program.weeks old) /\
       WorkoutWeek.weekNumber oldWeek = WorkoutWeek.weekNumber week /\
       In oldDay (WorkoutWeek.days oldWeek) /\
       WorkoutDay.dayNumber oldDay = WorkoutDay.dayNumber day /\
       In oldExercise (WorkoutDay.exercises oldDay) /\
       Exercise.id oldExercise = Exercise.id ex /\
       nothingNew ex oldExercise) ->
  Db.notifications (save profile isCoach today program db) = Db.notifications db.
Proof.
  exact (save_silent profile isCoach today program old db).
Qed.

Lemma nothingNew_refl ex : nothingNew ex ex.
Proof.
  repeat split; auto. destruct (Exercise.isCompleted ex); auto.
Qed.

Lemma emitted_shape profile isCoach target program old week day ex n :
  In n (emitted profile isCoach target program old week day ex) ->
  JS.truthy (Exercise.name ex) = true /\
  Notification.exerciseName n = Exercise.name ex /\
  Notification.programId n = Program.id program /\
  Notification.programTitle n = Program.title program /\
  (if isCoach
   then Notification.type n = NotificationType.comment /\
        Notification.fromRole n = Role.coach /\
        JS.truthy (Exercise.coachComment ex) = true
   else Notification.fromRole n = Role.client /\
        ((Notification.type n = NotificationType.notes /\
          JS.truthy (Exercise.clientNotes ex) = true) \/
         (Notification.type n = NotificationType.video /\
          JS.truthy (Exercise.videoUrl ex) = true) \/
         (Notification.type n = NotificationType.completion /\
          Exercise.isCompleted ex = true))).
Proof.
  unfold emitted, notifyExercise, setAndChanged.
  destruct (oldEx old week day ex) as [o|]; [|intros []].
  destruct (JS.truthy (Exercise.name ex)); [|intros []].
  destruct isCoach; simpl negb; cbv iota.
  - destruct (JS.truthy (Exercise.coachComment ex)); [|intros []].
    destruct (negb (String.eqb _ _)); [|intros []].
    intros [<-|[]]. repeat split.
  - destruct (JS.truthy (Exercise.clientNotes ex)),
             (negb (String.eqb (Exercise.clientNotes ex) (Exercise.clientNotes o))),
             (JS.truthy (Exercise.videoUrl ex)),
             (negb (String.eqb (Exercise.videoUrl ex) (Exercise.videoUrl o))),
             (Exercise.isCompleted ex), (negb (Exercise.isCompleted o));
      simpl; intuition (subst; simpl; auto 10).
Qed.

(** X5.  Every notification a save persists is about a named exercise of the
    saved document and carries the program's id and title.  A coach's save
    persists comment notifications only, from the coach, and only for
    exercises with a coach comment; a client's save persists notes, video
    and completion notifications only, from the client, each for an exercise
    with client notes, a video reference or the completion flag. *)
Theorem save_notifications_by_role profile isCoach today program db :
  exists rows,
    Db.notifications (save profile isCoach today program db) =
      (Db.notifications db ++ rows)%list /\
    forall n, In n rows ->
      exists ex,
        In ex (allExercises (Program.weeks program)) /\
        Exercise.name ex <> "" /\
        Notification.exerciseName n = Exercise.name ex /\
        Notification.programId n = Program.id program /\
        Notification.programTitle n = Program.title program /\
        (if isCoach
         then Notification.type n = NotificationType.comment /\
              Notification.fromRole n = Role.coach /\
              Exercise.coachComment ex <> ""
         else Notification.fromRole n = Role.client /\
              ((Notification.type n = NotificationType.notes /\
                Exercise.clientNotes ex <> "") \/
               (Notification.type n = NotificationType.video /\
                Exercise.videoUrl ex <> "") \/
               (Notification.type n = NotificationType.completion /\
                Exercise.isCompleted ex = true))).
Proof.
  eexists. split.
  - rewrite save_notifications, afterNotifications_notifications. reflexivity.
  - intros n Hn. destruct (getProgram db (Program.id program)) as [old|]; [|destruct Hn].
    apply In_collect in Hn as (w & d & e & Hw & Hd & He & Hn).
    apply emitted_shape in Hn as (Hname & En & Ep & Et & Hrole).
    assert (Htr : forall s, JS.truthy s = true -> s <> "")
      by (intros s Hs ->; discriminate).
    exists e. repeat split; auto.
    + unfold allExercises. apply in_flat_map. exists w. split; [exact Hw|].
      apply in_flat_map. exists d. auto.
    + destruct isCoach.
      * destruct Hrole as (A & B & C). auto.
      * destruct Hrole as (A & [(B & C)|[(B & C)|(B & C)]]); auto 10.
Qed.

(** ** The rows the PR scan inserts *)

Lemma promotions_shape profile today program existingPRs ex r :
  In r (promotions profile today program existingPRs ex) ->
  exists liftType w,
    scannedAs liftType w ex /\
    JS.gt w (currentBest existingPRs liftType) = true /\
    r = promotedRow profile today program liftType w ex.
Proof.
  destruct (promotions_spec profile today program ex) as [H|(t & w & Hs & H)].
  - rewrite H. intros [].
  - rewrite H. destruct (JS.gt w (currentBest existingPRs t)) eqn:E; [|intros []].
    intros [<-|[]]. exists t, w. auto.
Qed.

Lemma length_flat_map_le {A B : Type} (f : A -> list B) (g : A -> bool) (l : list A) :
  (forall a, (List.length (f a) <= (if g a then 1 else 0))%nat) ->
  (List.length (flat_map f l) <= List.length (filter g l))%nat.
Proof.
  intro H. induction l as [|a l IH]; simpl; [lia|].
  rewrite length_app. specialize (H a). destruct (g a); simpl; lia.
Qed.

(** X6.  The PR ledger only grows in a save: the rows there stay, in order,
    and the new rows follow.  Every new row belongs to the saving client,
    is in the client's unit and dated today, and stems from a completed,
    named exercise of the saved document whose name contains a lift keyword
    and whose weight reads as a positive number above the best of that lift
    type before the save.  There are at most as many new rows as completed
    exercises. *)
Theorem save_appends_justified_PRs profile today program db :
  exists rows,
    Db.prs (save profile false today program db) = (Db.prs db ++ rows)%list /\
    (List.length rows <=
     List.length (filter Exercise.isCompleted (allExercises (Program.weeks program))))%nat /\
    forall r, In r rows ->
      PR.profileId r = UserProfile.id profile /\
      PR.unit r = UserProfile.weightUnit profile /\
      PR.date r = today /\
      JS.gt (PR.weight r) (JS.ofZ 0) = true /\
      JS.gt (PR.weight r) (currentBest (getPRs profile db) (PR.liftType r)) = true /\
      exists ex,
        In ex (allExercises (Program.weeks program)) /\
        Exercise.isCompleted ex = true /\
        Exercise.name ex <> "" /\
        liftTypeOf (JS.trim (JS.toLowerCase (Exercise.name ex))) = Some (PR.liftType r) /\
        JS.parseFloat (Exercise.weight ex) = PR.weight r.
Proof.
  eexists. split; [apply save_client_prs|].
  assert (Hin : forall r,
            In r (if stored program db
                  then takeWhile storable
                         (flat_map (promotions profile today program (getPRs profile db))
                            (allExercises (Program.weeks program)))
                  else []) ->
            In r (flat_map (promotions profile today program (getPRs profile db))
                    (allExercises (Program.weeks program)))).
  { intros r Hr. destruct (stored program db); [|destruct Hr].
    apply takeWhile_In in Hr as [Hr _]. exact Hr. }
  split.
  - apply Nat.le_trans
      with (List.length
              (flat_map (promotions profile today program (getPRs profile db))
                 (allExercises (Program.weeks program)))).
    { destruct (stored program db); [apply takeWhile_length|simpl; lia]. }
    apply length_flat_map_le. intro ex.
    destruct (Exercise.isCompleted ex) eqn:E.
    + destruct (promotions_spec profile today program ex) as [H|(t & w & _ & H)];
        rewrite H; [simpl; lia|].
      destruct (JS.gt _ _); simpl; lia.
    + rewrite promotions_not_completed by exact E. simpl. lia.
  - intros r Hr. apply Hin in Hr. apply in_flat_map in Hr as (ex & Hex & Hr).
    apply promotions_shape in Hr as (t & w & Hs & Hgt & ->).
    destruct Hs as (Hn & Hw & Hc & Ht & Hp & Hpos). simpl.
    repeat split; auto.
    exists ex. repeat split; auto.
    intro E. rewrite E in Hn. discriminate.
Qed.

(** ** The lift keywords *)

Lemma includes_tail c s sub : JS.includes s sub = true -> JS.includes (String c s) sub = true.
Proof.
  intro H. cbn [JS.includes]. rewrite H. apply orb_true_r.
Qed.

Lemma startsWith_includes s sub : JS.startsWith s sub = true -> JS.includes s sub = true.
Proof. intro H. destruct s; cbn [JS.includes]; rewrite H; reflexivity. Qed.

Lemma startsWith_app_r s a b :
  JS.startsWith s (a ++ b) = true -> JS.includes s b = true.
Proof.
  revert s. induction a as [|c a IH]; intros s H.
  - apply startsWith_includes, H.
  - destruct s as [|c' s]; simpl in H; [discriminate|].
    apply andb_true_iff in H as [_ H]. apply includes_tail, IH, H.
Qed.

(** A string that includes [a ++ b] includes [b]. *)
Lemma includes_app_r s a b : JS.includes s (a ++ b) = true -> JS.includes s b = true.
Proof.
  induction s as [|c s IH]; cbn [JS.includes]; intro H.
  - rewrite orb_false_r in H. apply startsWith_app_r in H. exact H.
  - apply orb_true_iff in H as [H|H].
    + apply startsWith_app_r in H. exact H.
    + fold (JS.includes s b). apply IH in H.
      apply orb_true_iff. right. exact H.
Qed.

Lemma startsWith_app_l s a b :
  JS.startsWith s (a ++ b) = true -> JS.startsWith s a = true.
Proof.
  revert s. induction a as [|c a IH]; intros s H; [destruct s; reflexivity|].
  destruct s as [|c' s]; simpl in H; [discriminate|].
  apply andb_true_iff in H as [Hc H]. simpl. rewrite Hc. apply IH, H.
Qed.

(** A string that includes [a ++ b] includes [a]. *)
Lemma includes_app_l s a b : JS.includes s (a ++ b) = true -> JS.includes s a = true.
Proof.
  induction s as [|c s IH]; cbn [JS.includes]; intro H.
  - rewrite orb_false_r in H. apply startsWith_app_l in H. rewrite H. reflexivity.
  - apply orb_true_iff in H as [H|H]; apply orb_true_iff.
    + left. apply startsWith_app_l in H. exact H.
    + right. apply IH, H.
Qed.

(** X7.  The nine lift keywords decide like three: a name counts as a squat
    when it contains "squat", else as a bench when it contains "bench", else
    as a deadlift when it contains "deadlift", else as no lift.  (So a name
    with two of the words goes to the first of them in this order.) *)
Theorem liftTypeOf_three_keywords name :
  liftTypeOf name =
  if JS.includes name "squat" then Some squat
  else if JS.includes name "bench" then Some bench
  else if JS.includes name "deadlift" then Some deadlift
  else None.
Proof.
  unfold liftTypeOf, liftKeywords. cbn [find fst snd].
  destruct (JS.includes name "squat") eqn:S; [reflexivity|].
  assert (S1 : JS.includes name "back squat" = false).
  { destruct (JS.includes name "back squat") eqn:E; [|reflexivity].
    apply (includes_app_r name "back " "squat") in E. congruence. }
  assert (S2 : JS.includes name "front squat" = false).
  { destruct (JS.includes name "front squat") eqn:E; [|reflexivity].
    apply (includes_app_r name "front " "squat") in E. congruence. }
  rewrite S1, S2.
  destruct (JS.includes name "bench") eqn:B; [reflexivity|].
  assert (B1 : JS.includes name "bench press" = false).
  { destruct (JS.includes name "bench press") eqn:E; [|reflexivity].
    apply (includes_app_l name "bench" " press") in E. congruence. }
  assert (B2 : JS.includes name "flat bench" = false).
  { destruct (JS.includes name "flat bench") eqn:E; [|reflexivity].
    apply (includes_app_r name "flat " "bench") in E. congruence. }
  rewrite B1, B2.
  destruct (JS.includes name "deadlift") eqn:D; [reflexivity|].
  assert (D1 : JS.includes name "sumo deadlift" = false).
  { destruct (JS.includes name "sumo deadlift") eqn:E; [|reflexivity].
    apply (includes_app_r name "sumo " "deadlift") in E. congruence. }
  assert (D2 : JS.includes name "conventional deadlift" = false).
  { destruct (JS.includes name "conventional deadlift") eqn:E; [|reflexivity].
    apply (includes_app_r name "conventional " "deadlift") in E. congruence. }
  rewrite D1, D2. reflexivity.
Qed.

(** ** The best PR of a lift type *)

Lemma lt_not_below (b c p : JS.number) :
  JS.lt b c = true -> JS.lt b p = false -> JS.lt c p = false.
Proof.
  intros Hbc Hbp. destruct (JS.lt c p) eqn:E; [|reflexivity].
  rewrite (lt_trans _ _ _ Hbc E) in Hbp. discriminate.
Qed.

Lemma lt_notNaN (a b : JS.number) :
  JS.lt a b = true -> JS.isNaN a = false /\ JS.isNaN b = false.
Proof. destruct a, b; simpl; intro H; try discriminate; auto. Qed.

Lemma lt_NaN_l (a b : JS.number) : JS.isNaN a = true -> JS.lt a b = false.
Proof. destruct a; try discriminate. reflexivity. Qed.

Lemma pickHeavier_NaN (rest : list LiftPR.t) : forall best,
  JS.isNaN (LiftPR.weight best) = true ->
  fold_left (fun best curr =>
               if JS.gt (LiftPR.weight curr) (LiftPR.weight best) then curr else best)
            rest best = best.
Proof.
  induction rest as [|curr rest IH]; intros best N; simpl; [reflexivity|].
  unfold JS.gt at 2. rewrite (lt_NaN_l _ _ N). apply IH, N.
Qed.

Lemma pickHeavier_spec (rest : list LiftPR.t) : forall best,
  let result :=
    fold_left (fun best curr =>
                 if JS.gt (LiftPR.weight curr) (LiftPR.weight best) then curr else best)
              rest best in
  In result (best :: rest) /\
  forall p, In p (best :: rest) -> JS.lt (LiftPR.weight result) (LiftPR.weight p) = false.
Proof.
  induction rest as [|curr rest IH]; intro best; cbn zeta.
  - simpl. split; [auto|]. intros p [<-|[]]. apply lt_irrefl.
  - cbn [fold_left]. unfold JS.gt at 2 4.
    destruct (JS.lt (LiftPR.weight best) (LiftPR.weight curr)) eqn:E.
    + destruct (IH curr) as [Hin Hmax]. cbn zeta in Hin, Hmax. split.
      * destruct Hin as [Hin|Hin]; [right; left; exact Hin|right; right; exact Hin].
      * intros p [<-|Hp]; [|apply Hmax; exact Hp].
        specialize (Hmax curr (or_introl eq_refl)).
        match goal with |- JS.lt ?r _ = false => destruct (JS.lt r (LiftPR.weight best)) eqn:F end;
          [|reflexivity].
        rewrite (lt_trans _ _ _ F E) in Hmax. discriminate.
    + destruct (IH best) as [Hin Hmax]. cbn zeta in Hin, Hmax. split.
      * destruct Hin as [Hin|Hin]; [left; exact Hin|right; right; exact Hin].
      * intros p [<-|[<-|Hp]].
        -- apply Hmax. left. reflexivity.
        -- destruct (JS.isNaN (LiftPR.weight best)) eqn:Nb.
           { rewrite (pickHeavier_NaN rest best Nb). apply lt_NaN_l, Nb. }
           specialize (Hmax best (or_introl eq_refl)).
           match goal with |- JS.lt ?r ?x = false => destruct (JS.lt r x) eqn:F end;
             [|reflexivity].
           destruct (lt_notNaN _ _ F) as [Nr _].
           rewrite (ge_lt_trans _ _ _ Nr Nb Hmax F) in E. discriminate.
        -- apply Hmax. right. exact Hp.
Qed.

(** X8.  [getBestPR] answers [null] exactly when there is no PR of the lift
    type; otherwise it answers a PR of the list, of that lift type, and no
    PR of that lift type in the list is heavier. *)
Theorem getBestPR_is_best prs liftType :
  match getBestPR prs liftType with
  | None => forall p, In p prs -> LiftPR.liftType p <> liftType
  | Some best =>
      In best prs /\ LiftPR.liftType best = liftType /\
      forall p, In p prs -> LiftPR.liftType p = liftType ->
        JS.gt (LiftPR.weight p) (LiftPR.weight best) = false
  end.
Proof.
  unfold getBestPR.
  destruct (filter _ prs) as [|first rest] eqn:E.
  - intros p Hp Ht.
    assert (K : In p (filter (fun q => LiftType_eqb (LiftPR.liftType q) liftType) prs)).
    { apply filter_In. split; [exact Hp|]. apply LiftType_eqb_eq, Ht. }
    rewrite E in K. destruct K.
  - destruct (pickHeavier_spec rest first) as [Hin Hmax].
    rewrite <- E in Hin, Hmax.
    apply filter_In in Hin as [Hin Ht]. split; [exact Hin|split].
    + apply LiftType_eqb_eq, Ht.
    + intros p Hp Hpt. unfold JS.gt. apply Hmax. apply filter_In. split; [exact Hp|].
      apply LiftType_eqb_eq, Hpt.
Qed.

Lemma max2_pick (rest : list LiftPR.t) : forall best,
  JS.isNaN (LiftPR.weight best) = false ->
  (forall p, In p rest -> JS.isNaN (LiftPR.weight p) = false) ->
  fold_left JS.max2 (map LiftPR.weight rest) (LiftPR.weight best) =
  LiftPR.weight
    (fold_left (fun best curr =>
                  if JS.gt (LiftPR.weight curr) (LiftPR.weight best) then curr else best)
               rest best).
Proof.
  induction rest as [|curr rest IH]; intros best Nb Nr; simpl; [reflexivity|].
  assert (Nc : JS.isNaN (LiftPR.weight curr) = false) by (apply Nr; left; reflexivity).
  unfold JS.max2 at 2. rewrite Nb, Nc. simpl. unfold JS.gt.
  destruct (JS.lt (LiftPR.weight best) (LiftPR.weight curr)); apply IH; auto;
    intros p Hp; apply Nr; right; exact Hp.
Qed.

(** X9.  The best PR the home screen shows and the best the PR scan compares
    with agree: when the ledger holds a PR of the lift type and no weight of
    that type is NaN, [currentBest] is the weight of [getBestPR]'s answer. *)
Theorem currentBest_is_weight_of_getBestPR prs liftType best :
  getBestPR prs liftType = Some best ->
  (forall p, In p prs -> LiftPR.liftType p = liftType ->
     JS.isNaN (LiftPR.weight p) = false) ->
  currentBest prs liftType = LiftPR.weight best.
Proof.
  unfold getBestPR, currentBest.
  destruct (filter _ prs) as [|first rest] eqn:E; [discriminate|].
  intros H Hnan. injection H as <-.
  assert (Hf : forall p, In p (first :: rest) -> JS.isNaN (LiftPR.weight p) = false).
  { intros p Hp. rewrite <- E in Hp. apply filter_In in Hp as [Hp Ht].
    apply Hnan; [exact Hp|]. apply LiftType_eqb_eq, Ht. }
  unfold JS.Math_max. simpl.
  assert (E0 : JS.max2 JS.NegInfinity (LiftPR.weight first) = LiftPR.weight first).
  { specialize (Hf first (or_introl eq_refl)).
    destruct (LiftPR.weight first); try discriminate; reflexivity. }
  rewrite E0. apply max2_pick.
  - apply Hf. left. reflexivity.
  - intros p Hp. apply Hf. right. exact Hp.
Qed.

(** ** Editing a program and saving it *)

Lemma emitted_quiet profile isCoach target program old week day ex :
  quiet ex -> emitted profile isCoach target program old week day ex = [].
Proof.
  intros (Hn & Hv & Hc & Hd). unfold emitted, notifyExercise, setAndChanged.
  rewrite Hn, Hv, Hc, Hd. simpl.
  destruct (oldEx old week day ex); [|reflexivity].
  destruct (negb (JS.truthy (Exercise.name ex))), (negb isCoach); reflexivity.
Qed.

Lemma emitted_numbers profile isCoach target program old week day week' day' ex :
  WorkoutWeek.weekNumber week = WorkoutWeek.weekNumber week' ->
  WorkoutDay.dayNumber day = WorkoutDay.dayNumber day' ->
  emitted profile isCoach target program old week day ex =
  emitted profile isCoach target program old week' day' ex.
Proof.
  intros Ew Ed. unfold emitted, notifyExercise, oldEx. rewrite Ew, Ed. reflexivity.
Qed.

Lemma copyExercises_quiet uuid exercises : forall next ex,
  In ex (fst (copyExercises uuid next exercises)) -> quiet ex.
Proof.
  induction exercises as [|e rest IH]; intros next ex H; simpl in H; [destruct H|].
  destruct (copyExercises uuid (S next) rest) as [copies next'] eqn:E.
  simpl in H. destruct H as [<-|H].
  - repeat split.
  - apply (IH (S next)). rewrite E. exact H.
Qed.

Lemma newDaysFrom_quiet uuid lastWeek count : forall next d day ex,
  In day (newDaysFrom uuid next lastWeek d count) ->
  In ex (WorkoutDay.exercises day) -> quiet ex.
Proof.
  induction count as [|count IH]; intros next d day ex Hday Hex; simpl in Hday;
    [destruct Hday|].
  destruct (match lastWeek with
            | Some w => find (fun day => WorkoutDay.dayNumber day =? d) (WorkoutWeek.days w)
            | None => None
            end) as [template|].
  - destruct (copyExercises uuid next (WorkoutDay.exercises template))
      as [copies next'] eqn:E.
    destruct Hday as [<-|Hday].
    + simpl in Hex. apply (copyExercises_quiet uuid (WorkoutDay.exercises template) next).
      rewrite E. exact Hex.
    + exact (IH next' (d + 1) day ex Hday Hex).
  - destruct Hday as [<-|Hday]; [destruct Hex|].
    exact (IH next (d + 1) day ex Hday Hex).
Qed.

(** Exercises that are not completed and report nothing, added as whole
    weeks at the end of a document, change neither the notifications nor
    the PR rows of a save. *)
Lemma save_with_quiet_weeks profile isCoach today program extra db :
  (forall w d e, In w extra -> In d (WorkoutWeek.days w) ->
     In e (WorkoutDay.exercises d) -> quiet e) ->
  Db.notifications
    (save profile isCoach today (withWeeks (Program.weeks program ++ extra) program) db) =
  Db.notifications (save profile isCoach today program db) /\
  Db.prs (save profile isCoach today (withWeeks (Program.weeks program ++ extra) program) db) =
  Db.prs (save profile isCoach today program db).
Proof.
  intro Hq. split.
  - rewrite !save_notifications, !afterNotifications_notifications.
    change (Program.id (withWeeks _ program)) with (Program.id program).
    change (targetProfileId profile isCoach (withWeeks _ program) db)
      with (targetProfileId profile isCoach program db).
    f_equal. destruct (getProgram db (Program.id program)) as [old|]; [|reflexivity].
    change (Program.weeks (withWeeks ?w program)) with w.
    rewrite collect_app.
    rewrite (collect_nil extra).
    + rewrite app_nil_r. reflexivity.
    + intros w d e Hw Hd He. apply emitted_quiet. exact (Hq w d e Hw Hd He).
  - destruct isCoach.
    + destruct (save_scope profile true today
                  (withWeeks (Program.weeks program ++ extra) program) db)
        as (_ & _ & _ & _ & _ & H1).
      destruct (save_scope profile true today program db)
        as (_ & _ & _ & _ & _ & H2).
      rewrite (H1 eq_refl), (H2 eq_refl). reflexivity.
    + rewrite !save_client_prs. f_equal.
      change (stored (withWeeks (Program.weeks program ++ extra) program) db)
        with (stored program db).
      assert (E : flat_map
                    (promotions profile today
                       (withWeeks (Program.weeks program ++ extra) program)
                       (getPRs profile db))
                    (allExercises
                       (Program.weeks (withWeeks (Program.weeks program ++ extra) program))) =
                  flat_map (promotions profile today program (getPRs profile db))
                    (allExercises (Program.weeks program))).
      { change (Program.weeks (withWeeks ?w program)) with w.
        unfold allExercises. rewrite flat_map_app, flat_map_app.
        rewrite <- app_nil_r. f_equal.
        apply flat_map_nil. intros e He.
        apply in_flat_map in He as (w & Hw & He).
        apply in_flat_map in He as (d & Hd & He).
        destruct (Hq w d e Hw Hd He) as (_ & _ & _ & Hc).
        apply (promotions_not_completed profile today
                 (withWeeks (Program.weeks program ++ extra) program)
                 (getPRs profile db) e Hc). }
      rewrite E. reflexivity.
Qed.

(** X10.  Adding a week and saving reports nothing for it: the save persists
    the same notifications and the same PR rows as the save of the program
    without the new week (the copies carry no weight, notes, comment, video
    or completion flag). *)
Theorem addWeek_then_save profile isCoach today uuid program db :
  Db.notifications (save profile isCoach today (fst (addWeek uuid program)) db) =
  Db.notifications (save profile isCoach today program db) /\
  Db.prs (save profile isCoach today (fst (addWeek uuid program)) db) =
  Db.prs (save profile isCoach today program db).
Proof.
  unfold addWeek. cbn [fst].
  apply save_with_quiet_weeks.
  intros w d e [<-|[]] Hd He. simpl in Hd.
  exact (newDaysFrom_quiet _ _ _ _ _ _ _ Hd He).
Qed.

Lemma collect_inActiveDay_append {B : Type} activeWeek activeDay e weeks
    (out : WorkoutWeek.t -> WorkoutDay.t -> Exercise.t -> list B) :
  (forall w d, out w d e = []) ->
  (forall w d w' d' x,
     WorkoutWeek.weekNumber w = WorkoutWeek.weekNumber w' ->
     WorkoutDay.dayNumber d = WorkoutDay.dayNumber d' ->
     out w d x = out w' d' x) ->
  collect (inActiveDay activeWeek activeDay (fun l => (l ++ [e])%list) weeks) out =
  collect weeks out.
Proof.
  intros Hnil Hnum. unfold collect, inActiveDay.
  induction weeks as [|w weeks IH]; simpl; [reflexivity|].
  rewrite IH. f_equal. clear IH.
  destruct (negb (WorkoutWeek.weekNumber w =? activeWeek)); [reflexivity|].
  simpl WorkoutWeek.days.
  set (w' := WorkoutWeek.mk _ _).
  assert (Ew : WorkoutWeek.weekNumber w' = WorkoutWeek.weekNumber w) by reflexivity.
  clearbody w'.
  induction (WorkoutWeek.days w) as [|d days IHd]; simpl; [reflexivity|].
  rewrite IHd. f_equal.
  destruct (negb (WorkoutDay.dayNumber d =? activeDay)).
  - apply flat_map_ext. intro x. apply Hnum; [exact Ew|reflexivity].
  - simpl. rewrite flat_map_app. simpl. rewrite Hnil, app_nil_r.
    apply flat_map_ext. intro x. apply Hnum; [exact Ew|reflexivity].
Qed.

(** X11.  Adding an exercise row and saving reports nothing for it: the save
    persists the same notifications and the same PR rows as the save of the
    program without the new, empty row. *)
Theorem addExercise_then_save profile isCoach today activeWeek activeDay newId program db :
  Db.notifications
    (save profile isCoach today (addExercise activeWeek activeDay newId program) db) =
  Db.notifications (save profile isCoach today program db) /\
  Db.prs (save profile isCoach today (addExercise activeWeek activeDay newId program) db) =
  Db.prs (save profile isCoach today program db).
Proof.
  unfold addExercise. split.
  - rewrite !save_notifications, !afterNotifications_notifications.
    change (Program.id (withWeeks _ program)) with (Program.id program).
    change (targetProfileId profile isCoach (withWeeks _ program) db)
      with (targetProfileId profile isCoach program db).
    f_equal. destruct (getProgram db (Program.id program)) as [old|]; [|reflexivity].
    change (Program.weeks (withWeeks ?w program)) with w.
    apply (collect_inActiveDay_append activeWeek activeDay (newExercise newId)
             (Program.weeks program)
             (emitted profile isCoach (targetProfileId profile isCoach program db)
                program old)).
    + intros w d. apply emitted_quiet. repeat split.
    + intros w d w' d' x Ew Ed. apply emitted_numbers; assumption.
  - destruct isCoach.
    + destruct (save_scope profile true today
                  (withWeeks (inActiveDay activeWeek activeDay
                                (fun l => (l ++ [newExercise newId])%list)
                                (Program.weeks program)) program) db)
        as (_ & _ & _ & _ & _ & H1).
      destruct (save_scope profile true today program db)
        as (_ & _ & _ & _ & _ & H2).
      rewrite (H1 eq_refl), (H2 eq_refl). reflexivity.
    + rewrite !save_client_prs. f_equal.
      change (stored (withWeeks ?w program) db) with (stored program db).
      change (Program.weeks (withWeeks ?w program)) with w.
      change (promotions profile today (withWeeks ?w program))
        with (promotions profile today program).
      assert (E : flat_map (promotions profile today program (getPRs profile db))
                    (allExercises
                       (inActiveDay activeWeek activeDay
                          (fun l => (l ++ [newExercise newId])%list)
                          (Program.weeks program))) =
                  flat_map (promotions profile today program (getPRs profile db))
                    (allExercises (Program.weeks program))).
      { rewrite <- !collect_allExercises.
        apply (collect_inActiveDay_append activeWeek activeDay (newExercise newId)
                 (Program.weeks program)
                 (fun _ _ ex => promotions profile today program (getPRs profile db) ex)).
        * intros _ _. reflexivity.
        * reflexivity. }
      rewrite E. reflexivity.
Qed.

Lemma filter_id {A : Type} (f : A -> bool) (l : list A) :
  (forall x, In x l -> f x = true) -> filter f l = l.
Proof.
  induction l as [|a l IH]; intro H; simpl; [reflexivity|].
  rewrite (H a (or_introl eq_refl)), IH; [reflexivity|].
  intros x Hx. apply H. right. exact Hx.
Qed.

(** X12.  Adding an exercise row and deleting it again gives the program
    back, provided the new row's identifier is not already used in the
    active day. *)
Theorem deleteExercise_addExercise activeWeek activeDay newId program :
  (forall week day ex,
     In week (Program.weeks program) -> WorkoutWeek.weekNumber week = activeWeek ->
     In day (WorkoutWeek.days week) -> WorkoutDay.dayNumber day = activeDay ->
     In ex (WorkoutDay.exercises day) -> Exercise.id ex <> newId) ->
  deleteExercise activeWeek activeDay newId
    (addExercise activeWeek activeDay newId program) = program.
Proof.
  intro Hfresh. destruct program as [pid title descr weeks created dpw share cid clid st].
  unfold deleteExercise, addExercise, withWeeks. simpl in *. f_equal.
  unfold inActiveDay. rewrite map_map.
  rewrite <- (map_id weeks) at 2. apply map_ext_in.
  intros [wn days] Hw. simpl.
  destruct (wn =? activeWeek) eqn:Ew; simpl; [|rewrite Ew; reflexivity].
  rewrite Ew. simpl. f_equal. rewrite map_map.
  rewrite <- (map_id days) at 2. apply map_ext_in.
  intros [dn exs] Hd. simpl.
  destruct (dn =? activeDay) eqn:Ed; simpl; [|rewrite Ed; reflexivity].
  rewrite Ed. simpl. f_equal.
  rewrite filter_app. simpl. rewrite String.eqb_refl. simpl. rewrite app_nil_r.
  apply filter_id. intros x Hx. apply negb_true_iff, String.eqb_neq.
  apply (Hfresh (WorkoutWeek.mk wn days) (WorkoutDay.mk dn exs) x); auto.
  - apply Z.eqb_eq, Ew.
  - apply Z.eqb_eq, Ed.
Qed.

Lemma In_inActiveDay_filter activeWeek activeDay g weeks week day ex :
  In week (inActiveDay activeWeek activeDay (filter g) weeks) ->
  In day (WorkoutWeek.days week) -> In ex (WorkoutDay.exercises day) ->
  exists week0 day0,
    In week0 weeks /\ WorkoutWeek.weekNumber week0 = WorkoutWeek.weekNumber week /\
    In day0 (WorkoutWeek.days week0) /\
    WorkoutDay.dayNumber day0 = WorkoutDay.dayNumber day /\
    In ex (WorkoutDay.exercises day0) /\
    (WorkoutWeek.weekNumber week = activeWeek -> WorkoutDay.dayNumber day = activeDay ->
     g ex = true).
Proof.
  unfold inActiveDay. intros Hw Hd He.
  apply in_map_iff in Hw as (w0 & <- & Hw0).
  destruct (WorkoutWeek.weekNumber w0 =? activeWeek) eqn:Ew; simpl in Hd.
  - apply in_map_iff in Hd as (d0 & <- & Hd0).
    destruct (WorkoutDay.dayNumber d0 =? activeDay) eqn:Ed; simpl in He.
    + apply filter_In in He as [He Hg]. exists w0, d0. simpl. repeat split; auto.
    + exists w0, d0. simpl. repeat split; auto.
      intros _ E. apply Z.eqb_neq in Ed. contradiction.
  - exists w0, day. repeat split; auto.
    intros E _. apply Z.eqb_neq in Ew. contradiction.
Qed.

(** X13.  Deleting an exercise: afterwards no exercise of the active day of
    the active week carries the deleted identifier, and saving the stored
    program right after the deletion persists no notification (the stored
    document having unique keys). *)
Theorem deleteExercise_then_save profile isCoach today activeWeek activeDay exerciseId
    program old db :
  getProgram db (Program.id program) = Some old ->
  Program.weeks program = Program.weeks old ->
  uniqueKeys (Program.weeks old) ->
  (forall week day ex,
     In week (Program.weeks (deleteExercise activeWeek activeDay exerciseId program)) ->
     In day (WorkoutWeek.days week) -> In ex (WorkoutDay.exercises day) ->
     WorkoutWeek.weekNumber week = activeWeek -> WorkoutDay.dayNumber day = activeDay ->
     Exercise.id ex <> exerciseId) /\
  Db.notifications
    (save profile isCoach today (deleteExercise activeWeek activeDay exerciseId program) db) =
  Db.notifications db.
Proof.
  intros Hget Hweeks U. split.
  - intros week day ex Hw Hd He Ew Ed.
    destruct (In_inActiveDay_filter _ _ _ _ _ _ _ Hw Hd He) as (_ & _ & _ & _ & _ & _ & _ & Hg).
    specialize (Hg Ew Ed). apply negb_true_iff, String.eqb_neq in Hg. exact Hg.
  - apply (save_silent profile isCoach today _ old db); auto.
    intros week day ex Hw Hd He.
    destruct (In_inActiveDay_filter _ _ _ _ _ _ _ Hw Hd He)
      as (w0 & d0 & Hw0 & Ew & Hd0 & Ed & He0 & _).
    exists w0, d0, ex. rewrite <- Hweeks. repeat split; auto; apply nothingNew_refl.
Qed.

(** ** Joining a coach, further *)

(** What the handler can do to the database: nothing, or append the one new
    link, which it does only for a client without any link and a coach with
    room. *)
Lemma joinCoach_outcome newId now code clientProfileId clientName db :
  snd (joinCoach newId now code clientProfileId clientName db) = db \/
  exists coach,
    let client := Client.mk newId (UserProfile.id coach) clientProfileId
                    (JS.or_else clientName "Client") now in
    find (fun p => (String.eqb (UserProfile.coachCode p) (JS.toUpperCase code)
                    && Role_eqb (UserProfile.role p) Role.coach)%bool)
         (Db.profiles db) = Some coach /\
    linksOfClient clientProfileId db = [] /\
    (forall coachProfile,
       find (fun p => String.eqb (UserProfile.id p) (UserProfile.id coach))
            (Db.profiles db) = Some coachProfile ->
       Z.of_nat (List.length (linksOfCoach (UserProfile.id coach) db))
       < effectiveLimit coachProfile) /\
    joinCoach newId now code clientProfileId clientName db =
    (Json (JoinBody.mk (UserProfile.id coach) (UserProfile.name coach) client),
     Db.setClients (Db.clients db ++ [client]) db).
Proof.
  unfold joinCoach, linksOfClient, linksOfCoach, effectiveLimit.
  destruct (find _ (Db.profiles db)) as [coach|] eqn:Hc; [|left; reflexivity].
  destruct (filter _ (Db.clients db)) as [|e es] eqn:He; [|left; reflexivity].
  destruct (filter (fun c => String.eqb (Client.clientProfileId c) clientProfileId)
                   (Db.clients db)) as [|a l] eqn:Ha; [|left; reflexivity].
  destruct (find (fun p => String.eqb (UserProfile.id p) (UserProfile.id coach))
                 (Db.profiles db)) as [cp|] eqn:Hp.
  - match goal with |- context [if ?c then _ else _] => destruct c eqn:Hfull end;
      [left; reflexivity|].
    right. exists coach. cbn zeta. repeat split; auto.
    intros cp' E. rewrite Hp in E. injection E as <-. apply Z.leb_gt in Hfull. exact Hfull.
  - right. exists coach. cbn zeta. repeat split; auto. intros cp' E.
    rewrite Hp in E. discriminate.
Qed.

(** X14.  Whatever a join request is answered, the handler changes nothing
    but the client links, and those only by appending one link, with the
    new identifier, between the coach it names in its answer and the
    requesting client; an answer with an error status leaves the database
    as it was. *)
Theorem joinCoach_changes_only_links newId now code clientProfileId clientName db :
  let answer := fst (joinCoach newId now code clientProfileId clientName db) in
  let db' := snd (joinCoach newId now code clientProfileId clientName db) in
  Db.profiles db' = Db.profiles db /\ Db.programs db' = Db.programs db /\
  Db.prs db' = Db.prs db /\ Db.notifications db' = Db.notifications db /\
  Db.videoUploads db' = Db.videoUploads db /\
  (Db.clients db' = Db.clients db \/
   exists link body,
     Db.clients db' = (Db.clients db ++ [link])%list /\
     Client.id link = newId /\ Client.clientProfileId link = clientProfileId /\
     answer = Json body /\ JoinBody.client body = link /\
     JoinBody.coachId body = Client.coachId link) /\
  (forall status error, answer = Status status error -> db' = db).
Proof.
  cbn zeta.
  destruct (joinCoach_outcome newId now code clientProfileId clientName db)
    as [H|(coach & Hc & Hl & Hroom & H)].
  - rewrite H. repeat split; auto.
  - rewrite H. simpl. repeat split; auto.
    + right. eexists. eexists. split; [reflexivity|]. simpl. repeat split.
    + intros st er E. discriminate.
Qed.

(** X15.  Joining twice.  After a join request that was answered with a
    link, the same client asking again with the same code is answered with
    the same coach and the same link, and the database stays as the first
    request left it: no second link is made. *)
Theorem joinCoach_twice newId now code clientProfileId clientName body db1 db
    newId' now' clientName' :
  joinCoach newId now code clientProfileId clientName db = (Json body, db1) ->
  joinCoach newId' now' code clientProfileId clientName' db1 = (Json body, db1).
Proof.
  intro H.
  destruct (joinCoach_outcome newId now code clientProfileId clientName db)
    as [Hsame|(coach & Hc & Hl & Hroom & Hins)].
  - rewrite H in Hsame. simpl in Hsame. subst db1.
    revert H. unfold joinCoach.
    destruct (find _ (Db.profiles db)) as [coach|]; [|discriminate].
    destruct (filter _ (Db.clients db)) as [|e es] eqn:He.
    + destruct (filter (fun c => String.eqb (Client.clientProfileId c) clientProfileId)
                       (Db.clients db)) as [|a l]; [|discriminate].
      destruct (find (fun p => String.eqb (UserProfile.id p) (UserProfile.id coach))
                     (Db.profiles db)) as [cp|].
      * match goal with |- context [if ?c then _ else _] => destruct c end;
          [discriminate|].
        intro H. injection H as _ H. exfalso.
        assert (K : List.length (Db.clients db) =
                    List.length (Db.clients (Db.setClients
                       (Db.clients db ++
                        [Client.mk newId (UserProfile.id coach) clientProfileId
                           (JS.or_else clientName "Client") now]) db)))
          by (rewrite H; reflexivity).
        simpl in K. rewrite length_app in K. simpl in K. lia.
      * intro H. injection H as _ H. exfalso.
        assert (K : List.length (Db.clients db) =
                    List.length (Db.clients (Db.setClients
                       (Db.clients db ++
                        [Client.mk newId (UserProfile.id coach) clientProfileId
                           (JS.or_else clientName "Client") now]) db)))
          by (rewrite H; reflexivity).
        simpl in K. rewrite length_app in K. simpl in K. lia.
    + intro H. exact H.
  - rewrite Hins in H. injection H as <- <-.
    unfold joinCoach. simpl Db.profiles. rewrite Hc. simpl Db.clients.
    rewrite filter_app.
    assert (E : filter (fun c => (String.eqb (Client.coachId c) (UserProfile.id coach)
                                  && String.eqb (Client.clientProfileId c) clientProfileId)%bool)
                       (Db.clients db) = []).
    { apply filter_nil. intros c Hin. apply andb_false_iff. right.
      destruct (String.eqb (Client.clientProfileId c) clientProfileId) eqn:F; [|reflexivity].
      assert (K : In c (linksOfClient clientProfileId db))
        by (apply filter_In; auto).
      rewrite Hl in K. destruct K. }
    rewrite E. simpl. rewrite !String.eqb_refl. reflexivity.
Qed.

Lemma linksOfClient_append cp link db :
  linksOfClient cp (Db.setClients (Db.clients db ++ [link]) db) =
  (linksOfClient cp db ++
   if String.eqb (Client.clientProfileId link) cp then [link] else [])%list.
Proof. unfold linksOfClient. simpl. rewrite filter_app. reflexivity. Qed.

Lemma linksOfCoach_append coachId link db :
  linksOfCoach coachId (Db.setClients (Db.clients db ++ [link]) db) =
  (linksOfCoach coachId db ++
   if String.eqb (Client.coachId link) coachId then [link] else [])%list.
Proof. unfold linksOfCoach. simpl. rewrite filter_app. reflexivity. Qed.

(** X16.  The handler keeps clients to one coach: if no client profile holds
    more than one link before a join request, none does after it. *)
Theorem joinCoach_keeps_one_link_per_client newId now code clientProfileId clientName db :
  (forall cp, (List.length (linksOfClient cp db) <= 1)%nat) ->
  forall cp,
    (List.length
       (linksOfClient cp (snd (joinCoach newId now code clientProfileId clientName db)))
     <= 1)%nat.
Proof.
  intros Hinv cp.
  destruct (joinCoach_outcome newId now code clientProfileId clientName db)
    as [H|(coach & Hc & Hl & Hroom & H)]; rewrite H; [apply Hinv|].
  simpl snd. rewrite linksOfClient_append, length_app. simpl Client.clientProfileId.
  destruct (String.eqb clientProfileId cp) eqn:E; simpl.
  - apply String.eqb_eq in E. subst cp. rewrite Hl. simpl. lia.
  - specialize (Hinv cp). lia.
Qed.

Lemma find_by_id_NoDup (profiles : list UserProfile.t) p :
  NoDup (map UserProfile.id profiles) -> In p profiles ->
  find (fun q => String.eqb (UserProfile.id q) (UserProfile.id p)) profiles = Some p.
Proof.
  intros Hnd Hin.
  exact (find_NoDup UserProfile.id String.eqb profiles p _ String.eqb_eq Hnd Hin eq_refl).
Qed.

(** X17.  The handler keeps coaches within their limits: with profile ids
    unique, if before a join request every profile has at most as many
    links as its limit (the plan user limit, 1 where that is 0), the same
    holds after it. *)
Theorem joinCoach_keeps_coaches_within_limit newId now code clientProfileId clientName db :
  NoDup (map UserProfile.id (Db.profiles db)) ->
  (forall p, In p (Db.profiles db) ->
     Z.of_nat (List.length (linksOfCoach (UserProfile.id p) db)) <= effectiveLimit p) ->
  let db' := snd (joinCoach newId now code clientProfileId clientName db) in
  forall p, In p (Db.profiles db') ->
    Z.of_nat (List.length (linksOfCoach (UserProfile.id p) db')) <= effectiveLimit p.
Proof.
  intros Hnd Hinv db' p Hp. unfold db' in *. clear db'.
  destruct (joinCoach_outcome newId now code clientProfileId clientName db)
    as [H|(coach & Hc & Hl & Hroom & H)]; rewrite H in *; [apply Hinv, Hp|].
  simpl snd in *. simpl Db.profiles in Hp.
  rewrite linksOfCoach_append, length_app, Nat2Z.inj_add. simpl Client.coachId.
  destruct (String.eqb (UserProfile.id coach) (UserProfile.id p)) eqn:E; simpl.
  - apply String.eqb_eq in E.
    assert (Hfind : find (fun q => String.eqb (UserProfile.id q) (UserProfile.id coach))
                         (Db.profiles db) = Some p).
    { rewrite E. apply find_by_id_NoDup; assumption. }
    specialize (Hroom p Hfind). rewrite E in Hroom. lia.
  - specialize (Hinv p Hp). lia.
Qed.

(** X18.  Join and look up.  With profile ids unique and no client holding
    more than one link, after a join request of a client that was answered
    with a link, [my-coach] for that client answers the coach, the coach's
    name and the link of the join's answer. *)
Theorem myCoach_after_joinCoach newId now code clientProfileId clientName body db1 db :
  NoDup (map UserProfile.id (Db.profiles db)) ->
  (forall cp, (List.length (linksOfClient cp db) <= 1)%nat) ->
  clientProfileId <> "" ->
  joinCoach newId now code clientProfileId clientName db = (Json body, db1) ->
  myCoach clientProfileId db1 =
  Json (Some (MyCoach.mk (JoinBody.coachId body) (JoinBody.coachName body)
                (Client.id (JoinBody.client body)))).
Proof.
  intros Hnd Hone Hcp H.
  assert (Htr : JS.truthy clientProfileId = true)
    by (destruct clientProfileId; [congruence|reflexivity]).
  unfold myCoach. rewrite Htr. simpl negb. cbv iota.
  fold (linksOfClient clientProfileId db1).
  assert (Hname : forall coach,
            In coach (Db.profiles db) ->
            match filter (fun p => String.eqb (UserProfile.id p) (UserProfile.id coach))
                         (Db.profiles db) with
            | p :: _ => UserProfile.name p
            | [] => "Coach"
            end = UserProfile.name coach).
  { intros coach Hin.
    assert (Hf := find_by_id_NoDup _ _ Hnd Hin).
    clear - Hf. induction (Db.profiles db) as [|q l IH]; simpl in *; [discriminate|].
    destruct (String.eqb (UserProfile.id q) (UserProfile.id coach)).
    - injection Hf as ->. reflexivity.
    - apply IH, Hf. }
  destruct (joinCoach_outcome newId now code clientProfileId clientName db)
    as [Hsame|(coach & Hc & Hl & Hroom & Hins)].
  - rewrite H in Hsame. simpl in Hsame. subst db1.
    revert H. unfold joinCoach.
    destruct (find _ (Db.profiles db)) as [coach|] eqn:Hc; [|discriminate].
    destruct (filter _ (Db.clients db)) as [|e es] eqn:He.
    + destruct (filter (fun c => String.eqb (Client.clientProfileId c) clientProfileId)
                       (Db.clients db)) as [|a l]; [|discriminate].
      destruct (find (fun p => String.eqb (UserProfile.id p) (UserProfile.id coach))
                     (Db.profiles db)) as [cp|].
      * match goal with |- context [if ?c then _ else _] => destruct c end;
          [discriminate|].
        intro H. injection H as _ H. exfalso.
        assert (K : List.length (Db.clients db) =
                    List.length (Db.clients (Db.setClients
                       (Db.clients db ++
                        [Client.mk newId (UserProfile.id coach) clientProfileId
                           (JS.or_else clientName "Client") now]) db)))
          by (rewrite H; reflexivity).
        simpl in K. rewrite length_app in K. simpl in K. lia.
      * intro H. injection H as _ H. exfalso.
        assert (K : List.length (Db.clients db) =
                    List.length (Db.clients (Db.setClients
                       (Db.clients db ++
                        [Client.mk newId (UserProfile.id coach) clientProfileId
                           (JS.or_else clientName "Client") now]) db)))
          by (rewrite H; reflexivity).
        simpl in K. rewrite length_app in K. simpl in K. lia.
    + intro H. injection H as <-.
      assert (Hin : In e (linksOfClient clientProfileId db)).
      { assert (K : In e (e :: es)) by (left; reflexivity).
        rewrite <- He in K. apply filter_In in K as [K1 K2].
        apply andb_true_iff in K2 as [_ K2]. apply filter_In. auto. }
      assert (Hcoach : Client.coachId e = UserProfile.id coach).
      { assert (K : In e (e :: es)) by (left; reflexivity).
        rewrite <- He in K. apply filter_In in K as [_ K2].
        apply andb_true_iff in K2 as [K2 _]. apply String.eqb_eq, K2. }
      specialize (Hone clientProfileId).
      destruct (linksOfClient clientProfileId db) as [|x [|y l]]; simpl in *;
        [destruct Hin| |lia].
      destruct Hin as [->|[]]. apply find_some in Hc as [Hc _].
      rewrite Hcoach, (Hname coach Hc). reflexivity.
  - rewrite Hins in H. injection H as <- <-.
    rewrite linksOfClient_append, Hl. simpl. rewrite String.eqb_refl. simpl.
    apply find_some in Hc as [Hc _]. rewrite (Hname coach Hc). reflexivity.
Qed.

(** ** Viewing a video *)

(** X19.  A video is marked as viewed once.  The first request stamps the
    unviewed records of the file and answers whether there was one; records
    that already have a view time, and records of other files, are left as
    they are; a second request for the same file, whenever it comes, answers
    "not updated" and changes nothing, so the first view time stays. *)
Theorem markViewed_once now later filename db :
  let db1 := snd (markViewed now filename db) in
  (fst (markViewed now filename db) = true <->
   exists v, In v (Db.videoUploads db) /\ VideoUpload.filename v = filename /\
             VideoUpload.coachViewedAt v = None) /\
  (forall v, In v (Db.videoUploads db) ->
     (VideoUpload.filename v <> filename \/ VideoUpload.coachViewedAt v <> None) ->
     In v (Db.videoUploads db1)) /\
  (forall v, In v (Db.videoUploads db1) -> VideoUpload.filename v = filename ->
     VideoUpload.coachViewedAt v <> None) /\
  markViewed later filename db1 = (false, db1).
Proof.
  cbn zeta. unfold markViewed. cbn [fst snd].
  set (unviewed := fun v =>
         (String.eqb (VideoUpload.filename v) filename
          && match VideoUpload.coachViewedAt v with None => true | Some _ => false end)%bool).
  set (stamp := fun t v =>
         if unviewed v then
           VideoUpload.mk (VideoUpload.id v) (VideoUpload.filename v)
             (VideoUpload.programId v) (VideoUpload.exerciseId v)
             (VideoUpload.uploadedBy v) (VideoUpload.coachId v) (Some t)
             (VideoUpload.uploadedAt v)
         else v).
  assert (Hdone : forall v, unviewed (stamp now v) = false).
  { intro v. unfold stamp. destruct (unviewed v) eqn:E; [|exact E].
    unfold unviewed. simpl. apply andb_false_r. }
  split; [|split; [|split]].
  - rewrite existsb_exists. split.
    + intros (v & Hv & Hu). apply andb_true_iff in Hu as [Hf Hn].
      exists v. repeat split; auto.
      * apply String.eqb_eq, Hf.
      * destruct (VideoUpload.coachViewedAt v); [discriminate|reflexivity].
    + intros (v & Hv & Hf & Hn). exists v. split; [exact Hv|].
      unfold unviewed. rewrite Hn, (proj2 (String.eqb_eq _ _) Hf). reflexivity.
  - intros v Hv Hkeep. simpl. apply in_map_iff. exists v. split; [|exact Hv].
    change (stamp now v = v). unfold stamp.
    destruct (unviewed v) eqn:E; [|reflexivity].
    apply andb_true_iff in E as [Hf Hn]. exfalso. destruct Hkeep as [K|K].
    + apply K, String.eqb_eq, Hf.
    + apply K. destruct (VideoUpload.coachViewedAt v); [discriminate|reflexivity].
  - intros v Hv Hf Hn. simpl in Hv. apply in_map_iff in Hv as (v0 & Ev & _).
    change (stamp now v0 = v) in Ev. specialize (Hdone v0). rewrite Ev in Hdone.
    unfold unviewed in Hdone.
    rewrite Hn, (proj2 (String.eqb_eq _ _) Hf) in Hdone. discriminate.
  - simpl Db.videoUploads. f_equal.
    + destruct (existsb _ _) eqn:E; [|reflexivity].
      apply existsb_exists in E as (v & Hv & Hu).
      apply in_map_iff in Hv as (v0 & Ev & _).
      change (stamp now v0 = v) in Ev. change (unviewed v = true) in Hu.
      rewrite <- Ev, Hdone in Hu. discriminate.
    + unfold Db.setVideoUploads. simpl. f_equal.
      rewrite map_map. apply map_ext. intro v.
      change ((if unviewed (stamp now v) then
                 VideoUpload.mk (VideoUpload.id (stamp now v))
                   (VideoUpload.filename (stamp now v))
                   (VideoUpload.programId (stamp now v))
                   (VideoUpload.exerciseId (stamp now v))
                   (VideoUpload.uploadedBy (stamp now v))
                   (VideoUpload.coachId (stamp now v)) (Some later)
                   (VideoUpload.uploadedAt (stamp now v))
               else stamp now v) = stamp now v).
      rewrite Hdone. reflexivity.
Qed.

(** ** The sweep, further *)

Lemma unlinkIfExists_Done fails filename uploads uploads' :
  unlinkIfExists fails filename uploads = Done uploads' ->
  uploads' = filter (fun e => negb (String.eqb (fst e) filename)) uploads.
Proof.
  unfold unlinkIfExists, entryAt.
  destruct (dotsOnly filename 0); [discriminate|].
  destruct (find _ uploads) as [[n [|]]|] eqn:E; intro H; try discriminate.
  - destruct fails; [discriminate|]. injection H as <-. reflexivity.
  - injection H as <-. symmetry. apply filter_id. intros x Hx.
    rewrite (find_none _ _ E x Hx). reflexivity.
Qed.

Lemma processRecord_uploads fault record srv srv' :
  processRecord fault record srv = Done srv' ->
  Server.uploads srv' =
  filter (fun e => negb (String.eqb (fst e) (VideoUpload.filename record)))
         (Server.uploads srv).
Proof.
  intro H. apply processRecord_Done in H as (u & Hu & ->). simpl.
  apply (unlinkIfExists_Done false), Hu.
Qed.

Lemma blankPrograms_atUnlink record progs : forall k d,
  blankPrograms (Some atUnlink) record progs k d = blankPrograms None record progs k d.
Proof.
  induction progs as [|q l IH]; intros k d; simpl; [reflexivity|].
  destruct (changed record (Program.weeks q)); apply IH.
Qed.

(** The guard [fs.existsSync]: for a record whose file is not there nothing
    is removed, and the processing runs to its end when the database
    answers. *)
Lemma processRecord_missing fault record srv :
  entryAt (VideoUpload.filename record) (Server.uploads srv) = None ->
  fault = None \/ fault = Some atUnlink ->
  exists srv',
    processRecord fault record srv = Done srv' /\
    Server.uploads srv' = Server.uploads srv.
Proof.
  intros Hmiss Hfault. unfold processRecord, unlinkIfExists. rewrite Hmiss.
  destruct Hfault as [->| ->]; simpl failsSelect; simpl failsDelete; cbv iota;
    rewrite ?blankPrograms_atUnlink, blankPrograms_no_fault;
    eexists; split; reflexivity.
Qed.

Lemma processAll_videoUploads item toDelete : forall i srv srv',
  processAll item i toDelete srv = Done srv' ->
  Db.videoUploads (Server.db srv') =
  filter (fun v => negb (existsb (fun r => String.eqb (VideoUpload.id v) (VideoUpload.id r))
                                 toDelete))
         (Db.videoUploads (Server.db srv)).
Proof.
  induction toDelete as [|r rest IH]; intros i srv srv' H; simpl in H.
  - injection H as <-. symmetry. apply filter_id. reflexivity.
  - destruct (processRecord (item i) r srv) as [s|s] eqn:E; simpl in H; [|discriminate].
    rewrite (IH _ s srv' H).
    assert (K : Db.videoUploads (Server.db s) =
                filter (fun v => negb (String.eqb (VideoUpload.id v) (VideoUpload.id r)))
                       (Db.videoUploads (Server.db srv))).
    { apply processRecord_Done in E as (u & _ & ->). simpl.
      rewrite fold_blankStep_videoUploads. reflexivity. }
    rewrite K.
    clear. induction (Db.videoUploads (Server.db srv)) as [|v l IHl]; simpl; [reflexivity|].
    destruct (String.eqb (VideoUpload.id v) (VideoUpload.id r)); simpl.
    + exact IHl.
    + destruct (existsb _ rest); simpl; rewrite IHl; reflexivity.
Qed.

Lemma selected_iff now db v :
  In v (viewedExpired now db ++ unviewedExpired now db) <->
  In v (Db.videoUploads db) /\ expired now v = true.
Proof.
  unfold viewedExpired, unviewedExpired, expired.
  rewrite in_app_iff, !filter_In.
  destruct (VideoUpload.coachViewedAt v); intuition congruence.
Qed.

Lemma processAll_missing item toDelete : forall i srv,
  (forall j, item j = None \/ item j = Some atUnlink) ->
  (forall v, In v toDelete ->
     entryAt (VideoUpload.filename v) (Server.uploads srv) = None) ->
  exists srv',
    processAll item i toDelete srv = Done srv' /\
    Server.uploads srv' = Server.uploads srv.
Proof.
  induction toDelete as [|r rest IH]; intros i srv Hitem Hmiss; simpl.
  - eexists. split; reflexivity.
  - destruct (processRecord_missing (item i) r srv (Hmiss r (or_introl eq_refl)) (Hitem i))
      as (s & E & U).
    rewrite E. simpl.
    destruct (IH (S i) s Hitem) as (srv' & E' & U').
    + intros v Hv. rewrite U. apply Hmiss. right. exact Hv.
    + exists srv'. split; [exact E'|congruence].
Qed.

(** X20.  A missing file is not an error.  When none of the expired records
    has its file in the uploads directory, the guard [fs.existsSync] skips
    every removal: no removal can fail, and with the database answering the
    sweep ends normally, leaves the uploads directory as it is and leaves
    no expired record. *)
Theorem sweep_of_missing_files faults now srv :
  Faults.selects faults = false ->
  (forall i, Faults.item faults i = None \/ Faults.item faults i = Some atUnlink) ->
  (forall v, In v (Db.videoUploads (Server.db srv)) -> expired now v = true ->
     entryAt (VideoUpload.filename v) (Server.uploads srv) = None) ->
  exists srv',
    cleanupExpiredVideos faults now srv = (srv', false) /\
    Server.uploads srv' = Server.uploads srv /\
    forall v, In v (Db.videoUploads (Server.db srv')) -> expired now v = false.
Proof.
  intros Hsel Hitem Hmiss. unfold cleanupExpiredVideos. rewrite Hsel.
  destruct (processAll_missing (Faults.item faults)
              (viewedExpired now (Server.db srv) ++ unviewedExpired now (Server.db srv))
              0%nat srv Hitem) as (srv' & E & U).
  { intros v Hv. apply selected_iff in Hv as [Hv Hex]. exact (Hmiss v Hv Hex). }
  rewrite E. exists srv'. split; [reflexivity|split; [exact U|]].
  intros v Hv. rewrite (processAll_videoUploads _ _ _ _ _ E) in Hv.
  apply filter_In in Hv as [Hv Hno]. apply negb_true_iff in Hno.
  destruct (expired now v) eqn:Ex; [|reflexivity].
  rewrite <- Hno. symmetry. apply existsb_exists. exists v.
  split; [apply selected_iff; auto|apply String.eqb_refl].
Qed.

Lemma sweep_records faults now srv srv' :
  NoDup (map VideoUpload.id (Db.videoUploads (Server.db srv))) ->
  cleanupExpiredVideos faults now srv = (srv', false) ->
  Db.videoUploads (Server.db srv') =
  filter (fun v => negb (expired now v)) (Db.videoUploads (Server.db srv)).
Proof.
  intros Hnd H. unfold cleanupExpiredVideos in H.
  destruct (Faults.selects faults); [discriminate|].
  destruct (processAll _ _ _ srv) as [s|s] eqn:E; [|discriminate].
  injection H as <-.
  rewrite (processAll_videoUploads _ _ _ _ _ E).
  apply filter_ext_in. intros v Hv. f_equal.
  destruct (expired now v) eqn:Ex.
  - apply existsb_exists. exists v. split; [|apply String.eqb_refl].
    apply selected_iff. auto.
  - destruct (existsb _ _) eqn:Es; [|reflexivity].
    apply existsb_exists in Es as (r & Hr & Hid).
    apply selected_iff in Hr as [Hr Hex]. apply String.eqb_eq in Hid.
    assert (r = v); [|congruence].
    clear - Hnd Hr Hv Hid.
    induction (Db.videoUploads (Server.db srv)) as [|a l IH]; [destruct Hr|].
    simpl in Hnd. inversion Hnd as [|? ? Hnotin Hnd']; subst.
    destruct Hr as [->|Hr], Hv as [->|Hv]; auto.
    + exfalso. apply Hnotin. rewrite <- Hid. apply in_map, Hv.
    + exfalso. apply Hnotin. rewrite Hid. apply in_map, Hr.
Qed.

(** X21.  A sweep that ends normally removes exactly the expired records:
    with record ids unique, the records left are those of before with a
    view time not older than 3 days or, if never viewed, an upload time not
    older than 7 days, in their order. *)
Theorem sweep_removes_exactly_the_expired faults now srv srv' :
  NoDup (map VideoUpload.id (Db.videoUploads (Server.db srv))) ->
  cleanupExpiredVideos faults now srv = (srv', false) ->
  Db.videoUploads (Server.db srv') =
  filter (fun v => negb (expired now v)) (Db.videoUploads (Server.db srv)).
Proof.
  exact (sweep_records faults now srv srv').
Qed.

(** X22.  Sweeping twice at the same time: after a sweep that ended
    normally, a second sweep at that time selects nothing and leaves the
    server as it is (record ids being unique), whatever would fail in the
    processing of a record; it logs an error only when its selects fail. *)
Theorem sweep_twice faults faults' now srv srv' :
  NoDup (map VideoUpload.id (Db.videoUploads (Server.db srv))) ->
  cleanupExpiredVideos faults now srv = (srv', false) ->
  cleanupExpiredVideos faults' now srv' = (srv', Faults.selects faults').
Proof.
  intros Hnd H.
  assert (Hleft := sweep_records faults now srv srv' Hnd H).
  assert (Hnone : (viewedExpired now (Server.db srv') ++
                   unviewedExpired now (Server.db srv'))%list = []).
  { destruct (viewedExpired now (Server.db srv') ++ unviewedExpired now (Server.db srv'))%list
      as [|v l] eqn:E; [reflexivity|].
    assert (K : In v (viewedExpired now (Server.db srv') ++
                      unviewedExpired now (Server.db srv'))%list)
      by (rewrite E; left; reflexivity).
    apply selected_iff in K as [K1 K2]. rewrite Hleft in K1.
    apply filter_In in K1 as [_ K1]. rewrite K2 in K1. discriminate. }
  unfold cleanupExpiredVideos. rewrite Hnone.
  destruct (Faults.selects faults'); reflexivity.
Qed.

Lemma NoDup_key_inj {A K : Type} (key : A -> K) (l : list A) a b :
  NoDup (map key l) -> In a l -> In b l -> key a = key b -> a = b.
Proof.
  induction l as [|x l IH]; intros Hnd Ha Hb E; [destruct Ha|].
  simpl in Hnd. inversion Hnd as [|? ? Hnotin Hnd']; subst.
  destruct Ha as [->|Ha], Hb as [->|Hb]; auto.
  - exfalso. apply Hnotin. rewrite E. apply in_map, Hb.
  - exfalso. apply Hnotin. rewrite <- E. apply in_map, Ha.
Qed.

Lemma withoutVideos_blankVideo record weeks :
  withoutVideos (blankVideo record weeks) = withoutVideos weeks.
Proof.
  unfold withoutVideos, blankVideo. rewrite map_map. apply map_ext. intro w. simpl.
  f_equal. rewrite map_map. apply map_ext. intro d. simpl.
  f_equal. rewrite map_map. apply map_ext. intro ex.
  destruct (referencesVideo record ex); reflexivity.
Qed.

Lemma blankStep_erased record d prog :
  NoDup (map Program.id (Db.programs d)) -> In prog (Db.programs d) ->
  map eraseVideos (Db.programs (blankStep record d prog)) = map eraseVideos (Db.programs d).
Proof.
  intros Hnd Hin. unfold blankStep.
  destruct (changed record (Program.weeks prog)); [|reflexivity].
  unfold setWeeks. simpl. rewrite map_map. apply map_ext_in. intros q Hq.
  destruct (String.eqb (Program.id q) (Program.id prog)) eqn:E; [|reflexivity].
  apply String.eqb_eq in E.
  rewrite (NoDup_key_inj Program.id _ q prog Hnd Hq Hin E).
  unfold eraseVideos, withWeeks. simpl. rewrite withoutVideos_blankVideo. reflexivity.
Qed.

Lemma filter_key_NoDup {A : Type} (key : A -> string) (l : list A) k :
  NoDup (map key l) ->
  filter (fun x => String.eqb (key x) k) l = [] \/
  exists x, In x l /\ filter (fun x => String.eqb (key x) k) l = [x].
Proof.
  induction l as [|a l IH]; intro Hnd; [left; reflexivity|].
  simpl in Hnd. inversion Hnd as [|? ? Hnotin Hnd']; subst. simpl.
  destruct (String.eqb (key a) k) eqn:E.
  - right. exists a. split; [left; reflexivity|]. f_equal.
    apply filter_nil. intros x Hx.
    destruct (String.eqb (key x) k) eqn:F; [|reflexivity].
    apply String.eqb_eq in E, F. exfalso. apply Hnotin. rewrite E, <- F. apply in_map, Hx.
  - destruct (IH Hnd') as [H|(x & Hx & H)]; [left; exact H|].
    right. exists x. split; [right; exact Hx|exact H].
Qed.

Lemma fold_blankStep_erased record (progs : list Program.t) : forall d,
  NoDup (map Program.id (Db.programs d)) ->
  (forall q, In q progs -> In q (Db.programs d)) ->
  (List.length progs <= 1)%nat ->
  map eraseVideos (Db.programs (fold_left (blankStep record) progs d)) =
  map eraseVideos (Db.programs d).
Proof.
  destruct progs as [|q [|q' l]]; intros d Hnd Hin Hlen; simpl in *; try lia.
  - reflexivity.
  - apply blankStep_erased; [exact Hnd|]. apply Hin. left. reflexivity.
Qed.

(** What the processing of a record leaves alone, however it ends. *)
Lemma processRecord_frame fault record srv :
  NoDup (map Program.id (Db.programs (Server.db srv))) ->
  let srv' := stateOf (processRecord fault record srv) in
  Db.profiles (Server.db srv') = Db.profiles (Server.db srv) /\
  Db.clients (Server.db srv') = Db.clients (Server.db srv) /\
  Db.prs (Server.db srv') = Db.prs (Server.db srv) /\
  Db.notifications (Server.db srv') = Db.notifications (Server.db srv) /\
  map eraseVideos (Db.programs (Server.db srv')) =
  map eraseVideos (Db.programs (Server.db srv)).
Proof.
  intro Hnd. cbn zeta.
  set (progs := filter (fun p => String.eqb (Program.id p) (VideoUpload.programId record))
                       (Db.programs (Server.db srv))).
  assert (Hin : forall q, In q progs -> In q (Db.programs (Server.db srv)))
    by (intros q Hq; apply filter_In in Hq as [Hq _]; exact Hq).
  assert (Hlen : (List.length progs <= 1)%nat).
  { destruct (filter_key_NoDup Program.id (Db.programs (Server.db srv))
                (VideoUpload.programId record) Hnd) as [E|(p & _ & E)];
      unfold progs; rewrite E; simpl; lia. }
  assert (K : forall j,
            let d := fold_left (blankStep record) (firstn j progs) (Server.db srv) in
            Db.profiles d = Db.profiles (Server.db srv) /\
            Db.clients d = Db.clients (Server.db srv) /\
            Db.prs d = Db.prs (Server.db srv) /\
            Db.notifications d = Db.notifications (Server.db srv) /\
            map eraseVideos (Db.programs d) = map eraseVideos (Db.programs (Server.db srv))).
  { intro j. cbn zeta.
    destruct (fold_blankStep_tables record (firstn j progs) (Server.db srv))
      as (A & B & C & D).
    repeat split; auto.
    apply fold_blankStep_erased; [exact Hnd| |].
    - intros q Hq. apply Hin. exact (In_firstn _ _ _ Hq).
    - rewrite length_firstn. lia. }
  destruct (processRecord fault record srv) as [s|s] eqn:E; simpl.
  - apply processRecord_Done in E as (u & _ & ->). simpl.
    fold progs. specialize (K (List.length progs)). cbn zeta in K.
    rewrite firstn_all in K. exact K.
  - apply processRecord_Thrown in E as [[j Hdb] _]. rewrite Hdb. apply K.
Qed.

Lemma erased_ids l l' :
  map eraseVideos l' = map eraseVideos l -> map Program.id l' = map Program.id l.
Proof.
  intro H. assert (K : map Program.id (map eraseVideos l') = map Program.id (map eraseVideos l))
    by (rewrite H; reflexivity).
  rewrite !map_map in K. exact K.
Qed.

Lemma processAll_frame item toDelete : forall i srv,
  NoDup (map Program.id (Db.programs (Server.db srv))) ->
  let srv' := stateOf (processAll item i toDelete srv) in
  Db.profiles (Server.db srv') = Db.profiles (Server.db srv) /\
  Db.clients (Server.db srv') = Db.clients (Server.db srv) /\
  Db.prs (Server.db srv') = Db.prs (Server.db srv) /\
  Db.notifications (Server.db srv') = Db.notifications (Server.db srv) /\
  map eraseVideos (Db.programs (Server.db srv')) =
  map eraseVideos (Db.programs (Server.db srv)).
Proof.
  induction toDelete as [|r rest IH]; intros i srv Hnd; cbn zeta; simpl.
  - repeat split.
  - pose proof (processRecord_frame (item i) r srv Hnd) as F. cbn zeta in F.
    destruct (processRecord (item i) r srv) as [s|s] eqn:E; simpl in *.
    + destruct F as (A & B & C & D & F).
      assert (Hnd' : NoDup (map Program.id (Db.programs (Server.db s))))
        by (rewrite (erased_ids _ _ F); exact Hnd).
      destruct (IH (S i) s Hnd') as (A' & B' & C' & D' & F'). cbn zeta in *.
      rewrite A', B', C', D', F'. auto.
    + exact F.
Qed.

(** X23.  What the sweep leaves alone.  With program ids unique, the sweep,
    however it ends and wherever it fails, changes no profile, client link,
    PR or notification, and of the programs nothing but video references:
    every row and, in its document, every week, day and exercise is there
    as before, with every field but the video reference as it was. *)
Theorem sweep_changes_video_references_only faults now srv :
  NoDup (map Program.id (Db.programs (Server.db srv))) ->
  let srv' := fst (cleanupExpiredVideos faults now srv) in
  Db.profiles (Server.db srv') = Db.profiles (Server.db srv) /\
  Db.clients (Server.db srv') = Db.clients (Server.db srv) /\
  Db.prs (Server.db srv') = Db.prs (Server.db srv) /\
  Db.notifications (Server.db srv') = Db.notifications (Server.db srv) /\
  map eraseVideos (Db.programs (Server.db srv')) =
  map eraseVideos (Db.programs (Server.db srv)).
Proof.
  intro Hnd. cbn zeta. unfold cleanupExpiredVideos.
  destruct (Faults.selects faults); [repeat split|].
  assert (E : fst match processAll (Faults.item faults) 0
                          (viewedExpired now (Server.db srv) ++
                           unviewedExpired now (Server.db srv)) srv with
                  | Done srv' => (srv', false)
                  | Thrown srv' => (srv', true)
                  end =
              stateOf (processAll (Faults.item faults) 0
                         (viewedExpired now (Server.db srv) ++
                          unviewedExpired now (Server.db srv)) srv)).
  { destruct (processAll _ _ _ srv); reflexivity. }
  rewrite E. apply processAll_frame, Hnd.
Qed.

Lemma processAll_uploads item toDelete : forall i srv srv',
  processAll item i toDelete srv = Done srv' ->
  Server.uploads srv' =
  filter (fun e => negb (existsb (fun r => String.eqb (fst e) (VideoUpload.filename r))
                                 toDelete))
         (Server.uploads srv).
Proof.
  induction toDelete as [|r rest IH]; intros i srv srv' H; simpl in H.
  - injection H as <-. symmetry. apply filter_id. reflexivity.
  - destruct (processRecord (item i) r srv) as [s|s] eqn:E; simpl in H; [|discriminate].
    rewrite (IH _ s srv' H), (processRecord_uploads _ _ _ _ E).
    clear. induction (Server.uploads srv) as [|e l IHl]; simpl; [reflexivity|].
    destruct (String.eqb (fst e) (VideoUpload.filename r)); simpl.
    + exact IHl.
    + destruct (existsb _ rest); simpl; rewrite IHl; reflexivity.
Qed.

Lemma sweep_files faults now srv srv' name entry :
  cleanupExpiredVideos faults now srv = (srv', false) ->
  (In (name, entry) (Server.uploads srv') <->
   In (name, entry) (Server.uploads srv) /\
   forall v, In v (Db.videoUploads (Server.db srv)) -> expired now v = true ->
     VideoUpload.filename v <> name).
Proof.
  intro H. unfold cleanupExpiredVideos in H.
  destruct (Faults.selects faults); [discriminate|].
  destruct (processAll _ _ _ srv) as [s|s] eqn:E; [|discriminate].
  injection H as <-. rewrite (processAll_uploads _ _ _ _ _ E), filter_In. simpl fst.
  split.
  - intros [Hin Hno]. split; [exact Hin|].
    intros v Hv Hex Hname. apply negb_true_iff in Hno.
    assert (K : existsb (fun r => String.eqb name (VideoUpload.filename r))
                  (viewedExpired now (Server.db srv) ++ unviewedExpired now (Server.db srv))
                = true).
    { apply existsb_exists. exists v. split.
      - apply selected_iff. auto.
      - apply String.eqb_eq. auto. }
    congruence.
  - intros [Hin Hno]. split; [exact Hin|]. apply negb_true_iff.
    destruct (existsb _ _) eqn:K; [|reflexivity].
    apply existsb_exists in K as (v & Hv & Hname).
    apply selected_iff in Hv as [Hv Hex]. apply String.eqb_eq in Hname.
    exfalso. exact (Hno v Hv Hex (eq_sym Hname)).
Qed.

(** X24.  The files after a sweep that ended normally: a name is still in
    the uploads directory exactly when it was there before and is not the
    filename of an expired record. *)
Theorem sweep_removes_the_files_of_the_expired faults now srv srv' name entry :
  cleanupExpiredVideos faults now srv = (srv', false) ->
  (In (name, entry) (Server.uploads srv') <->
   In (name, entry) (Server.uploads srv) /\
   forall v, In v (Db.videoUploads (Server.db srv)) -> expired now v = true ->
     VideoUpload.filename v <> name).
Proof.
  exact (sweep_files faults now srv srv' name entry).
Qed.

(** ** Uploading a video *)

(** X25.  An upload with its four form fields filled in stores the file and
    records it as never viewed, at the upload time.  A sweep that ends
    normally keeps that record as long as the upload is not older than 7
    days, and removes it after that (record ids being unique). *)
Theorem uploadVideo_then_sweep newId uploadedAt name programId exerciseId uploadedBy
    coachId srv faults now srv2 :
  let record :=
    VideoUpload.mk newId name programId exerciseId uploadedBy coachId None uploadedAt in
  let srv1 :=
    snd (uploadVideo newId uploadedAt (Some name) (Some programId) (Some exerciseId)
           (Some uploadedBy) (Some coachId) srv) in
  programId <> "" -> exerciseId <> "" -> uploadedBy <> "" -> coachId <> "" ->
  NoDup (map VideoUpload.id (Db.videoUploads (Server.db srv) ++ [record])) ->
  cleanupExpiredVideos faults now srv1 = (srv2, false) ->
  Db.videoUploads (Server.db srv1) = (Db.videoUploads (Server.db srv) ++ [record])%list /\
  In (name, RegularFile) (Server.uploads srv1) /\
  (In record (Db.videoUploads (Server.db srv2)) <-> now - 7 * day_ms <= uploadedAt).
Proof.
  intros record srv1 Hp He Hu Hc Hnd Hsweep.
  assert (T : forall s, s <> "" -> JS.truthy s = true)
    by (intros [|c s] H; [congruence|reflexivity]).
  assert (E1 : srv1 =
               Server.mk
                 (Db.setVideoUploads (Db.videoUploads (Server.db srv) ++ [record])
                    (Server.db srv))
                 (Server.uploads srv ++ [(name, RegularFile)])).
  { unfold srv1, uploadVideo. simpl. rewrite (T _ Hp), (T _ He), (T _ Hu), (T _ Hc).
    reflexivity. }
  split; [rewrite E1; reflexivity|split].
  - rewrite E1. simpl. apply in_or_app. right. left. reflexivity.
  - rewrite (sweep_records faults now srv1 srv2); [|rewrite E1; exact Hnd|exact Hsweep].
    rewrite filter_In, E1. simpl. unfold expired. simpl. split.
    + intros [_ H]. apply negb_true_iff, Z.ltb_ge in H. exact H.
    + intro H. split; [apply in_or_app; right; left; reflexivity|].
      apply negb_true_iff, Z.ltb_ge. exact H.
Qed.

(** X26.  An upload whose form lacks one of the four fields stores the file
    without recording it, and the answer gives its address all the same.
    No sweep that ends normally removes such a file, unless an expired
    record carries its name. *)
Theorem uploadVideo_without_record newId uploadedAt name programId exerciseId uploadedBy
    coachId srv faults now srv2 :
  let srv1 :=
    snd (uploadVideo newId uploadedAt (Some name) programId exerciseId uploadedBy coachId srv) in
  (JS.truthy_opt programId && JS.truthy_opt exerciseId
   && JS.truthy_opt uploadedBy && JS.truthy_opt coachId)%bool = false ->
  cleanupExpiredVideos faults now srv1 = (srv2, false) ->
  (forall v, In v (Db.videoUploads (Server.db srv)) -> expired now v = true ->
     VideoUpload.filename v <> name) ->
  fst (uploadVideo newId uploadedAt (Some name) programId exerciseId uploadedBy coachId srv)
    = Json ("/api/videos/" ++ name) /\
  Server.db srv1 = Server.db srv /\
  In (name, RegularFile) (Server.uploads srv2).
Proof.
  intros srv1 Hmiss Hsweep Hno.
  assert (E1 : srv1 = Server.mk (Server.db srv) (Server.uploads srv ++ [(name, RegularFile)])).
  { unfold srv1, uploadVideo. simpl.
    destruct programId as [p|], exerciseId as [e|], uploadedBy as [u|], coachId as [c|];
      try reflexivity.
    simpl in Hmiss. rewrite Hmiss. reflexivity. }
  split; [reflexivity|split; [rewrite E1; reflexivity|]].
  apply (sweep_files faults now srv1 srv2 name RegularFile Hsweep).
  rewrite E1. simpl. split; [apply in_or_app; right; left; reflexivity|exact Hno].
Qed.

(** ** Editing an exercise *)

Lemma In_mapIndexedFrom {A B : Type} (f : A -> nat -> B) (l : list A) : forall i y,
  In y (mapIndexedFrom f l i) -> exists x k, In x l /\ y = f x k.
Proof.
  induction l as [|a l IH]; intros i y H; simpl in H; [destruct H|].
  destruct H as [<-|H].
  - exists a, i. split; [left; reflexivity|reflexivity].
  - destruct (IH (S i) y H) as (x & k & Hx & E). exists x, k. split; [right; exact Hx|exact E].
Qed.

Lemma map_mapIndexedFrom {A B C : Type} (g : B -> C) (h : A -> C) (f : A -> nat -> B)
    (l : list A) :
  (forall x k, g (f x k) = h x) ->
  forall i, map g (mapIndexedFrom f l i) = map h l.
Proof.
  intro H. induction l as [|a l IH]; intro i; simpl; [reflexivity|].
  rewrite H, IH. reflexivity.
Qed.

(** Where the exercises of an edited program come from. *)
Lemma updateExercise_origin activeWeek activeDay exerciseId updates program week' day' ex' :
  In week' (Program.weeks (updateExercise activeWeek activeDay exerciseId updates program)) ->
  In day' (WorkoutWeek.days week') -> In ex' (WorkoutDay.exercises day') ->
  exists week day ex,
    In week (Program.weeks program) /\ In day (WorkoutWeek.days week) /\
    In ex (WorkoutDay.exercises day) /\
    WorkoutWeek.weekNumber week = WorkoutWeek.weekNumber week' /\
    WorkoutDay.dayNumber day = WorkoutDay.dayNumber day' /\
    (ex' = ex \/
     (WorkoutWeek.weekNumber week' = activeWeek /\ WorkoutDay.dayNumber day' = activeDay /\
      Exercise.id ex = exerciseId /\ ex' = applyUpdates updates ex) \/
     (activeWeek < WorkoutWeek.weekNumber week' /\ WorkoutDay.dayNumber day' = activeDay /\
      exists newName, ExerciseUpdates.name updates = Some newName /\
                      ex' = setName newName ex)).
Proof.
  unfold updateExercise.
  set (renamed := match ExerciseUpdates.name updates with
                  | Some _ => _ | None => _ end).
  assert (Hren : forall n o i, renamed = Some (n, o, i) -> ExerciseUpdates.name updates = Some n).
  { unfold renamed. intros n o i.
    destruct (ExerciseUpdates.name updates) as [n'|]; [|discriminate].
    match goal with |- match ?a with _ => _ end = _ -> _ => destruct a as [o'|] end;
      [|discriminate].
    match goal with |- match ?a with _ => _ end = _ -> _ => destruct a as [i'|] end;
      [|discriminate].
    destruct (negb _); [|discriminate]. intro E. injection E as -> _ _. reflexivity. }
  clearbody renamed.
  change (Program.weeks (withWeeks ?w program)) with w.
  intros Hw Hd He. apply in_map_iff in Hw as (week & <- & Hweek).
  destruct (WorkoutWeek.weekNumber week =? activeWeek) eqn:Ew.
  - simpl in Hd. apply in_map_iff in Hd as (day & <- & Hday).
    destruct (WorkoutDay.dayNumber day =? activeDay) eqn:Ed; simpl in He.
    + apply in_map_iff in He as (ex & <- & Hex).
      exists week, day, ex. repeat split; auto.
      destruct (String.eqb (Exercise.id ex) exerciseId) eqn:Ei; [|left; reflexivity].
      right. left. repeat split.
      * apply Z.eqb_eq, Ew.
      * apply Z.eqb_eq, Ed.
      * apply String.eqb_eq, Ei.
    + exists week, day, ex'. repeat split; auto.
  - destruct renamed as [[[n o] i]|]; [|exists week, day', ex'; repeat split; auto].
    destruct (activeWeek <? WorkoutWeek.weekNumber week) eqn:El;
      [|exists week, day', ex'; repeat split; auto].
    simpl in Hd. apply in_map_iff in Hd as (day & <- & Hday).
    destruct (WorkoutDay.dayNumber day =? activeDay) eqn:Ed; simpl in He;
      [|exists week, day, ex'; repeat split; auto].
    destruct (nth_error (WorkoutDay.exercises day) i) as [target|];
      [|exists week, day, ex'; repeat split; auto].
    destruct (negb (JS.truthy (Exercise.name target))
              || String.eqb (Exercise.name target) (Exercise.name o))%bool;
      [|exists week, day, ex'; repeat split; auto].
    simpl in He. apply In_mapIndexedFrom in He as (ex & k & Hex & ->).
    exists week, day, ex. repeat split; auto.
    destruct (Nat.eqb k i); [|left; reflexivity].
    right. right. repeat split.
    + apply Z.ltb_lt, El.
    + apply Z.eqb_eq, Ed.
    + exists n. split; [exact (Hren n o i eq_refl)|reflexivity].
Qed.

(** X27.  Editing an exercise keeps the shape of the document: when the
    update carries no identifier, the program has the same weeks, days and
    exercise identifiers, in the same order, as before. *)
Theorem updateExercise_keeps_the_shape activeWeek activeDay exerciseId updates program :
  ExerciseUpdates.id updates = None ->
  skeleton (Program.weeks (updateExercise activeWeek activeDay exerciseId updates program)) =
  skeleton (Program.weeks program).
Proof.
  intro Hid. unfold updateExercise.
  set (renamed := match ExerciseUpdates.name updates with
                  | Some _ => _ | None => _ end).
  clearbody renamed.
  change (Program.weeks (withWeeks ?w program)) with w.
  unfold skeleton. rewrite map_map. apply map_ext. intro week.
  destruct (WorkoutWeek.weekNumber week =? activeWeek).
  - simpl. f_equal. rewrite map_map. apply map_ext. intro day.
    destruct (negb (WorkoutDay.dayNumber day =? activeDay)); [reflexivity|].
    simpl. f_equal. rewrite map_map. apply map_ext. intro ex.
    destruct (String.eqb (Exercise.id ex) exerciseId); [|reflexivity].
    unfold applyUpdates. simpl. rewrite Hid. reflexivity.
  - destruct renamed as [[[n o] i]|]; [|reflexivity].
    destruct (activeWeek <? WorkoutWeek.weekNumber week); [|reflexivity].
    simpl. f_equal. rewrite map_map. apply map_ext. intro day.
    destruct (negb (WorkoutDay.dayNumber day =? activeDay)); [reflexivity|].
    destruct (nth_error (WorkoutDay.exercises day) i) as [target|]; [|reflexivity].
    destruct (negb (JS.truthy (Exercise.name target))
              || String.eqb (Exercise.name target) (Exercise.name o))%bool; [|reflexivity].
    simpl. f_equal. apply map_mapIndexedFrom.
    intros x k. destruct (Nat.eqb k i); reflexivity.
Qed.

(** X28.  An edit of the prescription is not reported.  When an update
    carries only name, weight, reps and sets, RPE or notes, applying it to
    the stored program and saving persists no notification, whoever saves
    and however far the new name spreads into later weeks (the stored
    document having unique keys). *)
Theorem updateExercise_then_save profile isCoach today activeWeek activeDay exerciseId
    updates program old db :
  getProgram db (Program.id program) = Some old ->
  Program.weeks program = Program.weeks old ->
  uniqueKeys (Program.weeks old) ->
  prescriptionOnly updates ->
  Db.notifications
    (save profile isCoach today
       (updateExercise activeWeek activeDay exerciseId updates program) db) =
  Db.notifications db.
Proof.
  intros Hget Hweeks U (Hid & Hc & Hn & Hcc & Hv).
  apply (save_silent profile isCoach today _ old db); auto.
  intros week' day' ex' Hw Hd He.
  destruct (updateExercise_origin _ _ _ _ _ _ _ _ Hw Hd He)
    as (week & day & ex & Hweek & Hday & Hex & Ew & Ed & Hcase).
  exists week, day, ex. rewrite <- Hweeks. repeat split; auto.
  - destruct Hcase as [->|[(_ & _ & _ & ->)|(_ & _ & n & _ & ->)]]; try reflexivity.
    unfold applyUpdates. simpl. rewrite Hid. reflexivity.
  - destruct Hcase as [->|[(_ & _ & _ & ->)|(_ & _ & n & _ & ->)]];
      unfold applyUpdates; simpl; rewrite ?Hn; auto.
  - destruct Hcase as [->|[(_ & _ & _ & ->)|(_ & _ & n & _ & ->)]];
      unfold applyUpdates; simpl; rewrite ?Hv; auto.
  - destruct Hcase as [->|[(_ & _ & _ & ->)|(_ & _ & n & _ & ->)]];
      unfold applyUpdates; simpl; rewrite ?Hcc; auto.
  - destruct Hcase as [->|[(_ & _ & _ & ->)|(_ & _ & n & _ & ->)]];
      unfold applyUpdates; simpl; rewrite ?Hc;
      destruct (Exercise.isCompleted ex); auto.
Qed.

(** X29.  What an edit can reach.  Every exercise of the edited program is
    an exercise of the program before, in the week and day with the same
    numbers: untouched, or, in the active day of the active week and under
    the edited identifier, with the update applied, or, in the active day of
    a later week, with nothing but the name replaced by the update's.  So no
    edit reaches an earlier week or another day. *)
Theorem updateExercise_reaches_the_active_day_only activeWeek activeDay exerciseId updates
    program week' day' ex' :
  In week' (Program.weeks (updateExercise activeWeek activeDay exerciseId updates program)) ->
  In day' (WorkoutWeek.days week') -> In ex' (WorkoutDay.exercises day') ->
  exists week day ex,
    In week (Program.weeks program) /\ In day (WorkoutWeek.days week) /\
    In ex (WorkoutDay.exercises day) /\
    WorkoutWeek.weekNumber week = WorkoutWeek.weekNumber week' /\
    WorkoutDay.dayNumber day = WorkoutDay.dayNumber day' /\
    (ex' = ex \/
     (WorkoutWeek.weekNumber week' = activeWeek /\ WorkoutDay.dayNumber day' = activeDay /\
      Exercise.id ex = exerciseId /\ ex' = applyUpdates updates ex) \/
     (activeWeek < WorkoutWeek.weekNumber week' /\ WorkoutDay.dayNumber day' = activeDay /\
      exists newName, ExerciseUpdates.name updates = Some newName /\
                      ex' = setName newName ex)).
Proof.
  exact (updateExercise_origin activeWeek activeDay exerciseId updates program week' day' ex').
Qed.

(** ** Viewing a video, then the sweep *)

Lemma In_NoDup_map_eq {A B : Type} (f : A -> B) (l : list A) a b :
  NoDup (map f l) -> In a l -> In b l -> f a = f b -> a = b.
Proof.
  induction l as [|x l IH]; intros Hnd Ha Hb E; [destruct Ha|].
  simpl in Hnd. inversion Hnd as [|? ? Hnotin Hnd']; subst.
  destruct Ha as [->|Ha], Hb as [->|Hb]; auto.
  - exfalso. apply Hnotin. rewrite E. apply in_map, Hb.
  - exfalso. apply Hnotin. rewrite <- E. apply in_map, Ha.
Qed.

(** X30.  A view restarts the clock.  Once a never-viewed video has been
    marked as viewed, its upload time no longer counts: a sweep that ends
    normally keeps a record with its identifier exactly when the view is not
    older than 3 days (record ids being unique). *)
Theorem markViewed_then_sweep viewedAt faults now srv srv2 v :
  NoDup (map VideoUpload.id (Db.videoUploads (Server.db srv))) ->
  In v (Db.videoUploads (Server.db srv)) ->
  VideoUpload.coachViewedAt v = None ->
  cleanupExpiredVideos faults now
    (Server.mk (snd (markViewed viewedAt (VideoUpload.filename v) (Server.db srv)))
       (Server.uploads srv)) = (srv2, false) ->
  (exists v', In v' (Db.videoUploads (Server.db srv2)) /\
              VideoUpload.id v' = VideoUpload.id v) <->
  now - 3 * day_ms <= viewedAt.
Proof.
  intros Hnd Hv Hnone Hsweep.
  set (srv1 := Server.mk _ _) in Hsweep.
  set (unviewed := fun x =>
         (String.eqb (VideoUpload.filename x) (VideoUpload.filename v)
          && match VideoUpload.coachViewedAt x with None => true | Some _ => false end)%bool).
  set (stamp := fun x =>
         if unviewed x then
           VideoUpload.mk (VideoUpload.id x) (VideoUpload.filename x)
             (VideoUpload.programId x) (VideoUpload.exerciseId x)
             (VideoUpload.uploadedBy x) (VideoUpload.coachId x) (Some viewedAt)
             (VideoUpload.uploadedAt x)
         else x).
  assert (E1 : Db.videoUploads (Server.db srv1) =
               map stamp (Db.videoUploads (Server.db srv))) by reflexivity.
  assert (Hid : forall x, VideoUpload.id (stamp x) = VideoUpload.id x)
    by (intro x; unfold stamp; destruct (unviewed x); reflexivity).
  assert (Hsv : expired now (stamp v) = (viewedAt <? now - 3 * day_ms)).
  { unfold stamp, unviewed. rewrite Hnone, String.eqb_refl. reflexivity. }
  rewrite (sweep_records faults now srv1 srv2); [| |exact Hsweep].
  - rewrite E1. split.
    + intros (v' & Hin & E). apply filter_In in Hin as [Hin Hex].
      apply in_map_iff in Hin as (x & <- & Hx). rewrite Hid in E.
      rewrite (In_NoDup_map_eq VideoUpload.id _ x v Hnd Hx Hv E), Hsv in Hex.
      apply negb_true_iff, Z.ltb_ge in Hex. exact Hex.
    + intro H. exists (stamp v). split; [|apply Hid].
      apply filter_In. split; [apply in_map, Hv|].
      rewrite Hsv. apply negb_true_iff, Z.ltb_ge. exact H.
  - rewrite E1, map_map. rewrite (map_ext _ VideoUpload.id Hid). exact Hnd.
Qed.

(** ** The further properties on sample data *)

Lemma getProgram_after_save_witness :
  getProgram (save Sample.coach true Sample.today Sample.commented (Sample.db Sample.stored))
    "prog-1" =
  Some Sample.commented.
Proof.
  exact (getProgram_after_save Sample.coach true Sample.today Sample.commented
           (Sample.db Sample.stored) Sample.stored eq_refl).
Defined.

Lemma save_of_unstored_program_witness :
  Db.programs (save Sample.coach true Sample.today Sample.otherProgram
                 (Sample.db Sample.stored)) = [Sample.stored] /\
  Db.notifications (save Sample.coach true Sample.today Sample.otherProgram
                      (Sample.db Sample.stored)) = [] /\
  getProgram (save Sample.coach true Sample.today Sample.otherProgram
                (Sample.db Sample.stored)) "prog-2" = None.
Proof.
  exact (save_of_unstored_program Sample.coach true Sample.today Sample.otherProgram
           (Sample.db Sample.stored) eq_refl).
Defined.

Lemma Scenario_exercises (a b : Exercise.t) n m week day ex :
  In week [WorkoutWeek.mk n [WorkoutDay.mk m [a; b]]] ->
  In day (WorkoutWeek.days week) -> In ex (WorkoutDay.exercises day) ->
  week = WorkoutWeek.mk n [WorkoutDay.mk m [a; b]] /\ day = WorkoutDay.mk m [a; b] /\
  (ex = a \/ ex = b).
Proof.
  intros [<-|[]] [<-|[]] [<-|[<-|[]]]; auto.
Qed.

Lemma save_of_nothing_new_is_silent_witness :
  Db.notifications
    (save Sample.client false Sample.today Scenario.reordered (Sample.db Sample.stored)) = [].
Proof.
  apply (save_of_nothing_new_is_silent Sample.client false Sample.today Scenario.reordered
           Sample.stored (Sample.db Sample.stored)).
  - reflexivity.
  - exact Sample_stored_uniqueKeys.
  - intros week day ex Hw Hd He.
    destruct (Scenario_exercises _ _ _ _ _ _ _ Hw Hd He) as (-> & -> & [-> | ->]);
      exists (WorkoutWeek.mk 1 [WorkoutDay.mk 1 [Sample.benchPress; Sample.squatRow]]),
             (WorkoutDay.mk 1 [Sample.benchPress; Sample.squatRow]);
      [exists Sample.squatRow|exists Sample.benchPress];
      repeat split; simpl; auto.
Defined.

Lemma currentBest_is_weight_of_getBestPR_witness :
  currentBest Scenario.ledger squat = JS.Finite (120 # 1).
Proof.
  apply (currentBest_is_weight_of_getBestPR Scenario.ledger squat
           (LiftPR.mk squat (JS.Finite (120 # 1)) kg "2026-10-03" "")).
  - reflexivity.
  - intros p [<-|[<-|[<-|[]]]] _; reflexivity.
Defined.

Lemma deleteExercise_addExercise_witness :
  deleteExercise 1 1 "ex-3" (addExercise 1 1 "ex-3" Sample.stored) = Sample.stored.
Proof.
  apply (deleteExercise_addExercise 1 1 "ex-3" Sample.stored).
  intros week day ex Hw _ Hd _ He.
  destruct (Scenario_exercises _ _ _ _ _ _ _ Hw Hd He) as (_ & _ & [-> | ->]); discriminate.
Defined.

Lemma deleteExercise_then_save_witness :
  (forall week day ex,
     In week (Program.weeks (deleteExercise 1 1 "ex-1" Sample.stored)) ->
     In day (WorkoutWeek.days week) -> In ex (WorkoutDay.exercises day) ->
     WorkoutWeek.weekNumber week = 1 -> WorkoutDay.dayNumber day = 1 ->
     Exercise.id ex <> "ex-1") /\
  Db.notifications
    (save Sample.coach true Sample.today (deleteExercise 1 1 "ex-1" Sample.stored)
       (Sample.db Sample.stored)) = [].
Proof.
  exact (deleteExercise_then_save Sample.coach true Sample.today 1 1 "ex-1" Sample.stored
           Sample.stored (Sample.db Sample.stored) eq_refl eq_refl Sample_stored_uniqueKeys).
Defined.

Lemma joinCoach_twice_witness :
  joinCoach "link-3" 3000 "abc123" "client-2" "Sammy" Scenario.joinedDb =
  (Json Scenario.joinAnswer, Scenario.joinedDb).
Proof.
  exact (joinCoach_twice "link-2" 2000 "abc123" "client-2" "Sam" Scenario.joinAnswer
           Scenario.joinedDb Scenario.joinDb "link-3" 3000 "Sammy" eq_refl).
Defined.

Lemma Scenario_joinDb_one_link cp :
  (List.length (linksOfClient cp Scenario.joinDb) <= 1)%nat.
Proof.
  unfold linksOfClient, Scenario.joinDb. cbn [Db.clients filter].
  destruct (String.eqb (Client.clientProfileId Sample.link) cp); simpl; lia.
Qed.

Lemma Scenario_joinDb_NoDup : NoDup (map UserProfile.id (Db.profiles Scenario.joinDb)).
Proof.
  simpl. repeat constructor; simpl; intuition discriminate.
Qed.

Lemma joinCoach_keeps_one_link_per_client_witness :
  (List.length
     (linksOfClient "client-2"
        (snd (joinCoach "link-2" 2000 "abc123" "client-2" "Sam" Scenario.joinDb)))
   <= 1)%nat.
Proof.
  exact (joinCoach_keeps_one_link_per_client "link-2" 2000 "abc123" "client-2" "Sam"
           Scenario.joinDb Scenario_joinDb_one_link "client-2").
Defined.

Lemma joinCoach_keeps_coaches_within_limit_witness :
  Z.of_nat
    (List.length
       (linksOfCoach "coach-1"
          (snd (joinCoach "link-2" 2000 "abc123" "client-2" "Sam" Scenario.joinDb))))
  <= effectiveLimit Sample.coach.
Proof.
  refine (joinCoach_keeps_coaches_within_limit "link-2" 2000 "abc123" "client-2" "Sam"
            Scenario.joinDb Scenario_joinDb_NoDup _ Sample.coach _).
  - intros p [<-|[<-|[<-|[]]]]; vm_compute; discriminate.
  - left. reflexivity.
Defined.

Lemma myCoach_after_joinCoach_witness :
  myCoach "client-2" Scenario.joinedDb =
  Json (Some (MyCoach.mk "coach-1" "Casey" "link-2")).
Proof.
  apply (myCoach_after_joinCoach "link-2" 2000 "abc123" "client-2" "Sam" Scenario.joinAnswer
           Scenario.joinedDb Scenario.joinDb Scenario_joinDb_NoDup Scenario_joinDb_one_link).
  - discriminate.
  - reflexivity.
Defined.

Lemma Scenario_mixedServer_NoDup :
  NoDup (map VideoUpload.id (Db.videoUploads (Server.db Scenario.mixedServer))).
Proof.
  simpl. repeat constructor; simpl; intuition discriminate.
Qed.

Lemma sweep_of_missing_files_witness :
  exists srv',
    cleanupExpiredVideos Scenario.removalsFail Sample.now Scenario.lostFileServer =
      (srv', false) /\
    Server.uploads srv' = [("d.mp4", RegularFile)] /\
    forall v, In v (Db.videoUploads (Server.db srv')) -> expired Sample.now v = false.
Proof.
  apply (sweep_of_missing_files Scenario.removalsFail Sample.now Scenario.lostFileServer).
  - reflexivity.
  - intro i. right. reflexivity.
  - intros v [<-|[<-|[]]] H; [reflexivity|discriminate H].
Defined.

Lemma sweep_removes_exactly_the_expired_witness :
  Db.videoUploads
    (Server.db (fst (cleanupExpiredVideos Faults.none Sample.now Scenario.mixedServer))) =
  filter (fun v => negb (expired Sample.now v))
    [Sample.sharedVideo; Scenario.recentVideo].
Proof.
  apply (sweep_removes_exactly_the_expired Faults.none Sample.now Scenario.mixedServer
           (fst (cleanupExpiredVideos Faults.none Sample.now Scenario.mixedServer))
           Scenario_mixedServer_NoDup).
  reflexivity.
Defined.

Lemma sweep_twice_witness :
  cleanupExpiredVideos Scenario.removalsFail Sample.now
    (fst (cleanupExpiredVideos Faults.none Sample.now Scenario.mixedServer)) =
  (fst (cleanupExpiredVideos Faults.none Sample.now Scenario.mixedServer), false).
Proof.
  apply (sweep_twice Faults.none Scenario.removalsFail Sample.now Scenario.mixedServer
           (fst (cleanupExpiredVideos Faults.none Sample.now Scenario.mixedServer))
           Scenario_mixedServer_NoDup).
  reflexivity.
Defined.

Lemma sweep_changes_video_references_only_witness :
  Db.profiles (Server.db (fst (cleanupExpiredVideos Faults.none Sample.now Scenario.mixedServer))) =
    [Sample.coach; Sample.client] /\
  Db.clients (Server.db (fst (cleanupExpiredVideos Faults.none Sample.now Scenario.mixedServer))) =
    [Sample.link] /\
  Db.prs (Server.db (fst (cleanupExpiredVideos Faults.none Sample.now Scenario.mixedServer))) = [] /\
  Db.notifications (Server.db (fst (cleanupExpiredVideos Faults.none Sample.now Scenario.mixedServer))) =
    [] /\
  map eraseVideos
    (Db.programs (Server.db (fst (cleanupExpiredVideos Faults.none Sample.now Scenario.mixedServer)))) =
  map eraseVideos [Sample.videoProgram; Sample.otherProgram].
Proof.
  apply (sweep_changes_video_references_only Faults.none Sample.now Scenario.mixedServer).
  simpl. repeat constructor; simpl; intuition discriminate.
Defined.

Lemma sweep_removes_the_files_of_the_expired_witness :
  In ("d.mp4", RegularFile)
     (Server.uploads (fst (cleanupExpiredVideos Faults.none Sample.now Scenario.mixedServer))) <->
  In ("d.mp4", RegularFile) (Server.uploads Scenario.mixedServer) /\
  forall v, In v (Db.videoUploads (Server.db Scenario.mixedServer)) ->
    expired Sample.now v = true -> VideoUpload.filename v <> "d.mp4".
Proof.
  apply (sweep_removes_the_files_of_the_expired Faults.none Sample.now Scenario.mixedServer
           (fst (cleanupExpiredVideos Faults.none Sample.now Scenario.mixedServer)) "d.mp4" RegularFile).
  reflexivity.
Defined.

Lemma uploadVideo_then_sweep_witness :
  let record :=
    VideoUpload.mk "vid-5" "e.mp4" "prog-1" "ex-1" "client-1" "coach-1" None (9 * day_ms) in
  let srv1 :=
    snd (uploadVideo "vid-5" (9 * day_ms) (Some "e.mp4") (Some "prog-1") (Some "ex-1")
           (Some "client-1") (Some "coach-1") Scenario.mixedServer) in
  Db.videoUploads (Server.db srv1) =
    [Sample.sharedVideo; Scenario.recentVideo; record] /\
  In ("e.mp4", RegularFile) (Server.uploads srv1) /\
  (In record (Db.videoUploads (Server.db (fst (cleanupExpiredVideos Faults.none Sample.now srv1)))) <->
   Sample.now - 7 * day_ms <= 9 * day_ms).
Proof.
  apply (uploadVideo_then_sweep "vid-5" (9 * day_ms) "e.mp4" "prog-1" "ex-1" "client-1"
           "coach-1" Scenario.mixedServer Faults.none Sample.now
           (fst (cleanupExpiredVideos Faults.none Sample.now
                   (snd (uploadVideo "vid-5" (9 * day_ms) (Some "e.mp4") (Some "prog-1")
                           (Some "ex-1") (Some "client-1") (Some "coach-1")
                           Scenario.mixedServer)))));
    try discriminate.
  - simpl. repeat constructor; simpl; intuition discriminate.
  - reflexivity.
Defined.

Lemma uploadVideo_without_record_witness :
  let srv1 :=
    snd (uploadVideo "vid-5" (9 * day_ms) (Some "e.mp4") None (Some "ex-1")
           (Some "client-1") (Some "coach-1") Scenario.mixedServer) in
  fst (uploadVideo "vid-5" (9 * day_ms) (Some "e.mp4") None (Some "ex-1")
         (Some "client-1") (Some "coach-1") Scenario.mixedServer) =
    Json "/api/videos/e.mp4" /\
  Server.db srv1 = Server.db Scenario.mixedServer /\
  In ("e.mp4", RegularFile)
     (Server.uploads (fst (cleanupExpiredVideos Faults.none (100 * day_ms) srv1))).
Proof.
  apply (uploadVideo_without_record "vid-5" (9 * day_ms) "e.mp4" None (Some "ex-1")
           (Some "client-1") (Some "coach-1") Scenario.mixedServer Faults.none (100 * day_ms)
           (fst (cleanupExpiredVideos Faults.none (100 * day_ms)
                   (snd (uploadVideo "vid-5" (9 * day_ms) (Some "e.mp4") None (Some "ex-1")
                           (Some "client-1") (Some "coach-1") Scenario.mixedServer))))).
  - reflexivity.
  - reflexivity.
  - intros v [<-|[<-|[]]] _; discriminate.
Defined.

Lemma Scenario_twoWeeks_uniqueKeys : uniqueKeys (Program.weeks Scenario.twoWeeks).
Proof.
  split.
  - simpl. repeat constructor; simpl; intuition discriminate.
  - intros w [<-|[<-|[]]]; (split;
      [simpl; repeat constructor; intros []
      |intros d [<-|[]]; simpl; repeat constructor; simpl; intuition discriminate]).
Qed.

Lemma updateExercise_keeps_the_shape_witness :
  skeleton (Program.weeks (updateExercise 1 1 "ex-1" Scenario.rename Scenario.twoWeeks)) =
  [(1, [(1, ["ex-1"; "ex-2"])]); (2, [(1, ["ex-5"; "ex-6"])])].
Proof.
  exact (updateExercise_keeps_the_shape 1 1 "ex-1" Scenario.rename Scenario.twoWeeks eq_refl).
Defined.

Lemma updateExercise_then_save_witness :
  Db.notifications
    (save Sample.coach true Sample.today
       (updateExercise 1 1 "ex-1" Scenario.rename Scenario.twoWeeks)
       (Sample.db Scenario.twoWeeks)) = [].
Proof.
  apply (updateExercise_then_save Sample.coach true Sample.today 1 1 "ex-1" Scenario.rename
           Scenario.twoWeeks Scenario.twoWeeks (Sample.db Scenario.twoWeeks)).
  - reflexivity.
  - reflexivity.
  - exact Scenario_twoWeeks_uniqueKeys.
  - repeat split.
Defined.

Lemma updateExercise_reaches_the_active_day_only_witness :
  exists week day ex,
    In week (Program.weeks Scenario.twoWeeks) /\ In day (WorkoutWeek.days week) /\
    In ex (WorkoutDay.exercises day) /\
    WorkoutWeek.weekNumber week = 2 /\
    WorkoutDay.dayNumber day = 1 /\
    (Exercise.mk "ex-5" "Incline Bench Press" "" "4x8" "" false "" "" "" "" = ex \/
     (2 = 1 /\ 1 = 1 /\ Exercise.id ex = "ex-1" /\
      Exercise.mk "ex-5" "Incline Bench Press" "" "4x8" "" false "" "" "" "" =
      applyUpdates Scenario.rename ex) \/
     (1 < 2 /\ 1 = 1 /\
      exists newName, ExerciseUpdates.name Scenario.rename = Some newName /\
        Exercise.mk "ex-5" "Incline Bench Press" "" "4x8" "" false "" "" "" "" =
        setName newName ex)).
Proof.
  apply (updateExercise_reaches_the_active_day_only 1 1 "ex-1" Scenario.rename
           Scenario.twoWeeks
           (WorkoutWeek.mk 2
              [WorkoutDay.mk 1
                 [Exercise.mk "ex-5" "Incline Bench Press" "" "4x8" "" false "" "" "" "";
                  Exercise.mk "ex-6" "Squat" "" "5x5" "" false "" "" "" ""]])
           (WorkoutDay.mk 1
              [Exercise.mk "ex-5" "Incline Bench Press" "" "4x8" "" false "" "" "" "";
               Exercise.mk "ex-6" "Squat" "" "5x5" "" false "" "" "" ""])
           (Exercise.mk "ex-5" "Incline Bench Press" "" "4x8" "" false "" "" "" "")).
  - right. left. reflexivity.
  - left. reflexivity.
  - left. reflexivity.
Defined.

Lemma markViewed_then_sweep_witness :
  (exists v',
     In v' (Db.videoUploads
              (Server.db
                 (fst (cleanupExpiredVideos Faults.none (20 * day_ms)
                         (Server.mk
                            (snd (markViewed (18 * day_ms) "d.mp4"
                                    (Server.db Scenario.mixedServer)))
                            (Server.uploads Scenario.mixedServer)))))) /\
     VideoUpload.id v' = "vid-4") <->
  20 * day_ms - 3 * day_ms <= 18 * day_ms.
Proof.
  apply (markViewed_then_sweep (18 * day_ms) Faults.none (20 * day_ms) Scenario.mixedServer
           (fst (cleanupExpiredVideos Faults.none (20 * day_ms)
                   (Server.mk
                      (snd (markViewed (18 * day_ms) "d.mp4"
                              (Server.db Scenario.mixedServer)))
                      (Server.uploads Scenario.mixedServer))))
           Scenario.recentVideo Scenario_mixedServer_NoDup).
  - right. left. reflexivity.
  - reflexivity.
  - reflexivity.
Defined.
